(** * Social-Media-Analysis: the analytical engine, embedded and verified

    Embedding of [services/dataProcessor.ts] (the normalizer
    [processCSVData], the sync analyzer [calculateNTS], the forecaster
    [generateNeuralForecast], the summarizer [generateRichSummary]), of
    the application component (the report section splitting inside
    [startBriefing], the view [filteredData], the mock points and what a
    pulse does to the data, the log and the link), of the data of the
    charts of [components/DataVisuals.tsx], and of the selection made by
    the report request [generateTacticalReport].

    Conventions of the embedding.
    - A JavaScript [number] is a value of [num]: [NaN], the two infinities,
      or a finite value carried as an exact rational.  Rounding of binary64
      arithmetic and the sign of zero are not represented; every concrete
      value used below is a small integer or a ratio that binary64 rounds
      on the same side.
    - A JavaScript string is a [string] of 8-bit code units.
    - What the host decides (the formats [Date.parse] accepts beyond ISO,
      the local time zone, the clock, [Math.random], the locale of
      [toLocaleString]) is a field of the record [Host].
    - A thrown exception is the [Throw] constructor of [result].
    - Arrays that a function receives by reference live in a [Heap]. *)

From Stdlib Require Import ZArith QArith Qabs Qround Lia Lqa Bool Ascii String List.
From Stdlib Require Import DecimalString Sorted.
From stdpp Require Import base option list gmap strings.

Local Open Scope string_scope.
Local Open Scope list_scope.
Local Open Scope Z_scope.

(** ** Exceptions *)

Inductive JsError : Type := TypeError | RangeError.

Inductive result (A : Type) : Type :=
| Ok (a : A)
| Throw (e : JsError).
Arguments Ok {A} a.
Arguments Throw {A} e.

#[global] Instance result_ret : MRet result := fun A a => Ok a.
#[global] Instance result_bind : MBind result := fun A B f m =>
  match m with Ok a => f a | Throw e => Throw e end.
#[global] Instance result_fmap : FMap result := fun A B f m =>
  match m with Ok a => Ok (f a) | Throw e => Throw e end.

(** ** JavaScript numbers *)

Inductive num : Type :=
| NaN
| Inf (negative : bool)
| Fin (q : Q).

Module Num.

Definition fin (q : Q) : num := Fin (Qred q).
Definition of_Z (z : Z) : num := Fin (inject_Z z).
Definition of_nat (n : nat) : num := of_Z (Z.of_nat n).
Definition zero : num := of_Z 0.

Definition qneg (q : Q) : bool := Qnum q <? 0.
Definition qzero (q : Q) : bool := Qnum q =? 0.

(** [-x] *)
Definition neg (a : num) : num :=
  match a with
  | NaN => NaN
  | Inf s => Inf (negb s)
  | Fin q => fin (Qopp q)
  end.

(** [a + b] *)
Definition add (a b : num) : num :=
  match a, b with
  | NaN, _ | _, NaN => NaN
  | Inf s, Inf t => if Bool.eqb s t then Inf s else NaN
  | Inf s, Fin _ | Fin _, Inf s => Inf s
  | Fin x, Fin y => fin (Qplus x y)
  end.

(** [a - b] *)
Definition sub (a b : num) : num := add a (neg b).

(** [a * b] *)
Definition mul (a b : num) : num :=
  match a, b with
  | NaN, _ | _, NaN => NaN
  | Inf s, Inf t => Inf (xorb s t)
  | Inf s, Fin q | Fin q, Inf s =>
      if qzero q then NaN else Inf (xorb s (qneg q))
  | Fin x, Fin y => fin (Qmult x y)
  end.

(** [a / b] *)
Definition div (a b : num) : num :=
  match a, b with
  | NaN, _ | _, NaN => NaN
  | Inf _, Inf _ => NaN
  | Inf s, Fin q => Inf (xorb s (qneg q))
  | Fin _, Inf _ => zero
  | Fin x, Fin y =>
      if qzero y then (if qzero x then NaN else Inf (qneg x))
      else fin (Qdiv x y)
  end.

(** ToBoolean on a number: [NaN] and zero are falsy. *)
Definition truthy (a : num) : bool :=
  match a with
  | NaN => false
  | Inf _ => true
  | Fin q => negb (qzero q)
  end.

(** [a < b] and [a <= b]; any comparison with [NaN] is false. *)
Definition ltb (a b : num) : bool :=
  match a, b with
  | NaN, _ | _, NaN => false
  | Inf s, Inf t => s && negb t
  | Inf s, Fin _ => s
  | Fin _, Inf t => negb t
  | Fin x, Fin y => negb (Qle_bool y x)
  end.

Definition leb (a b : num) : bool :=
  match a, b with
  | NaN, _ | _, NaN => false
  | Inf s, Inf t => s || negb t
  | Inf s, Fin _ => s
  | Fin _, Inf t => negb t
  | Fin x, Fin y => Qle_bool x y
  end.

(** [Math.max(a, b)] *)
Definition max (a b : num) : num :=
  match a, b with
  | NaN, _ | _, NaN => NaN
  | _, _ => if ltb a b then b else a
  end.

(** [Math.round(a)]: the integer nearest to [a], ties towards +Infinity. *)
Definition round (a : num) : num :=
  match a with
  | Fin q => of_Z (Qfloor (Qplus q (1 # 2)))
  | _ => a
  end.

(** Equality of values (not the [===] operator: [NaN] equals itself here). *)
Definition eqv (a b : num) : Prop :=
  match a, b with
  | NaN, NaN => True
  | Inf s, Inf t => s = t
  | Fin x, Fin y => Qeq x y
  | _, _ => False
  end.

Definition is_finite (a : num) : bool :=
  match a with Fin _ => true | _ => false end.

End Num.

(** ** JavaScript strings *)

Module Str.

Definition chars : string -> list ascii := list_ascii_of_string.
Definition str : list ascii -> string := string_of_list_ascii.

(** WhiteSpace and LineTerminator code units below 256. *)
Definition is_space (c : ascii) : bool :=
  let n := N_of_ascii c in
  ((9 <=? n) && (n <=? 13) || (n =? 32) || (n =? 160))%N.

Fixpoint drop_spaces (l : list ascii) : list ascii :=
  match l with
  | c :: l' => if is_space c then drop_spaces l' else l
  | [] => []
  end.

(** [s.trim()] *)
Definition trim_chars (l : list ascii) : list ascii :=
  rev (drop_spaces (rev (drop_spaces l))).
Definition trim (s : string) : string := str (trim_chars (chars s)).

(** [s.split(c)] for a one-character separator: never empty. *)
Fixpoint split_chars (sep : ascii) (l : list ascii) : list (list ascii) :=
  match l with
  | [] => [[]]
  | c :: l' =>
      if Ascii.eqb c sep then [] :: split_chars sep l'
      else match split_chars sep l' with
           | w :: ws => (c :: w) :: ws
           | [] => [[c]]
           end
  end.
Definition split (sep : ascii) (s : string) : list string :=
  map str (split_chars sep (chars s)).

(** [s.padStart(n, c)] for a one-character filler. *)
Definition padStart (n : nat) (c : ascii) (s : string) : string :=
  str (repeat c (n - String.length s)) +:+ s.

Definition of_nonneg (z : Z) : string :=
  NilZero.string_of_uint (N.to_uint (Z.to_N z)).

Definition zeros (n : Z) : string := str (repeat "0"%char (Z.to_nat n)).

Fixpoint strip_zeros_rev (l : list ascii) : list ascii :=
  match l with
  | c :: l' => if Ascii.eqb c "0" then strip_zeros_rev l' else l
  | [] => []
  end.
Definition strip_trailing_zeros (s : string) : string :=
  str (rev (strip_zeros_rev (rev (chars s)))).

End Str.

(** ** Number to string and string to number *)

Module Conv.

Definition pow10 (e : Z) : Q :=
  if 0 <=? e then inject_Z (10 ^ e) else Qinv (inject_Z (10 ^ (- e))).

(** The least [m <= fuel] with [q * 10^(m+1) >= 1], for [0 < q < 1]. *)
Fixpoint leading_zeros (fuel : nat) (q : Q) : Z :=
  match fuel with
  | O => 0
  | S f => if Qle_bool 1 (Qmult q (inject_Z 10)) then 0
           else 1 + leading_zeros f (Qmult q (inject_Z 10))
  end.

(** The [n] with [10^(n-1) <= q < 10^n], for [0 < q]. *)
Definition decimal_exponent (q : Q) : Z :=
  if Qle_bool 1 q then Z.of_nat (String.length (Str.of_nonneg (Qfloor q)))
  else - leading_zeros (Pos.size_nat (Qden q)) q.

(** The shortest digit string [s] of at most [17] digits with
    [q = s * 10^(n-k)], [k] its length; when there is none, [q] rounded to
    [17] significant digits.  Returns the digits and the exponent [n]. *)
Fixpoint shortest_digits (fuel : nat) (k : Z) (n : Z) (q : Q) : string * Z :=
  let s := Qred (Qmult q (pow10 (k - n))) in
  match fuel with
  | O =>
      let r := Qfloor (Qplus s (1 # 2)) in
      if r =? 10 ^ k then ("1", n + 1)
      else (Str.strip_trailing_zeros (Str.of_nonneg r), n)
  | S f =>
      if (Qden s =? 1)%positive then (Str.of_nonneg (Qnum s), n)
      else shortest_digits f (k + 1) n q
  end.

(** Number::toString of a positive finite value. *)
Definition positive_to_string (q : Q) : string :=
  let '(s, n) := shortest_digits 16 1 (decimal_exponent q) q in
  let k := Z.of_nat (String.length s) in
  if (k <=? n) && (n <=? 21) then s +:+ Str.zeros (n - k)
  else if (0 <? n) && (n <=? 21) then
    substring 0 (Z.to_nat n) s +:+ "." +:+
    substring (Z.to_nat n) (Z.to_nat (k - n)) s
  else if (-6 <? n) && (n <=? 0) then "0." +:+ Str.zeros (- n) +:+ s
  else
    let e := n - 1 in
    let es := (if e <? 0 then "-" else "+") +:+ Str.of_nonneg (Z.abs e) in
    if k =? 1 then s +:+ "e" +:+ es
    else substring 0 1 s +:+ "." +:+ substring 1 (Z.to_nat (k - 1)) s
         +:+ "e" +:+ es.

(** ToString applied to a number, as a template literal does. *)
Definition to_string (a : num) : string :=
  match a with
  | NaN => "NaN"
  | Inf false => "Infinity"
  | Inf true => "-Infinity"
  | Fin q =>
      if Num.qzero q then "0"
      else if Num.qneg q then "-" +:+ positive_to_string (Qopp q)
      else positive_to_string q
  end.

Definition digit_value (c : ascii) : option Z :=
  let n := Z.of_N (N_of_ascii c) in
  if (48 <=? n) && (n <=? 57) then Some (n - 48)
  else if (97 <=? n) && (n <=? 102) then Some (n - 87)
  else if (65 <=? n) && (n <=? 70) then Some (n - 55)
  else None.

Definition is_digit (base : Z) (c : ascii) : bool :=
  match digit_value c with Some d => d <? base | None => false end.

Fixpoint span_digits (l : list ascii) : list ascii * list ascii :=
  match l with
  | c :: l' =>
      if is_digit 10 c then let '(d, r) := span_digits l' in (c :: d, r)
      else ([], l)
  | [] => ([], [])
  end.

Definition digits_value (base : Z) (l : list ascii) : Z :=
  fold_left (fun acc c => acc * base + default 0 (digit_value c)) l 0.

(** A non-empty run of digits of the base, and nothing else. *)
Definition radix_literal (base : Z) (l : list ascii) : num :=
  match l with
  | [] => NaN
  | _ => if forallb (is_digit base) l then Num.of_Z (digits_value base l)
         else NaN
  end.

Definition strip_sign (l : list ascii) : bool * list ascii :=
  match l with
  | "-"%char :: l' => (true, l')
  | "+"%char :: l' => (false, l')
  | _ => (false, l)
  end.

(** The exponent part of a decimal literal: empty, or [e], an optional
    sign and digits up to the end of the text. *)
Definition exponent_part (l : list ascii) : option Z :=
  match l with
  | [] => Some 0
  | c :: l' =>
      if Ascii.eqb c "e" || Ascii.eqb c "E" then
        let '(s, d) := strip_sign l' in
        match d with
        | [] => None
        | _ => if forallb (is_digit 10) d
               then Some (if s then - digits_value 10 d else digits_value 10 d)
               else None
        end
      else None
  end.

(** StrDecimalLiteral other than [Infinity]. *)
Definition decimal_literal (l : list ascii) : num :=
  let '(s, l1) := strip_sign l in
  let '(ip, l2) := span_digits l1 in
  let '(fp, l3) := match l2 with
                   | "."%char :: l2' => span_digits l2'
                   | _ => ([], l2)
                   end in
  match ip ++ fp with
  | [] => NaN
  | ds =>
      match exponent_part l3 with
      | None => NaN
      | Some e =>
          let m := inject_Z (digits_value 10 ds) in
          let v := Qmult m (pow10 (e - Z.of_nat (length fp))) in
          Num.fin (if s then Qopp v else v)
      end
  end.

(** StringToNumber, what [Number(s)] does on a string. *)
Definition string_to_number (s : string) : num :=
  let t := Str.trim s in
  if String.eqb t "" then Num.zero
  else if String.eqb t "Infinity" || String.eqb t "+Infinity" then Inf false
  else if String.eqb t "-Infinity" then Inf true
  else match Str.chars t with
       | "0"%char :: c :: l =>
           if Ascii.eqb c "x" || Ascii.eqb c "X" then radix_literal 16 l
           else if Ascii.eqb c "o" || Ascii.eqb c "O" then radix_literal 8 l
           else if Ascii.eqb c "b" || Ascii.eqb c "B" then radix_literal 2 l
           else decimal_literal (Str.chars t)
       | l => decimal_literal l
       end.

End Conv.

(** ** Loosely typed values *)

(** The scalar values a raw row can hold; [VUndef] is also what reading a
    missing key gives. *)
Inductive jsval : Type :=
| VUndef
| VNull
| VBool (b : bool)
| VNum (n : num)
| VStr (s : string).

(** ToBoolean *)
Definition truthy (v : jsval) : bool :=
  match v with
  | VUndef | VNull => false
  | VBool b => b
  | VNum n => Num.truthy n
  | VStr s => negb (String.eqb s "")
  end.

(** [a || b] *)
Definition or_else (a b : jsval) : jsval := if truthy a then a else b.

(** [Number(v)] *)
Definition Number (v : jsval) : num :=
  match v with
  | VUndef => NaN
  | VNull => Num.zero
  | VBool b => if b then Num.of_Z 1 else Num.zero
  | VNum n => n
  | VStr s => Conv.string_to_number s
  end.

(** ** Dates *)

Module JsDate.

Definition msPerDay : Z := 86400000.
Definition msPerHour : Z := 3600000.
Definition msPerMinute : Z := 60000.
Definition maxTime : Z := 8640000000000000.

(** A time value: milliseconds since the epoch, [None] for the [NaN] of an
    Invalid Date. *)
Definition time : Type := option Z.

Definition TimeClip (t : Z) : time :=
  if Z.abs t <=? maxTime then Some t else None.

(** Days since the epoch of a civil date, and back (proleptic Gregorian). *)
Definition days_from_civil (y m d : Z) : Z :=
  let y := if m <=? 2 then y - 1 else y in
  let era := y / 400 in
  let yoe := y - era * 400 in
  let doy := (153 * (if 2 <? m then m - 3 else m + 9) + 2) / 5 + d - 1 in
  let doe := yoe * 365 + yoe / 4 - yoe / 100 + doy in
  era * 146097 + doe - 719468.

Definition civil_from_days (z : Z) : Z * Z * Z :=
  let z := z + 719468 in
  let era := z / 146097 in
  let doe := z - era * 146097 in
  let yoe := (doe - doe / 1460 + doe / 36524 - doe / 146096) / 365 in
  let doy := doe - (365 * yoe + yoe / 4 - yoe / 100) in
  let mp := (5 * doy + 2) / 153 in
  let d := doy - (153 * mp + 2) / 5 + 1 in
  let m := if mp <? 10 then mp + 3 else mp - 9 in
  ((if m <=? 2 then yoe + era * 400 + 1 else yoe + era * 400), m, d).

Definition pad (n : nat) (z : Z) : string :=
  Str.padStart n "0" (Str.of_nonneg z).

(** [d.toISOString()]: a [RangeError] on an Invalid Date. *)
Definition toISOString (d : time) : result string :=
  match d with
  | None => Throw RangeError
  | Some t =>
      let '(y, m, dd) := civil_from_days (t / msPerDay) in
      let r := t mod msPerDay in
      let year := if (0 <=? y) && (y <=? 9999) then pad 4 y
                  else (if y <? 0 then "-" else "+") +:+ pad 6 (Z.abs y) in
      Ok (year +:+ "-" +:+ pad 2 m +:+ "-" +:+ pad 2 dd +:+ "T" +:+
          pad 2 (r / msPerHour) +:+ ":" +:+
          pad 2 (r mod msPerHour / msPerMinute) +:+ ":" +:+
          pad 2 (r mod msPerMinute / 1000) +:+ "." +:+
          pad 3 (r mod 1000) +:+ "Z")
  end.

End JsDate.

(** ** The host *)

Record Host : Type := mkHost {
  (** [Date.parse] on a string; [None] when the text is not a date. *)
  date_parse : string -> option Z;
  (** Local time minus UTC, in milliseconds (a zone without transitions). *)
  tz_offset : Z;
  (** The successive readings of the clock by [new Date()]. *)
  clock : nat -> Z;
  (** The successive results of [Math.random()]. *)
  random : nat -> Q;
  (** [n.toLocaleString()] in the host's locale. *)
  to_locale_string : num -> string
}.

(** [Math.random()] gives a value in [[0, 1)]. *)
Definition random_ok (h : Host) : Prop :=
  forall k, Qle 0 (random h k) /\ Qlt (random h k) 1.

(** [new Date()] reads a time value, which is within the range of dates. *)
Definition clock_ok (h : Host) : Prop :=
  forall k, (Z.abs (clock h k) <=? JsDate.maxTime) = true.

Section WithHost.
Variable h : Host.

(** [new Date(s)] for a string. *)
Definition Date_of_string (s : string) : JsDate.time :=
  date_parse h s ≫= JsDate.TimeClip.

(** [new Date(v)] for a value of any type. *)
Definition Date_of_value (v : jsval) : JsDate.time :=
  match v with
  | VStr s => Date_of_string s
  | VUndef => None
  | _ => match Number v with
         | Fin q => JsDate.TimeClip (Z.quot (Qnum q) (Z.pos (Qden q)))
         | _ => None
         end
  end.

(** [d.getTime()] *)
Definition getTime (d : JsDate.time) : num :=
  match d with Some t => Num.of_Z t | None => NaN end.

(** [d.getDay()] and [d.getHours()], in local time. *)
Definition getDay (d : JsDate.time) : num :=
  match d with
  | Some t => Num.of_Z (((t + tz_offset h) / JsDate.msPerDay + 4) mod 7)
  | None => NaN
  end.

Definition getHours (d : JsDate.time) : num :=
  match d with
  | Some t => Num.of_Z ((t + tz_offset h) / JsDate.msPerHour mod 24)
  | None => NaN
  end.

(** [n = new Date(d); n.setDate(d.getDate() + i)]: the day of the month is
    carried into the following months, so the result is [i] local days
    after [d], at the same time of day. *)
Definition addDays (d : JsDate.time) (i : Z) : JsDate.time :=
  t ← d; JsDate.TimeClip (t + i * JsDate.msPerDay).

End WithHost.

(** ** Objects used as maps, and [Array.prototype.sort] *)

Module Obj.

(** The own properties of an object in creation order.  Names inherited
    from [Object.prototype] are not represented. *)
Definition obj (V : Type) : Type := list (string * V).

Fixpoint get {V} (o : obj V) (k : string) : option V :=
  match o with
  | [] => None
  | (k', v) :: o' => if String.eqb k' k then Some v else get o' k
  end.

(** [o[k] = v]: an existing property keeps its place. *)
Fixpoint set {V} (o : obj V) (k : string) (v : V) : obj V :=
  match o with
  | [] => [(k, v)]
  | (k', v') :: o' =>
      if String.eqb k' k then (k, v) :: o' else (k', v') :: set o' k v
  end.

(** An array index: the canonical decimal text of an integer below
    [2^32 - 1]. *)
Definition array_index (k : string) : option Z :=
  match Str.chars k with
  | [] => None
  | c :: l =>
      if forallb (Conv.is_digit 10) (c :: l)
         && (negb (Ascii.eqb c "0") || (length l =? 0)%nat)
         && (Conv.digits_value 10 (c :: l) <? 4294967295)
      then Some (Conv.digits_value 10 (c :: l))
      else None
  end.

Fixpoint insert_index {V} (i : Z) (e : string * V)
    (l : list (Z * (string * V))) : list (Z * (string * V)) :=
  match l with
  | [] => [(i, e)]
  | (j, e') :: l' =>
      if i <? j then (i, e) :: l else (j, e') :: insert_index i e l'
  end.

Definition indexed {V} (o : obj V) : list (Z * (string * V)) :=
  fold_left (fun acc e => match array_index (fst e) with
                          | Some i => insert_index i e acc
                          | None => acc
                          end) o [].

(** [Object.entries(o)]: array indices ascending, then the other names in
    creation order. *)
Definition entries {V} (o : obj V) : list (string * V) :=
  map snd (indexed o)
  ++ filter (fun e => array_index (fst e) = None) o.

End Obj.

Module Arr.

Fixpoint insert {A} (cmp : A -> A -> num) (x : A) (l : list A) : list A :=
  match l with
  | [] => [x]
  | y :: l' =>
      if Num.ltb (cmp x y) Num.zero then x :: l else y :: insert cmp x l'
  end.

(** [l.sort(cmp)]: the stable sort; a comparator result that is not
    negative (zero, positive or [NaN]) leaves the later element behind.
    This is what every engine returns when the comparator is consistent,
    as the comparators by date are when every date is a date (or none
    is).  When [NaN] results make the comparator inconsistent the order
    is the engine's choice; no statement below about an order admits such
    an input. *)
Definition sort {A} (cmp : A -> A -> num) (l : list A) : list A :=
  fold_left (fun acc x => insert cmp x acc) l [].

(** [l.reduce((a, b) => a + f(b), 0)] *)
Definition sum {A} (f : A -> num) (l : list A) : num :=
  fold_left (fun a b => Num.add a (f b)) l Num.zero.

End Arr.

(** ** The data model of [types.ts] *)

(** [SocialData]; [T] is the type of its text fields, [string] as declared
    and [jsval] in what [processCSVData] builds from rows typed [any]. *)
Record SocialDataOf (T : Type) : Type := mkSocialData {
  Date : T;
  Engagement : num;
  Impressions : num;
  Shares : num;
  Likes : num;
  Comments : num;
  Sector : T;
  Platform : T;
  Hour : num
}.
Arguments mkSocialData {T}.
Arguments Date {T}.
Arguments Engagement {T}.
Arguments Impressions {T}.
Arguments Shares {T}.
Arguments Likes {T}.
Arguments Comments {T}.
Arguments Sector {T}.
Arguments Platform {T}.
Arguments Hour {T}.

Abbreviation SocialData := (SocialDataOf string).

Record NTSResults : Type := mkNTS {
  bestDay : string;
  bestHour : string;
  engagementScore : num;
  liftPercentage : num;
  secondaryWindow : string
}.

Record ForecastPoint : Type := mkPoint {
  date : string;
  actual : option num;
  predicted : option num
}.

(** [x || d] for an optional number [x]. *)
Definition or_num (x : option num) (d : num) : num :=
  match x with
  | Some n => if Num.truthy n then n else d
  | None => d
  end.

(** ** processCSVData *)

(** A raw row: a mapping from column names to scalar values. *)
Abbreviation Row := (gmap string jsval).

Section Normalizer.
Variable h : Host.

(** [row.k] *)
Definition prop (row : Row) (k : string) : jsval := default VUndef (row !! k).

(** [Number(row.K || row.k || 0)] *)
Definition numeric_field (row : Row) (K k : string) : num :=
  Number (or_else (or_else (prop row K) (prop row k)) (VNum Num.zero)).

(** [row.K || row.k || d] *)
Definition text_field (row : Row) (K k d : string) : jsval :=
  or_else (or_else (prop row K) (prop row k)) (VStr d).

(** [row.Hour ? Number(row.Hour) : (new Date(row.Date).getHours() || 0)] *)
Definition hour_field (row : Row) : num :=
  if truthy (prop row "Hour") then Number (prop row "Hour")
  else or_num (Some (getHours h (Date_of_value h (prop row "Date")))) Num.zero.

(** One row; [k] counts the readings of the clock made so far, one more is
    made when neither [Date] nor [date] holds a truthy value. *)
Definition process_row (row : Row) (k : nat)
    : result (SocialDataOf jsval * nat) :=
  let d := or_else (prop row "Date") (prop row "date") in
  '(dt, k') ← (if truthy d then Ok (d, k)
               else s ← JsDate.toISOString (JsDate.TimeClip (clock h k));
                    Ok (VStr s, S k));
  Ok ({| Date := dt;
         Engagement := numeric_field row "Engagement" "engagement";
         Impressions := numeric_field row "Impressions" "impressions";
         Shares := numeric_field row "Shares" "shares";
         Likes := numeric_field row "Likes" "likes";
         Comments := numeric_field row "Comments" "comments";
         Sector := text_field row "Sector" "sector" "General";
         Platform := text_field row "Platform" "platform" "Unknown";
         Hour := hour_field row |}, k').

Fixpoint process_rows (rows : list Row) (k : nat)
    : result (list (SocialDataOf jsval)) :=
  match rows with
  | [] => Ok []
  | row :: rows' =>
      '(r, k') ← process_row row k;
      rs ← process_rows rows' k';
      Ok (r :: rs)
  end.

Definition processCSVData (rawData : list Row)
    : result (list (SocialDataOf jsval)) :=
  process_rows rawData 0.

(** What a record holds for a numeric column spelled [K] or [k]: the
    coercion of the first spelling that is truthy, zero when neither is. *)
Definition coerced (row : Row) (K k : string) (x : num) : Prop :=
  (truthy (prop row K) = true -> x = Number (prop row K)) /\
  (truthy (prop row K) = false -> truthy (prop row k) = true ->
   x = Number (prop row k)) /\
  (truthy (prop row K) = false -> truthy (prop row k) = false ->
   x = Num.zero).

(** What a record holds for a text column with default [d]. *)
Definition defaulted (row : Row) (K k d : string) (x : jsval) : Prop :=
  (truthy (prop row K) = true -> x = prop row K) /\
  (truthy (prop row K) = false -> truthy (prop row k) = true ->
   x = prop row k) /\
  (truthy (prop row K) = false -> truthy (prop row k) = false ->
   x = VStr d).

(** What a record holds for the hour: the coercion of a truthy [Hour], and
    otherwise an hour of the day, zero when [Date] is no date. *)
Definition hour_resolved (row : Row) (x : num) : Prop :=
  (truthy (prop row "Hour") = true -> x = Number (prop row "Hour")) /\
  (truthy (prop row "Hour") = false ->
   exists z, x = Num.of_Z z /\ 0 <= z <= 23 /\
             (Date_of_value h (prop row "Date") = None -> z = 0)).

End Normalizer.

(** ** calculateNTS *)

Section Analyzer.
Variable h : Host.

Definition weekDays : list string :=
  ["Sunday"; "Monday"; "Tuesday"; "Wednesday"; "Thursday"; "Friday";
   "Saturday"].

(** [weekDays[n]] inside a template literal. *)
Definition weekday_text (n : num) : string :=
  match n with
  | Fin q => if (Qden q =? 1)%positive && (0 <=? Qnum q)
             then default "undefined" (weekDays !! Z.to_nat (Qnum q))
             else "undefined"
  | _ => "undefined"
  end.

Definition window_key (item : SocialData) : string :=
  weekday_text (getDay h (Date_of_string h (Date item)))
  +:+ "|" +:+ Conv.to_string (Hour item).

(** The body of the [forEach]. *)
Definition nts_step (st : Obj.obj (list num) * list num) (item : SocialData)
    : Obj.obj (list num) * list num :=
  let '(intersectionMap, globalEngagements) := st in
  let key := window_key item in
  let intersectionMap :=
    match Obj.get intersectionMap key with
    | None => Obj.set intersectionMap key []
    | Some _ => intersectionMap
    end in
  (Obj.set intersectionMap key
     (default [] (Obj.get intersectionMap key) ++ [Engagement item]),
   globalEngagements ++ [Engagement item]).

Definition average (vals : list num) : num :=
  Num.div (Arr.sum id vals) (Num.of_nat (length vals)).

Definition rankings_of (intersectionMap : Obj.obj (list num))
    : list (string * num) :=
  Arr.sort (fun a b => Num.sub (snd b) (snd a))
    (map (fun e => (fst e, average (snd e))) (Obj.entries intersectionMap)).

(** [const [day, hourRaw] = key.split('|')] followed by
    [hourRaw.padStart(2, '0')], a [TypeError] were [hourRaw] undefined. *)
Definition split_key (key : string) : result (string * string) :=
  match Str.split "|" key with
  | d :: hr :: _ => Ok (d, Str.padStart 2 "0" hr)
  | _ => Throw TypeError
  end.

Definition calculateNTS (data : list SocialData) : result NTSResults :=
  if (length data =? 0)%nat then
    Ok {| bestDay := "N/A"; bestHour := "N/A"; engagementScore := Num.zero;
          liftPercentage := Num.zero; secondaryWindow := "N/A" |}
  else
    let '(intersectionMap, globalEngagements) :=
      fold_left nts_step data ([], []) in
    let baselineAverage := average globalEngagements in
    match rankings_of intersectionMap with
    | [] => Throw TypeError
    | best :: rest =>
        let secondary := match rest with s :: _ => s | [] => best end in
        '(bestDay, bestHour) ← split_key (fst best);
        '(secDay, secHour) ← split_key (fst secondary);
        let lift :=
          Num.mul (Num.div (Num.sub (snd best) baselineAverage)
                     baselineAverage) (Num.of_Z 100) in
        Ok {| bestDay := bestDay;
              bestHour := bestHour +:+ ":00";
              engagementScore := Num.round (snd best);
              liftPercentage := Num.round lift;
              secondaryWindow := secDay +:+ " @ " +:+ secHour +:+ ":00" |}
    end.

End Analyzer.

(** ** generateNeuralForecast *)

Section Forecaster.
Variable h : Host.

(** The comparator of the chronological sort. *)
Definition by_date (a b : SocialData) : num :=
  Num.sub (getTime (Date_of_string h (Date a)))
          (getTime (Date_of_string h (Date b))).

(** [{ date: d.Date.split('T')[0], actual: d.Engagement }] *)
Definition history_point (d : SocialData) : ForecastPoint :=
  {| date := default "" (head (Str.split "T" (Date d)));
     actual := Some (Engagement d);
     predicted := None |}.

(** [Math.random() * 20 - 10] at the [k]-th draw. *)
Definition jitter (k : nat) : num :=
  Num.sub (Num.mul (Fin (random h k)) (Num.of_Z 20)) (Num.of_Z 10).

(** [Math.max(0, lastVal + (trend * i) + (Math.random() * 20 - 10))] *)
Definition predicted_value (lastVal trend : num) (i : nat) : num :=
  Num.max Num.zero
    (Num.add (Num.add lastVal (Num.mul trend (Num.of_nat i)))
             (jitter (i - 1))).

(** One turn of the loop: the point pushed at step [i]. *)
Definition future_point (lastDate : JsDate.time) (lastVal trend : num)
    (i : nat) : result ForecastPoint :=
  let nextDate := addDays lastDate (Z.of_nat i) in
  iso ← JsDate.toISOString nextDate;
  Ok {| date := default "" (head (Str.split "T" iso));
        actual := None;
        predicted := Some (predicted_value lastVal trend i) |}.

Fixpoint future_points (lastDate : JsDate.time) (lastVal trend : num)
    (steps : list nat) : result (list ForecastPoint) :=
  match steps with
  | [] => Ok []
  | i :: steps' =>
      p ← future_point lastDate lastVal trend i;
      ps ← future_points lastDate lastVal trend steps';
      Ok (p :: ps)
  end.

(** [points[points.length - 1].actual || 100] *)
Definition forecast_lastVal (lastPoint : ForecastPoint) : num :=
  or_num (actual lastPoint) (Num.of_Z 100).

(** [(lastVal - (points[0].actual || 0)) / points.length] *)
Definition forecast_trend (lastVal : num) (firstPoint : ForecastPoint)
    (count : nat) : num :=
  Num.div (Num.sub lastVal (or_num (actual firstPoint) Num.zero))
          (Num.of_nat count).

(** Everything after the sort; reading a field of a missing element is a
    [TypeError]. *)
Definition forecast_of_sorted (sorted : list SocialData)
    : result (list ForecastPoint) :=
  match last sorted with
  | None => Throw TypeError
  | Some lastRecord =>
      let lastDate := Date_of_string h (Date lastRecord) in
      let points := map history_point sorted in
      match last points, head points with
      | Some lastPoint, Some firstPoint =>
          let lastVal := forecast_lastVal lastPoint in
          let trend := forecast_trend lastVal firstPoint (length points) in
          future ← future_points lastDate lastVal trend (seq 1 10);
          Ok (points ++ future)
      | _, _ => Throw TypeError
      end
  end.

Definition generateNeuralForecast (data : list SocialData)
    : result (list ForecastPoint) :=
  if (length data <? 2)%nat then Ok []
  else forecast_of_sorted (Arr.sort by_date data).

(** Every date is a date, with ten days left after it in the range of
    dates. *)
Definition dates_in_range (data : list SocialData) : Prop :=
  Forall (fun r => exists t, Date_of_string h (Date r) = Some t /\
                             t + 10 * JsDate.msPerDay <= JsDate.maxTime)
         data.

(** The trend as the specification words it: an actual value that is
    missing counts as zero, for the last point as for the first. *)
Definition spec_trend (points : list ForecastPoint) : option num :=
  lastPoint ← last points;
  firstPoint ← head points;
  Some (Num.div (Num.sub (or_num (actual lastPoint) Num.zero)
                         (or_num (actual firstPoint) Num.zero))
                (Num.of_nat (length points))).

(** The interval the specification gives for the [i]-th predicted value. *)
Definition spec_interval (lastActual trend : num) (i : nat) : num * num :=
  let line := Num.add lastActual (Num.mul trend (Num.of_nat i)) in
  (Num.max Num.zero (Num.sub line (Num.of_Z 10)),
   Num.add line (Num.of_Z 10)).

End Forecaster.

(** ** generateRichSummary *)

Section Summarizer.
Variable h : Host.

(** [x.toFixed(1)] *)
Definition toFixed1 (x : num) : string :=
  match x with
  | Fin q =>
      let a := Qabs q in
      if Qle_bool (Conv.pow10 21) a then Conv.to_string x
      else
        let n := Qfloor (Qplus (Qmult a (inject_Z 10)) (1 # 2)) in
        (if Num.qneg q then "-" else "")
        +:+ Str.of_nonneg (n / 10) +:+ "." +:+ Str.of_nonneg (n mod 10)
  | _ => Conv.to_string x
  end.

(** [data.reduce((acc, curr) => { acc[key(curr)] = (acc[key(curr)] || 0)
    + curr.Engagement; return acc; }, {})] *)
Definition stats_by (key : SocialData -> string) (data : list SocialData)
    : Obj.obj num :=
  fold_left (fun acc curr =>
               Obj.set acc (key curr)
                 (Num.add (or_num (Obj.get acc (key curr)) Num.zero)
                          (Engagement curr)))
            data [].

(** [Object.entries(stats).sort((a, b) => b[1] - a[1])[0]] *)
Definition top_entry (stats : Obj.obj num) : option (string * num) :=
  head (Arr.sort (fun a b => Num.sub (snd b) (snd a)) (Obj.entries stats)).

Definition nl : string := String "010" "".

Definition generateRichSummary (data : list SocialData) (nts : NTSResults)
    : string :=
  if (length data =? 0)%nat then "Fleet data unavailable."
  else
    let totalEng := Arr.sum Engagement data in
    let avgEng := Num.div totalEng (Num.of_nat (length data)) in
    let totalImp := Arr.sum Impressions data in
    let topPlatform := top_entry (stats_by Platform data) in
    let topSector := top_entry (stats_by Sector data) in
    let name e := match e with Some (k, _) => k | None => "None" end in
    let total e :=
      Conv.to_string (match e with Some (_, v) => v | None => Num.zero end) in
    Str.trim
      (nl +:+ "    Mission Status: Active" +:+ nl
       +:+ "    Total Neural Packets Analyzed: "
       +:+ Conv.to_string (Num.of_nat (length data)) +:+ nl
       +:+ "    Global Fleet Engagement: " +:+ to_locale_string h totalEng
       +:+ " (Avg: " +:+ toFixed1 avgEng +:+ ")" +:+ nl
       +:+ "    Total Neural Reach (Impressions): "
       +:+ to_locale_string h totalImp +:+ nl
       +:+ "    Top Sector: " +:+ name topSector
       +:+ " (" +:+ total topSector +:+ " eng)" +:+ nl
       +:+ "    Dominant Platform: " +:+ name topPlatform
       +:+ " (" +:+ total topPlatform +:+ " eng)" +:+ nl
       +:+ "    Optimal Sync Window (NTS): " +:+ bestDay nts
       +:+ " at " +:+ bestHour nts +:+ nl
       +:+ "    NTS Lift Potential: "
       +:+ Conv.to_string (liftPercentage nts) +:+ "% above baseline." +:+ nl
       +:+ "    Secondary Sync: " +:+ secondaryWindow nts +:+ nl
       +:+ "  ").

End Summarizer.

(** ** The section splitting of startBriefing *)

Module Briefing.

Definition is_title_char (c : ascii) : bool :=
  let n := N_of_ascii c in
  ((65 <=? n) && (n <=? 90) || (n =? 95))%N.

Fixpoint span_title (l : list ascii) : list ascii * list ascii :=
  match l with
  | c :: l' =>
      if is_title_char c then let '(t, r) := span_title l' in (c :: t, r)
      else ([], l)
  | [] => ([], [])
  end.

(** [\[([A-Z_]+)\]] matched at the head of the text: the title and what
    follows the marker. *)
Definition marker_at (l : list ascii) : option (list ascii * list ascii) :=
  match l with
  | "["%char :: l' =>
      match span_title l' with
      | (c :: t, "]"%char :: r) => Some (c :: t, r)
      | _ => None
      end
  | _ => None
  end.

(** [([\s\S]*?)(?=\[[A-Z_]+\]|$)]: the shortest text up to a marker or the
    end; returns it and what is left. *)
Fixpoint lazy_content (l : list ascii) : list ascii * list ascii :=
  match l with
  | [] => ([], [])
  | c :: l' =>
      match marker_at l with
      | Some _ => ([], l)
      | None => let '(x, r) := lazy_content l' in (c :: x, r)
      end
  end.

(** The first marker in the text: what precedes it, its title, what
    follows it. *)
Fixpoint first_marker (l : list ascii)
    : option (list ascii * list ascii * list ascii) :=
  match marker_at l with
  | Some (t, r) => Some ([], t, r)
  | None =>
      match l with
      | [] => None
      | c :: l' =>
          '(b, t, r) ← first_marker l'; Some (c :: b, t, r)
      end
  end.

(** [text.match(/.../g)]: the successive matches, each searched from the
    end of the one before; [fuel] bounds their number. *)
Fixpoint match_all (fuel : nat) (l : list ascii) : list (list ascii) :=
  match fuel with
  | O => []
  | S f =>
      match first_marker l with
      | None => []
      | Some (_, t, r) =>
          let '(x, rest) := lazy_content r in
          (("["%char :: t) ++ "]"%char :: x) :: match_all f rest
      end
  end.

(** The body of the [forEach] over the matches. *)
Definition add_section (sections : Obj.obj string) (m : list ascii)
    : Obj.obj string :=
  let title := match first_marker m with
               | Some (_, t, _) => Str.str t
               | None => "GENERAL"
               end in
  let content := match first_marker m with
                 | Some (b, _, r) => Str.trim_chars (b ++ r)
                 | None => Str.trim_chars m
                 end in
  Obj.set sections title (Str.str content).

(** The text holds a marker: a bracketed, non-empty run of capitals and
    underscores. *)
Definition has_marker (l : list ascii) : Prop :=
  exists pre t post,
    t <> [] /\ forallb is_title_char t = true /\
    l = pre ++ "["%char :: t ++ "]"%char :: post.

(** The [sections] object [startBriefing] hands to [setBriefingData]. *)
Definition startBriefing (reportRawText : string) : Obj.obj string :=
  let l := Str.chars reportRawText in
  match match_all (S (length l)) l with
  | [] => Obj.set [] "EXECUTIVE_SUMMARY" reportRawText
  | sectionMatches => fold_left add_section sectionMatches []
  end.

End Briefing.

(** ** Arrays passed by reference *)

(** The three analytical functions receive their input array by reference;
    [Heap] holds the arrays of records reachable at one moment.  The
    records themselves are never assigned to, so an array is the list of
    its elements. *)
Module Heap.

Definition loc : Type := nat.
Abbreviation heap := (gmap nat (list SocialData)).

(** A computation over the heap that may throw. *)
Definition M (A : Type) : Type := heap -> result A * heap.

Definition ret {A} (a : A) : M A := fun σ => (Ok a, σ).
Definition throw {A} (e : JsError) : M A := fun σ => (Throw e, σ).
Definition bind {A B} (m : M A) (f : A -> M B) : M B := fun σ =>
  match m σ with
  | (Ok a, σ') => f a σ'
  | (Throw e, σ') => (Throw e, σ')
  end.
Definition lift {A} (r : result A) : M A := fun σ => (r, σ).

(** The elements of the array at [l], as [length], [forEach], [reduce],
    [map] and the spread syntax read them. *)
Definition read (l : loc) : M (list SocialData) := fun σ =>
  match σ !! l with
  | Some a => (Ok a, σ)
  | None => (Throw TypeError, σ)
  end.

(** A new array holding [a]. *)
Definition alloc (a : list SocialData) : M loc := fun σ =>
  let l := fresh (dom σ) in (Ok l, <[l := a]> σ).

(** [array.sort(cmp)]: sorts the array at [l] in place and returns [l]. *)
Definition sort (cmp : SocialData -> SocialData -> num) (l : loc) : M loc :=
  fun σ => (Ok l, alter (Arr.sort cmp) l σ).

End Heap.

Section ByReference.
Variable h : Host.

Definition calculateNTS_at (data : Heap.loc) : Heap.M NTSResults :=
  Heap.bind (Heap.read data) (fun a => Heap.lift (calculateNTS h a)).

(** [[...data]] allocates the copy that [sort] then reorders. *)
Definition generateNeuralForecast_at (data : Heap.loc)
    : Heap.M (list ForecastPoint) :=
  Heap.bind (Heap.read data) (fun a =>
    if (length a <? 2)%nat then Heap.ret []
    else
      Heap.bind (Heap.read data) (fun a' =>
      Heap.bind (Heap.alloc a') (fun copy =>
      Heap.bind (Heap.sort (by_date h) copy) (fun sorted =>
      Heap.bind (Heap.read sorted) (fun s =>
      Heap.lift (forecast_of_sorted h s)))))).

Definition generateRichSummary_at (data : Heap.loc) (nts : NTSResults)
    : Heap.M string :=
  Heap.bind (Heap.read data) (fun a =>
    Heap.ret (generateRichSummary h a nts)).

End ByReference.

(** ** A host for the examples *)

(** A host in the UTC zone whose [Date.parse] accepts the ISO formats
    [YYYY-MM-DD], [YYYY-MM-DDTHH:mm], [YYYY-MM-DDTHH:mm:ss] and
    [YYYY-MM-DDTHH:mm:ss.sss], each with an optional [Z], and nothing else;
    its [Math.random] always gives one half. *)
Module Example.

Definition number_of (l : list ascii) : option Z :=
  if forallb (Conv.is_digit 10) l then Some (Conv.digits_value 10 l)
  else None.

Definition leap (y : Z) : bool :=
  (y mod 4 =? 0) && (negb (y mod 100 =? 0) || (y mod 400 =? 0)).

Definition days_in_month (y m : Z) : Z :=
  if m =? 2 then (if leap y then 29 else 28)
  else if (m =? 4) || (m =? 6) || (m =? 9) || (m =? 11) then 30
  else 31.

(** The day of a calendar date and the text after it. *)
Definition parse_day (l : list ascii) : option (Z * list ascii) :=
  match l with
  | y1 :: y2 :: y3 :: y4 :: "-"%char :: m1 :: m2 :: "-"%char :: d1 :: d2 :: r =>
      y ← number_of [y1; y2; y3; y4];
      m ← number_of [m1; m2];
      d ← number_of [d1; d2];
      if (1 <=? m) && (m <=? 12) && (1 <=? d) && (d <=? days_in_month y m)
      then Some (JsDate.days_from_civil y m d, r)
      else None
  | _ => None
  end.

Definition parse_fraction (l : list ascii) : option Z :=
  match l with
  | [] | ["Z"%char] => Some 0
  | ["."%char; a; b; c] | ["."%char; a; b; c; "Z"%char] => number_of [a; b; c]
  | _ => None
  end.

Definition parse_seconds (l : list ascii) : option Z :=
  match l with
  | ":"%char :: s1 :: s2 :: r =>
      s ← number_of [s1; s2];
      f ← parse_fraction r;
      if s <=? 59 then Some (s * 1000 + f) else None
  | _ => parse_fraction l
  end.

(** The milliseconds into the day. *)
Definition parse_clock (l : list ascii) : option Z :=
  match l with
  | [] => Some 0
  | "T"%char :: h1 :: h2 :: ":"%char :: m1 :: m2 :: r =>
      hh ← number_of [h1; h2];
      mm ← number_of [m1; m2];
      ms ← parse_seconds r;
      if (hh <=? 23) && (mm <=? 59)
      then Some (hh * JsDate.msPerHour + mm * JsDate.msPerMinute + ms)
      else None
  | _ => None
  end.

Definition parse_iso (s : string) : option Z :=
  '(day, r) ← parse_day (Str.chars s);
  ms ← parse_clock r;
  Some (day * JsDate.msPerDay + ms).

Definition host : Host :=
  {| date_parse := parse_iso;
     tz_offset := 0;
     clock := fun k => 1700000000000 + Z.of_nat k mod 1000;
     random := fun _ => 1 # 2;
     to_locale_string := Conv.to_string |}.

(** A record of the given date, engagement and hour. *)
Definition record (d : string) (e hr : Z) : SocialData :=
  {| Date := d; Engagement := Num.of_Z e; Impressions := Num.zero;
     Shares := Num.zero; Likes := Num.zero; Comments := Num.zero;
     Sector := "General"; Platform := "Unknown"; Hour := Num.of_Z hr |}.

(** Two posts on Monday the first of January 2024 at nine, one on the
    Tuesday at ten. *)
Definition week : list SocialData :=
  [record "2024-01-01T09:00:00" 100 9; record "2024-01-01T09:30:00" 200 9;
   record "2024-01-02T10:00:00" 50 10].

Definition steady : list SocialData :=
  [record "2024-01-01" 10 9; record "2024-01-02" 30 9].

(** The later record has no engagement. *)
Definition dip : list SocialData :=
  [record "2024-01-01" 50 9; record "2024-01-02" 0 9].

Definition slump : list SocialData :=
  [record "2024-01-01" 1000 9; record "2024-01-02" 10 9].

(** The later record's date is no date. *)
Definition undated : list SocialData :=
  [record "2024-01-01" 10 9; record "soon" 20 9].

(** No date is a date. *)
Definition unparsed : list SocialData :=
  [record "soon" 10 9; record "later" 20 9].

(** A record of the given date and engagement, at hour nine. *)
Definition measured (d : string) (e : num) : SocialData :=
  {| Date := d; Engagement := e; Impressions := Num.zero;
     Shares := Num.zero; Likes := Num.zero; Comments := Num.zero;
     Sector := "General"; Platform := "Unknown"; Hour := Num.of_Z 9 |}.

(** Two engagements are [NaN]. *)
Definition unmeasured : list SocialData :=
  [measured "2024-01-01" NaN; measured "2024-01-02" NaN;
   measured "2024-01-03" (Num.of_Z 40)].

(** Both engagements are plus infinity. *)
Definition unbounded : list SocialData :=
  [measured "2024-01-01" (Inf false); measured "2024-01-02" (Inf false)].

Definition malformed : Row :=
  {[ "Date" := VStr "2024-01-01"; "Engagement" := VStr "abc";
     "Likes" := VStr "-5"; "Hour" := VStr "25" ]}.

Definition afternoon : Row :=
  {[ "Date" := VStr "2024-01-01T09:00:00"; "Hour" := VStr "14" ]}.

(** The hour is the number zero. *)
Definition midnight : Row :=
  {[ "Date" := VStr "2024-01-01T09:00:00"; "Hour" := VNum Num.zero ]}.

Definition normalised (d : string) (e l hr : num) : SocialDataOf jsval :=
  {| Date := VStr d; Engagement := e; Impressions := Num.zero;
     Shares := Num.zero; Likes := l; Comments := Num.zero;
     Sector := VStr "General"; Platform := VStr "Unknown"; Hour := hr |}.

End Example.


(** ** Windows, as a specification of the grouping *)

Section Windows.
Variable h : Host.

(** The engagements of the records that fall in the window [k], in the
    order of the input. *)
Definition window_group (data : list SocialData) (k : string) : list num :=
  map Engagement (filter (fun item => window_key h item = k) data).

Definition window_average (data : list SocialData) (k : string) : num :=
  average (window_group data k).

(** What the [forEach] has built after the records [data]: every window
    that holds a record is a property, once, and holds the engagements of
    its records in their order. *)
Definition grouped (data : list SocialData)
    (st : Obj.obj (list num) * list num) : Prop :=
  NoDup (map fst (fst st)) /\
  (forall k, Obj.get (fst st) k
             = match window_group data k with
               | [] => None
               | g => Some g
               end) /\
  snd st = map Engagement data.

End Windows.

(** ** Descending order *)

Section Descending.
Context {A : Type} (val : A -> num).



End Descending.

(** ** Chronological order *)

(** The time value of a record's date, for a record whose date is one. *)
Definition time_of (h : Host) (r : SocialData) : Z :=
  default 0 (Date_of_string h (Date r)).

Definition dated (h : Host) (r : SocialData) : Prop :=
  is_Some (Date_of_string h (Date r)).

(** ** Totals, as a specification of the statistics *)

(** The names that every object inherits from [Object.prototype].  Reading
    one of them from an object that has no such property of its own gives
    the inherited value, and assigning to [__proto__] creates no property;
    the embedding of objects leaves inheritance out, so the statements about
    the statistics are made for keys that are none of these names. *)
Definition prototype_names : list string :=
  ["constructor"; "hasOwnProperty"; "isPrototypeOf"; "propertyIsEnumerable";
   "toLocaleString"; "toString"; "valueOf"; "__proto__";
   "__defineGetter__"; "__defineSetter__"; "__lookupGetter__";
   "__lookupSetter__"].

Definition plain_keys (key : SocialData -> string) (data : list SocialData)
    : Prop :=
  Forall (fun r => key r ∉ prototype_names) data.

(** The sum of the engagements of the records whose [key] is [k]. *)
Definition group_total (key : SocialData -> string) (data : list SocialData)
    (k : string) : num :=
  Arr.sum Engagement (filter (fun item => key item = k) data).

(** What the reduction has built after the records [data]. *)
Definition totalled (key : SocialData -> string) (data : list SocialData)
    (stats : Obj.obj num) : Prop :=
  NoDup (map fst stats) /\
  forall k, Obj.get stats k
            = match filter (fun item => key item = k) data with
              | [] => None
              | _ => Some (group_total key data k)
              end.


(** ** More of [Math] and of arrays *)

Module Math.

(** [Math.floor(a)] *)
Definition floor (a : num) : num :=
  match a with
  | Fin q => Num.of_Z (Qfloor q)
  | _ => a
  end.

(** [Math.min(a, b)] *)
Definition min (a b : num) : num :=
  match a, b with
  | NaN, _ | _, NaN => NaN
  | _, _ => if Num.ltb b a then b else a
  end.

(** [Math.max(...l)]: minus infinity for no argument. *)
Definition max_of (l : list num) : num := fold_left Num.max l (Inf true).

(** The array index that a number used as a property key denotes. *)
Definition index (a : num) : option nat :=
  match a with
  | Fin q =>
      let r := Qred q in
      if (Qden r =? 1)%positive && (0 <=? Qnum r)
      then Some (Z.to_nat (Qnum r)) else None
  | _ => None
  end.

End Math.

(** [l.slice(-n)] for a positive [n]: the last [n] elements. *)
Definition slice_last {A} (n : nat) (l : list A) : list A :=
  drop (length l - n) l.

(** [l.join(sep)] on texts. *)
Fixpoint join (sep : string) (l : list string) : string :=
  match l with
  | [] => ""
  | [s] => s
  | s :: l' => s +:+ sep +:+ join sep l'
  end.

(** ** The charts of [DataVisuals.tsx] *)

Module Visuals.

Record HourSlot : Type := mkSlot { engagement : num; count : nat }.

(** [hours[d.Hour].engagement += d.Engagement; hours[d.Hour].count += 1];
    a [TypeError] when [hours] has no property for the hour. *)
Definition hourly_step (hours : list HourSlot) (d : SocialData)
    : result (list HourSlot) :=
  match Math.index (Hour d) ≫= (fun i => (fun s => (i, s)) <$> hours !! i) with
  | None => Throw TypeError
  | Some (i, s) =>
      Ok (<[i := {| engagement := Num.add (engagement s) (Engagement d);
                    count := S (count s) |}]> hours)
  end.

Fixpoint hourly_fold (hours : list HourSlot) (data : list SocialData)
    : result (list HourSlot) :=
  match data with
  | [] => Ok hours
  | d :: data' => hours' ← hourly_step hours d; hourly_fold hours' data'
  end.

(** One row of the chart: the label of the hour and the rounded mean. *)
Definition hourly_row (i : nat) (s : HourSlot) : string * num :=
  (Str.padStart 2 "0" (Conv.to_string (Num.of_nat i)) +:+ ":00",
   if (0 <? count s)%nat
   then Num.round (Num.div (engagement s) (Num.of_nat (count s)))
   else Num.zero).

(** The [hourlyData] of [TacticalIntelligenceMatrix]. *)
Definition hourlyData (data : list SocialData) : result (list (string * num)) :=
  hours ← hourly_fold (replicate 24 {| engagement := Num.zero; count := 0 |})
                      data;
  Ok (imap hourly_row hours).

(** The [sectorData] of [SectorChart]. *)
Definition sectorData (data : list SocialData) : list (string * num) :=
  Obj.entries (stats_by Sector data).

(** [Math.max(...data.map(f), 0)] *)
Definition peak (f : SocialData -> num) (data : list SocialData) : num :=
  Math.max_of (map f data ++ [Num.zero]).

(** The [radarData] of [VectorChart]. *)
Definition radarData (data : list SocialData) : list (string * num) :=
  [("Resonance", peak Engagement data);
   ("Impact", Num.div (peak Impressions data) (Num.of_Z 10));
   ("Virality", Num.mul (peak Shares data) (Num.of_Z 5));
   ("Affinity", peak Likes data);
   ("Dialogue", Num.mul (peak Comments data) (Num.of_Z 2))].

(** A point of the trajectory chart: the record it spreads, its [date] and
    its [Engagement], which a padding point leaves undefined. *)
Record TrajectoryPoint : Type := mkTrajectory {
  spread : SocialData;
  tdate : string;
  shown : option num
}.

Definition blank : SocialData :=
  {| Date := ""; Engagement := Num.zero; Impressions := Num.zero;
     Shares := Num.zero; Likes := Num.zero; Comments := Num.zero;
     Sector := ""; Platform := ""; Hour := Num.zero |}.

Definition historical_point (d : SocialData) : TrajectoryPoint :=
  {| spread := d;
     tdate := default "" (head (Str.split "T" (Date d)));
     shown := Some (Engagement d) |}.

(** The comparator of the chart's sort. *)
Definition by_tdate (h : Host) (a b : TrajectoryPoint) : num :=
  Num.sub (getTime (Date_of_string h (tdate a)))
          (getTime (Date_of_string h (tdate b))).

(** The [forEach] over the dates of the forecast. *)
Definition pad_step (historicalDates : list string)
    (padded : list TrajectoryPoint) (d : string) : list TrajectoryPoint :=
  if decide (d ∈ historicalDates) then padded
  else padded ++ [{| spread := blank; tdate := d; shown := None |}].

(** The [syncedTrajectoryData] of [TrajectoryChart]. *)
Definition syncedTrajectoryData (h : Host) (data : list SocialData)
    (forecast : list ForecastPoint) : list TrajectoryPoint :=
  let historical := map historical_point data in
  let forecastDates := map date forecast in
  let historicalDates := map tdate historical in
  let padded := fold_left (pad_step historicalDates) forecastDates historical in
  Arr.sort (by_tdate h) padded.

End Visuals.

(** ** The application component *)

Module App.

Inductive SortBy : Type :=
| ByDate
| ByNumber (column : SocialData -> num)
| ByText (column : SocialData -> string).

Inductive SortOrder : Type := asc | desc.

(** [valA < valB] for the values of the column. *)
Definition column_lt (h : Host) (sortBy : SortBy) (a b : SocialData) : bool :=
  match sortBy with
  | ByDate => Num.ltb (getTime (Date_of_string h (Date a)))
                      (getTime (Date_of_string h (Date b)))
  | ByNumber column => Num.ltb (column a) (column b)
  | ByText column => String.ltb (column a) (column b)
  end.

(** The comparator of [filteredData]. *)
Definition compare_rows (h : Host) (sortBy : SortBy) (sortOrder : SortOrder)
    (a b : SocialData) : num :=
  if column_lt h sortBy a b
  then match sortOrder with asc => Num.of_Z (-1) | desc => Num.of_Z 1 end
  else if column_lt h sortBy b a
  then match sortOrder with asc => Num.of_Z 1 | desc => Num.of_Z (-1) end
  else Num.zero.

Definition filteredData (h : Host) (data : list SocialData)
    (platformFilter sectorFilter : string) (sortBy : SortBy)
    (sortOrder : SortOrder) : list SocialData :=
  let result := data in
  let result := if String.eqb platformFilter "All" then result
                else filter (fun d => Platform d = platformFilter) result in
  let result := if String.eqb sectorFilter "All" then result
                else filter (fun d => Sector d = sectorFilter) result in
  Arr.sort (compare_rows h sortBy sortOrder) result.

(** What one pulse does to the integrity of the link. *)
Inductive Pulse : Type := Parsed | Unparsed | Failed.

Definition linkIntegrity_next (prev : num) (p : Pulse) : num :=
  match p with
  | Parsed => Math.min (Num.of_Z 100) (Num.add prev (Num.of_Z 5))
  | Unparsed => Num.max Num.zero (Num.sub prev (Num.of_Z 15))
  | Failed => Num.max Num.zero (Num.sub prev (Num.of_Z 20))
  end.

(** The integrity after a run of pulses, from the initial 100. *)
Definition linkIntegrity_after (pulses : list Pulse) : num :=
  fold_left linkIntegrity_next pulses (Num.of_Z 100).

(** [[newPacket, ...prev].slice(0, 10)] *)
Definition push_packet {P} (newPacket : P) (prev : list P) : list P :=
  take 10 (newPacket :: prev).

(** [options[Math.floor(Math.random() * 4)]] *)
Definition pick (options : list string) (r : Q) : jsval :=
  match Math.index (Math.floor (Num.mul (Fin r) (Num.of_Z 4)))
        ≫= (fun i => options !! i) with
  | Some s => VStr s
  | None => VUndef
  end.

(** [generateMockPoint(date, baseEng, multiplier)]; [k] counts the draws
    of [Math.random] made so far, four more are made. *)
Definition generateMockPoint (h : Host) (k : nat) (d : JsDate.time)
    (baseEng multiplier : num) : result (SocialDataOf jsval * nat) :=
  let base := Num.add (Math.floor (Num.mul (Fin (random h k)) baseEng))
                      (Num.of_Z 100) in
  let engagement := Math.floor (Num.mul base multiplier) in
  iso ← JsDate.toISOString d;
  Ok ({| Date := VStr iso;
         Engagement := engagement;
         Impressions :=
           Math.floor
             (Num.mul engagement
                (Num.add (Num.of_Z 8)
                   (Num.mul (Fin (random h (k + 1))) (Num.of_Z 4))));
         Shares := Math.floor (Num.mul engagement (Fin (1 # 20)));
         Likes := Math.floor (Num.mul engagement (Fin (2 # 5)));
         Comments := Math.floor (Num.mul engagement (Fin (1 # 10)));
         Sector := pick ["Tech"; "Gaming"; "Finance"; "Lifestyle"]
                        (random h (k + 2));
         Platform := pick ["X"; "Instagram"; "LinkedIn"; "Facebook"]
                          (random h (k + 3));
         Hour := getHours h d |},
      (k + 4)%nat).

(** The update of [data] by a pulse: the oldest record leaves, a mock
    point one hour after the last one enters. *)
Definition roll_data (h : Host) (k : nat) (prevData : list (SocialDataOf jsval))
    (score multiplier : num) : result (list (SocialDataOf jsval) * nat) :=
  match last prevData with
  | None => Throw TypeError
  | Some lastRecord =>
      let lastDate := Date_of_value h (Date lastRecord) in
      let nextDate :=
        match Num.add (getTime lastDate) (Num.of_Z (1000 * 60 * 60)) with
        | Fin q => JsDate.TimeClip (Z.quot (Qnum q) (Z.pos (Qden q)))
        | _ => None
        end in
      '(newPoint, k') ← generateMockPoint h k nextDate score multiplier;
      Ok (drop 1 prevData ++ [newPoint], k')
  end.

End App.

(** ** The report request of the service *)

Module Service.

Inductive Role : Type := user | assistant.

Record ChatMessage : Type := mkMessage { role : Role; content : string }.

Definition is_assistant (m : ChatMessage) : bool :=
  match role m with assistant => true | user => false end.


(** The messages quoted by [latestAdvice]. *)
Definition advisers (chatHistory : list ChatMessage) : list ChatMessage :=
  slice_last 5 (List.filter is_assistant chatHistory).

Definition newline : string := String "010" "".

(** [latestAdvice || "Awaiting manual strategic overrides."] *)
Definition latestAdvice (chatHistory : list ChatMessage) : string :=
  let advice := join (newline +:+ "---" +:+ newline)
                     (map content (advisers chatHistory)) in
  if String.eqb advice "" then "Awaiting manual strategic overrides."
  else advice.

End Service.

(** ** Hours of the day, as a specification of the hourly chart *)

(** The record's hour is one of the twenty-four of the chart. *)
Definition on_the_clock (d : SocialData) : bool :=
  match Math.index (Hour d) with
  | Some i => (i <? 24)%nat
  | None => false
  end.

(** The records of the hour [i]. *)
Definition at_hour (i : nat) (data : list SocialData) : list SocialData :=
  filter (fun d => Math.index (Hour d) = Some i) data.

(** What the [forEach] of [hourlyData] has built after the records
    [data]. *)
Definition tallied (data : list SocialData) (hours : list Visuals.HourSlot)
    : Prop :=
  length hours = 24%nat /\
  forall i, (i < 24)%nat ->
    hours !! i = Some {| Visuals.engagement := Arr.sum Engagement (at_hour i data);
                         Visuals.count := length (at_hour i data) |}.


(** * Verification *)

(** ** The result monad, sorting and lists *)

Lemma result_bind_ok {A B} (m : result A) (f : A -> result B) (b : B) :
  m ≫= f = Ok b -> exists a, m = Ok a /\ f a = Ok b.
Proof. destruct m as [a|e]; simpl; [eauto | discriminate]. Qed.

Lemma insert_perm {A} (cmp : A -> A -> num) (x : A) (l : list A) :
  Arr.insert cmp x l ≡ₚ x :: l.
Proof.
  induction l as [|y l IH]; simpl; [reflexivity|].
  destruct (Num.ltb (cmp x y) Num.zero); [reflexivity|].
  rewrite IH. apply Permutation_swap.
Qed.

Lemma sort_from_perm {A} (cmp : A -> A -> num) (l acc : list A) :
  fold_left (fun acc x => Arr.insert cmp x acc) l acc ≡ₚ l ++ acc.
Proof.
  revert acc; induction l as [|x l IH]; intros acc; simpl; [reflexivity|].
  rewrite IH, insert_perm. symmetry. apply Permutation_middle.
Qed.

Lemma sort_perm {A} (cmp : A -> A -> num) (l : list A) :
  Arr.sort cmp l ≡ₚ l.
Proof. unfold Arr.sort. rewrite sort_from_perm, app_nil_r. reflexivity. Qed.

Lemma sort_length {A} (cmp : A -> A -> num) (l : list A) :
  length (Arr.sort cmp l) = length l.
Proof. apply Permutation_length, sort_perm. Qed.

Lemma last_map {A B} (f : A -> B) (l : list A) :
  last (map f l) = f <$> last l.
Proof.
  induction l as [|x [|y l] IH]; simpl in *; try reflexivity. exact IH.
Qed.

Lemma head_map {A B} (f : A -> B) (l : list A) :
  head (map f l) = f <$> head l.
Proof. destruct l; reflexivity. Qed.

Lemma Forall2_elem_l {A B} (P : A -> B -> Prop) (l : list A) (k : list B) :
  Forall2 P l k -> Forall2 (fun x y => x ∈ l /\ P x y) l k.
Proof.
  induction 1 as [|x y l k Hxy _ IH]; constructor.
  - split; [left | exact Hxy].
  - eapply Forall2_impl; [exact IH|].
    intros a b [Ha Hab]. split; [right; exact Ha | exact Hab].
Qed.

Lemma perm3_cases {A} (a b c : A) (l : list A) :
  l ≡ₚ [a; b; c] ->
  l = [a; b; c] \/ l = [a; c; b] \/ l = [b; a; c] \/
  l = [b; c; a] \/ l = [c; a; b] \/ l = [c; b; a].
Proof.
  intros Hp.
  destruct (Permutation_vs_cons_inv Hp) as (l1 & l2 & ->).
  apply Permutation_sym, Permutation_cons_app_inv in Hp.
  apply Permutation_length_2_inv in Hp.
  destruct l1 as [|x [|y [|z l1]]]; simpl in Hp;
    destruct Hp as [Hp|Hp]; simplify_eq/=; auto 10;
    try (destruct l1; discriminate).
Qed.

(** ** Numbers *)

Lemma Qle_bool_false (x y : Q) : Qle_bool x y = false -> (y < x)%Q.
Proof.
  intros H. apply Qnot_le_lt. intros Hle. apply Qle_bool_iff in Hle. congruence.
Qed.

Lemma of_Z_truthy (z : Z) : Num.truthy (Num.of_Z z) = negb (z =? 0).
Proof. reflexivity. Qed.

Lemma finite_inv (a : num) : Num.is_finite a = true -> exists q, a = Fin q.
Proof. destruct a; try discriminate. eauto. Qed.

Lemma max_zero_fin (y : Q) :
  Num.max Num.zero (Fin y) = Fin (if Qle_bool y 0 then 0%Q else y).
Proof.
  unfold Num.max, Num.ltb, Num.zero, Num.of_Z.
  change (inject_Z 0) with 0%Q.
  destruct (Qle_bool y 0); reflexivity.
Qed.

(** Clamping at zero is monotone. *)
Lemma clamp_mono (a b : Q) :
  (a <= b)%Q ->
  Num.leb (Num.max Num.zero (Fin a)) (Num.max Num.zero (Fin b)) = true.
Proof.
  intros Hab. rewrite !max_zero_fin. simpl.
  destruct (Qle_bool a 0) eqn:Ha, (Qle_bool b 0) eqn:Hb;
    try apply Qle_bool_iff in Ha; try apply Qle_bool_iff in Hb;
    try apply Qle_bool_false in Ha; try apply Qle_bool_false in Hb;
    apply Qle_bool_iff; lra.
Qed.

Lemma lastVal_finite (e : num) :
  Num.is_finite e = true ->
  exists q, (if Num.truthy e then e else Num.of_Z 100) = Fin q.
Proof. intros [q ->]%finite_inv. simpl. destruct (negb _); eauto. Qed.

Lemma firstVal_finite (e : num) :
  Num.is_finite e = true ->
  exists q, (if Num.truthy e then e else Num.zero) = Fin q.
Proof. intros [q ->]%finite_inv. simpl. destruct (negb _); eauto. Qed.

Lemma line_finite (l f : Q) (n i : nat) :
  (1 <= n)%nat ->
  exists x,
    Num.add (Fin l)
      (Num.mul (Num.div (Num.sub (Fin l) (Fin f)) (Num.of_nat n)) (Num.of_nat i))
    = Fin x.
Proof.
  intros Hn.
  unfold Num.sub, Num.neg, Num.add, Num.div, Num.of_nat, Num.of_Z, Num.fin.
  unfold Num.qzero at 1. simpl Qnum.
  destruct (Z.eqb_spec (Z.of_nat n) 0); [lia|].
  simpl. eauto.
Qed.

Lemma of_nat_positive (n : nat) :
  (1 <= n)%nat ->
  Num.qzero (inject_Z (Z.of_nat n)) = false /\
  Num.qneg (inject_Z (Z.of_nat n)) = false.
Proof.
  intros Hn. unfold Num.qzero, Num.qneg. simpl.
  split; [apply Z.eqb_neq | apply Z.ltb_ge]; lia.
Qed.

(** The line through an infinite value, or with an infinite slope, is
    that infinity at every step, unless the slope is a difference of equal
    infinities. *)
Lemma line_infinite (lastVal firstVal : num) (n i : nat) :
  (1 <= n)%nat -> (1 <= i)%nat ->
  lastVal <> NaN -> firstVal <> NaN ->
  (forall s, ~ (firstVal = Inf s /\ lastVal = Inf s)) ->
  Num.is_finite lastVal && Num.is_finite firstVal = false ->
  exists s,
    Num.add lastVal
      (Num.mul (Num.div (Num.sub lastVal firstVal) (Num.of_nat n))
               (Num.of_nat i))
    = Inf s.
Proof.
  intros Hn Hi Hl Hf Hsame Hinf.
  destruct (of_nat_positive n Hn) as [Hn0 Hnn].
  destruct (of_nat_positive i Hi) as [Hi0 Hin].
  destruct lastVal as [| s |l]; [contradiction| |];
    (destruct firstVal as [| t |f]; [contradiction| |]).
  - assert (Hst : s = negb t).
    { destruct s, t; try reflexivity; exfalso;
        [apply (Hsame true) | apply (Hsame false)]; auto. }
    subst s. exists (negb t).
    unfold Num.sub, Num.neg, Num.add, Num.div, Num.mul, Num.of_nat, Num.of_Z.
    rewrite Bool.eqb_reflx. rewrite Hnn, Hi0, Hin.
    destruct t; reflexivity.
  - exists s.
    unfold Num.sub, Num.neg, Num.add, Num.div, Num.mul, Num.of_nat, Num.of_Z,
      Num.fin.
    rewrite Hnn, Hi0, Hin. destruct s; reflexivity.
  - exists (negb t).
    unfold Num.sub, Num.neg, Num.add, Num.div, Num.mul, Num.of_nat, Num.of_Z,
      Num.fin.
    rewrite Hnn, Hi0, Hin. destruct t; reflexivity.
  - discriminate Hinf.
Qed.

Lemma clamp_infinite (s : bool) (j : Q) :
  Num.leb (Num.max Num.zero (Num.sub (Inf s) (Num.of_Z 10)))
          (Num.max Num.zero (Num.add (Inf s) (Fin j))) = true /\
  Num.leb (Num.max Num.zero (Num.add (Inf s) (Fin j)))
          (Num.max Num.zero (Num.add (Inf s) (Num.of_Z 10))) = true.
Proof. destruct s; split; reflexivity. Qed.

Lemma or_num_not_NaN (e d : num) :
  d <> NaN -> (if Num.truthy e then e else d) <> NaN.
Proof.
  intros Hd. destruct e as [| s |q]; simpl;
    [assumption | discriminate | destruct (negb _); [discriminate | assumption]].
Qed.

(** ** Dates *)

Lemma Date_of_string_range (h : Host) (s : string) (t : Z) :
  Date_of_string h s = Some t -> Z.abs t <= JsDate.maxTime.
Proof.
  unfold Date_of_string.
  destruct (date_parse h s) as [u|]; simpl; [|discriminate].
  unfold JsDate.TimeClip.
  destruct (Z.leb_spec (Z.abs u) JsDate.maxTime); [|discriminate].
  intros [= <-]. assumption.
Qed.

Lemma toISOString_valid (t : Z) : exists s, JsDate.toISOString (Some t) = Ok s.
Proof.
  unfold JsDate.toISOString.
  destruct (JsDate.civil_from_days (t / JsDate.msPerDay)) as [[y m] d]. eauto.
Qed.

Lemma steps_in_range (t : Z) :
  Z.abs t <= JsDate.maxTime -> t + 10 * JsDate.msPerDay <= JsDate.maxTime ->
  Forall (fun i => Z.abs (t + Z.of_nat i * JsDate.msPerDay) <= JsDate.maxTime)
         (seq 1 10).
Proof.
  intros Ht Hu. apply Forall_forall. intros i Hi%elem_of_seq.
  unfold JsDate.msPerDay, JsDate.maxTime in *. lia.
Qed.

(** ** The example host *)

Lemma host_clock_ok : clock_ok Example.host.
Proof.
  intros k. apply Z.leb_le. simpl.
  pose proof (Z.mod_pos_bound (Z.of_nat k) 1000 eq_refl).
  unfold JsDate.maxTime. lia.
Qed.

Lemma host_random_ok : random_ok Example.host.
Proof. intros k. simpl. split; [discriminate | reflexivity]. Qed.

Lemma steady_in_range : dates_in_range Example.host Example.steady.
Proof.
  repeat constructor; eexists; (split; [vm_compute; reflexivity|]);
    vm_compute; discriminate.
Qed.

(** ** processCSVData *)

Lemma numeric_field_coerced (row : Row) (K k : string) :
  coerced row K k (numeric_field row K k).
Proof.
  unfold coerced, numeric_field, or_else.
  destruct (truthy (prop row K)) eqn:HK.
  - rewrite HK. repeat split; congruence.
  - destruct (truthy (prop row k)) eqn:Hk; rewrite ?Hk;
      repeat split; congruence.
Qed.

Lemma text_field_defaulted (row : Row) (K k d : string) :
  defaulted row K k d (text_field row K k d).
Proof.
  unfold defaulted, text_field, or_else.
  destruct (truthy (prop row K)) eqn:HK.
  - rewrite HK. repeat split; congruence.
  - destruct (truthy (prop row k)) eqn:Hk; rewrite ?Hk;
      repeat split; congruence.
Qed.

Section NormalizerFacts.
Variable h : Host.

Lemma hour_field_eq (row : Row) :
  hour_field h row
  = if truthy (prop row "Hour") then Number (prop row "Hour")
    else match Date_of_value h (prop row "Date") with
         | Some t => Num.of_Z ((t + tz_offset h) / JsDate.msPerHour mod 24)
         | None => Num.zero
         end.
Proof.
  unfold hour_field. destruct (truthy (prop row "Hour")); [reflexivity|].
  destruct (Date_of_value h (prop row "Date")) as [t|]; [|reflexivity].
  unfold getHours, or_num. rewrite of_Z_truthy.
  destruct (Z.eqb_spec ((t + tz_offset h) / JsDate.msPerHour mod 24) 0)
    as [->|]; reflexivity.
Qed.

Lemma hour_field_resolved (row : Row) :
  hour_resolved h row (hour_field h row).
Proof.
  unfold hour_resolved. rewrite hour_field_eq.
  split; intros ->; [reflexivity|].
  destruct (Date_of_value h (prop row "Date")) as [t|].
  - eexists. split; [reflexivity|]. split; [|discriminate].
    pose proof (Z.mod_pos_bound ((t + tz_offset h) / JsDate.msPerHour) 24).
    lia.
  - exists 0. repeat split; lia.
Qed.

Lemma process_row_fields (row : Row) (k k' : nat) (r : SocialDataOf jsval) :
  process_row h row k = Ok (r, k') ->
  Engagement r = numeric_field row "Engagement" "engagement" /\
  Impressions r = numeric_field row "Impressions" "impressions" /\
  Shares r = numeric_field row "Shares" "shares" /\
  Likes r = numeric_field row "Likes" "likes" /\
  Comments r = numeric_field row "Comments" "comments" /\
  Sector r = text_field row "Sector" "sector" "General" /\
  Platform r = text_field row "Platform" "platform" "Unknown" /\
  Hour r = hour_field h row.
Proof.
  unfold process_row. intros H.
  apply result_bind_ok in H as ([dt k1] & _ & H).
  injection H as <- _. simpl. repeat split.
Qed.

Lemma process_rows_lookup (rows : list Row) (k : nat)
    (rs : list (SocialDataOf jsval)) :
  process_rows h rows k = Ok rs ->
  length rs = length rows /\
  forall i row r, rows !! i = Some row -> rs !! i = Some r ->
    exists k1 k2, process_row h row k1 = Ok (r, k2).
Proof.
  revert k rs; induction rows as [|row rows IH]; intros k rs; simpl.
  - intros [= <-]. split; [reflexivity|]. intros i ? ? Hi. discriminate.
  - intros H. apply result_bind_ok in H as ([r k1] & Hrow & H).
    apply result_bind_ok in H as (rs' & Hrows & H).
    injection H as <-. destruct (IH _ _ Hrows) as [Hlen Hall].
    split; [simpl; congruence|].
    intros [|i] row' r' Hi Hr; simplify_eq/=; eauto.
Qed.

Section ValidClock.
Hypothesis Hclock : clock_ok h.

Lemma process_row_total (row : Row) (k : nat) :
  exists r k', process_row h row k = Ok (r, k').
Proof.
  unfold process_row.
  destruct (truthy (or_else (prop row "Date") (prop row "date"))).
  - simpl. eauto.
  - unfold JsDate.TimeClip. rewrite Hclock.
    destruct (toISOString_valid (clock h k)) as [s ->]. simpl. eauto.
Qed.

Lemma process_rows_total (rows : list Row) (k : nat) :
  exists rs, process_rows h rows k = Ok rs.
Proof.
  revert k; induction rows as [|row rows IH]; intros k; simpl; [eauto|].
  destruct (process_row_total row k) as (r & k' & ->). simpl.
  destruct (IH k') as [rs ->]. simpl. eauto.
Qed.

End ValidClock.
End NormalizerFacts.

(** Claim C1, amended.  On a host whose clock gives time values,
    [processCSVData] never throws and returns one record for each row, in
    order.  In each record a numeric field is zero when its column is
    missing or falsy under both spellings, and otherwise the [Number]
    coercion of the first truthy spelling, whatever that is; [Sector] and
    [Platform] are their defaults when both spellings are missing or
    falsy; [Hour] is the coercion of a truthy [Hour] column, and otherwise
    an integer in [[0, 23]], zero when [Date] is no date. *)
Theorem processCSVData_total (h : Host) (rawData : list Row) :
  clock_ok h ->
  exists records,
    processCSVData h rawData = Ok records /\
    length records = length rawData /\
    forall i row r, rawData !! i = Some row -> records !! i = Some r ->
      coerced row "Engagement" "engagement" (Engagement r) /\
      coerced row "Impressions" "impressions" (Impressions r) /\
      coerced row "Shares" "shares" (Shares r) /\
      coerced row "Likes" "likes" (Likes r) /\
      coerced row "Comments" "comments" (Comments r) /\
      defaulted row "Sector" "sector" "General" (Sector r) /\
      defaulted row "Platform" "platform" "Unknown" (Platform r) /\
      hour_resolved h row (Hour r).
Proof.
  intros Hclock. unfold processCSVData.
  destruct (process_rows_total h Hclock rawData 0%nat) as [rs Hrs].
  destruct (process_rows_lookup h _ _ _ Hrs) as [Hlen Hall].
  exists rs. split; [exact Hrs|]. split; [exact Hlen|].
  intros i row r Hi Hr. destruct (Hall i row r Hi Hr) as (k1 & k2 & Hrow).
  destruct (process_row_fields h _ _ _ _ Hrow)
    as (-> & -> & -> & -> & -> & -> & -> & ->).
  repeat split;
    first [ apply numeric_field_coerced | apply text_field_defaulted
          | apply hour_field_resolved ].
Qed.

Lemma processCSVData_total_witness :
  clock_ok Example.host /\
  exists records,
    processCSVData Example.host [Example.malformed; ∅] = Ok records /\
    length records = 2%nat /\
    forall i row r,
      [Example.malformed; ∅] !! i = Some row -> records !! i = Some r ->
      coerced row "Engagement" "engagement" (Engagement r) /\
      coerced row "Impressions" "impressions" (Impressions r) /\
      coerced row "Shares" "shares" (Shares r) /\
      coerced row "Likes" "likes" (Likes r) /\
      coerced row "Comments" "comments" (Comments r) /\
      defaulted row "Sector" "sector" "General" (Sector r) /\
      defaulted row "Platform" "platform" "Unknown" (Platform r) /\
      hour_resolved Example.host row (Hour r).
Proof.
  split; [exact host_clock_ok|].
  exact (processCSVData_total Example.host [Example.malformed; ∅]
           host_clock_ok).
Defined.

(** Claim C1 as stated fails on a row whose engagement is the text [abc],
    whose likes are [-5] and whose hour is [25]: the record holds [NaN],
    a negative number and an hour outside [[0, 23]]. *)
Lemma processCSVData_counterexample :
  processCSVData Example.host [Example.malformed]
    = Ok [Example.normalised "2024-01-01" NaN (Num.of_Z (-5)) (Num.of_Z 25)] /\
  Num.leb Num.zero NaN = false /\
  Num.leb Num.zero (Num.of_Z (-5)) = false /\
  Num.leb (Num.of_Z 25) (Num.of_Z 23) = false.
Proof. vm_compute. auto. Qed.

(** Claim C6, amended.  [Hour] is the [Number] coercion of the [Hour]
    column when that column is truthy.  When it is missing or falsy, the
    number zero included, [Hour] is the local hour of [new Date(row.Date)],
    and zero when that is no date. *)
Theorem hour_resolution (h : Host) (rawData : list Row)
    (records : list (SocialDataOf jsval)) (i : nat) (row : Row)
    (r : SocialDataOf jsval) :
  processCSVData h rawData = Ok records ->
  rawData !! i = Some row -> records !! i = Some r ->
  Hour r = if truthy (prop row "Hour") then Number (prop row "Hour")
           else match Date_of_value h (prop row "Date") with
                | Some t =>
                    Num.of_Z ((t + tz_offset h) / JsDate.msPerHour mod 24)
                | None => Num.zero
                end.
Proof.
  intros Hrs Hi Hr.
  destruct (process_rows_lookup h _ _ _ Hrs) as [_ Hall].
  destruct (Hall i row r Hi Hr) as (k1 & k2 & Hrow).
  destruct (process_row_fields h _ _ _ _ Hrow) as (_&_&_&_&_&_&_& ->).
  apply hour_field_eq.
Qed.

Lemma hour_resolution_witness :
  processCSVData Example.host [Example.afternoon]
    = Ok [Example.normalised "2024-01-01T09:00:00" Num.zero Num.zero
            (Num.of_Z 14)] /\
  Num.of_Z 14
  = if truthy (prop Example.afternoon "Hour")
    then Number (prop Example.afternoon "Hour")
    else match Date_of_value Example.host (prop Example.afternoon "Date") with
         | Some t =>
             Num.of_Z ((t + tz_offset Example.host) / JsDate.msPerHour mod 24)
         | None => Num.zero
         end.
Proof.
  split; [vm_compute; reflexivity|].
  exact (hour_resolution Example.host [Example.afternoon]
           [Example.normalised "2024-01-01T09:00:00" Num.zero Num.zero
              (Num.of_Z 14)] 0 Example.afternoon _
           ltac:(vm_compute; reflexivity) eq_refl eq_refl).
Defined.

(** Claim C6 as stated fails on a row whose hour is the number zero: the
    field is present, and the record's hour is nine, read from the date,
    not the coercion of the field. *)
Lemma hour_resolution_counterexample :
  prop Example.midnight "Hour" = VNum Num.zero /\
  Number (prop Example.midnight "Hour") = Num.of_Z 0 /\
  processCSVData Example.host [Example.midnight]
    = Ok [Example.normalised "2024-01-01T09:00:00" Num.zero Num.zero
            (Num.of_Z 9)].
Proof. vm_compute. auto. Qed.

(** ** calculateNTS *)

Section AnalyzerFacts.
Variable h : Host.

Lemma window_key_of (item : SocialData) (d hr : Z) :
  getDay h (Date_of_string h (Date item)) = Num.of_Z d ->
  Hour item = Num.of_Z hr ->
  window_key h item
  = weekday_text (Num.of_Z d) +:+ "|" +:+ Conv.to_string (Num.of_Z hr).
Proof. intros Hd Hh. unfold window_key. rewrite Hd, Hh. reflexivity. Qed.

(** Claim C3.  Two records on a Monday at hour 9 with engagements 100 and
    200 and one on a Tuesday at hour 10 with engagement 50, in any order:
    the baseline is 350/3, the best window is Monday 09:00 with score 150
    and lift 29. *)
Theorem nts_monday_example (a b c : SocialData) :
  getDay h (Date_of_string h (Date a)) = Num.of_Z 1 ->
  getDay h (Date_of_string h (Date b)) = Num.of_Z 1 ->
  getDay h (Date_of_string h (Date c)) = Num.of_Z 2 ->
  Hour a = Num.of_Z 9 -> Hour b = Num.of_Z 9 -> Hour c = Num.of_Z 10 ->
  Engagement a = Num.of_Z 100 -> Engagement b = Num.of_Z 200 ->
  Engagement c = Num.of_Z 50 ->
  average [Engagement a; Engagement b; Engagement c] = Num.fin (350 # 3) /\
  forall data, data ≡ₚ [a; b; c] ->
    calculateNTS h data =
      Ok {| bestDay := "Monday"; bestHour := "09:00";
            engagementScore := Num.of_Z 150; liftPercentage := Num.of_Z 29;
            secondaryWindow := "Tuesday @ 10:00" |}.
Proof.
  intros Da Db Dc Ha Hb Hc Ea Eb Ec. split.
  - rewrite Ea, Eb, Ec. vm_compute. reflexivity.
  - pose proof (window_key_of a 1 9 Da Ha) as Ka.
    pose proof (window_key_of b 1 9 Db Hb) as Kb.
    pose proof (window_key_of c 2 10 Dc Hc) as Kc.
    intros data Hp.
    destruct (perm3_cases a b c data Hp) as [->|[->|[->|[->|[->| ->]]]]];
      unfold calculateNTS; cbn [length Nat.eqb fold_left]; unfold nts_step;
      rewrite ?Ka, ?Kb, ?Kc, ?Ea, ?Eb, ?Ec; vm_compute; reflexivity.
Qed.

(** Claim C7.  On the empty input [calculateNTS] returns, without
    throwing, the result whose three texts are [N/A] and whose score and
    lift are zero. *)
Theorem nts_empty :
  calculateNTS h [] =
    Ok {| bestDay := "N/A"; bestHour := "N/A"; engagementScore := Num.zero;
          liftPercentage := Num.zero; secondaryWindow := "N/A" |}.
Proof. reflexivity. Qed.

End AnalyzerFacts.

Lemma nts_monday_example_witness :
  calculateNTS Example.host Example.week =
    Ok {| bestDay := "Monday"; bestHour := "09:00";
          engagementScore := Num.of_Z 150; liftPercentage := Num.of_Z 29;
          secondaryWindow := "Tuesday @ 10:00" |}.
Proof.
  refine (proj2 (nts_monday_example Example.host
                   (Example.record "2024-01-01T09:00:00" 100 9)
                   (Example.record "2024-01-01T09:30:00" 200 9)
                   (Example.record "2024-01-02T10:00:00" 50 10)
                   _ _ _ _ _ _ _ _ _) Example.week _);
    first [reflexivity | vm_compute; reflexivity].
Defined.

(** ** generateNeuralForecast *)

Section ForecasterFacts.
Variable h : Host.

Lemma future_point_ok (t : Z) (lastVal trend : num) (i : nat) :
  Z.abs (t + Z.of_nat i * JsDate.msPerDay) <= JsDate.maxTime ->
  exists p, future_point h (Some t) lastVal trend i = Ok p /\
            actual p = None /\
            predicted p = Some (predicted_value h lastVal trend i).
Proof.
  intros Hr. unfold future_point, addDays; simpl.
  unfold JsDate.TimeClip.
  destruct (Z.leb_spec (Z.abs (t + Z.of_nat i * JsDate.msPerDay))
              JsDate.maxTime); [|lia].
  destruct (toISOString_valid (t + Z.of_nat i * JsDate.msPerDay)) as [s ->].
  simpl. eauto.
Qed.

Lemma future_points_ok (t : Z) (lastVal trend : num) (steps : list nat) :
  Forall (fun i => Z.abs (t + Z.of_nat i * JsDate.msPerDay) <= JsDate.maxTime)
         steps ->
  exists ps, future_points h (Some t) lastVal trend steps = Ok ps /\
    Forall2 (fun i p => actual p = None /\
                        predicted p = Some (predicted_value h lastVal trend i))
            steps ps.
Proof.
  induction 1 as [|i steps Hi _ [ps [Hps HF]]]; simpl.
  - exists []. split; [reflexivity | constructor].
  - destruct (future_point_ok t lastVal trend i Hi) as [p [-> Hp]].
    rewrite Hps. simpl. exists (p :: ps). split; [reflexivity|].
    constructor; assumption.
Qed.

(** When every date is a date the last of the sorted records has one. *)
Lemma dates_last_in_range (data : list SocialData) :
  (2 <= length data)%nat -> dates_in_range h data ->
  exists r t, last (Arr.sort (by_date h) data) = Some r /\
              Date_of_string h (Date r) = Some t /\
              t + 10 * JsDate.msPerDay <= JsDate.maxTime.
Proof.
  intros Hn Hd. pose proof (sort_length (by_date h) data) as Hlen.
  destruct (last (Arr.sort (by_date h) data)) as [r|] eqn:Hl.
  2:{ apply last_None in Hl. rewrite Hl in Hlen. simpl in Hlen. lia. }
  assert (Hr : r ∈ data).
  { rewrite <- (sort_perm (by_date h) data).
    apply last_Some in Hl as [l' ->]. apply elem_of_app. right. left. }
  unfold dates_in_range in Hd. rewrite Forall_forall in Hd.
  destruct (Hd r Hr) as (t & Ht & Hmax).
  exists r, t. auto.
Qed.

(** A run on two records or more whose dates are in range: the sorted
    history followed by ten points computed from the last value and the
    trend. *)
Lemma forecast_run (data : list SocialData) :
  (2 <= length data)%nat -> dates_in_range h data ->
  exists first lastRecord ps,
    head (Arr.sort (by_date h) data) = Some first /\
    last (Arr.sort (by_date h) data) = Some lastRecord /\
    generateNeuralForecast h data
      = Ok (map history_point (Arr.sort (by_date h) data) ++ ps) /\
    Forall2 (fun i p =>
               actual p = None /\
               predicted p = Some
                 (predicted_value h
                    (forecast_lastVal (history_point lastRecord))
                    (forecast_trend (forecast_lastVal (history_point lastRecord))
                                    (history_point first) (length data))
                    i))
            (seq 1 10) ps.
Proof.
  intros Hn Hd.
  destruct (dates_last_in_range data Hn Hd) as (r & t & Hlast & Ht & Hmax).
  pose proof (sort_length (by_date h) data) as Hlen.
  destruct (Arr.sort (by_date h) data) as [|first rest] eqn:Hs;
    [simpl in Hlen; lia|].
  destruct (future_points_ok t
              (forecast_lastVal (history_point r))
              (forecast_trend (forecast_lastVal (history_point r))
                              (history_point first) (length data))
              (seq 1 10)
              (steps_in_range t (Date_of_string_range h _ t Ht) Hmax))
    as (ps & Hps & HF).
  exists first, r, ps. repeat split; try assumption.
  unfold generateNeuralForecast.
  destruct (Nat.ltb_spec (length data) 2); [lia|].
  rewrite Hs. unfold forecast_of_sorted.
  rewrite Hlast, Ht, last_map, head_map, Hlast. simpl head. simpl fmap.
  rewrite length_map, Hlen.
  cbv zeta. rewrite Hps. reflexivity.
Qed.

Lemma first_last_in (data : list SocialData) (first lastRecord : SocialData) :
  head (Arr.sort (by_date h) data) = Some first ->
  last (Arr.sort (by_date h) data) = Some lastRecord ->
  first ∈ data /\ lastRecord ∈ data.
Proof.
  intros Hf Hl. split.
  - rewrite <- (sort_perm (by_date h) data).
    destruct (Arr.sort (by_date h) data); simplify_eq/=. left.
  - rewrite <- (sort_perm (by_date h) data).
    apply last_Some in Hl as [l' ->]. apply elem_of_app. right. left.
Qed.

Section Jitter.
Hypothesis Hrandom : random_ok h.

Lemma jitter_range (k : nat) :
  exists j, jitter h k = Fin j /\ (-10 <= j)%Q /\ (j < 10)%Q.
Proof.
  destruct (Hrandom k) as [H0 H1].
  unfold jitter, Num.sub, Num.mul, Num.add, Num.neg, Num.fin, Num.of_Z.
  eexists. split; [reflexivity|].
  rewrite !Qred_correct. unfold inject_Z. split; lra.
Qed.

Lemma predicted_value_bounds (x : Q) (trend : num) (i : nat) (lastVal : num) :
  Num.add lastVal (Num.mul trend (Num.of_nat i)) = Fin x ->
  Num.leb (Num.max Num.zero (Num.sub (Fin x) (Num.of_Z 10)))
          (predicted_value h lastVal trend i) = true /\
  Num.leb (predicted_value h lastVal trend i)
          (Num.max Num.zero (Num.add (Fin x) (Num.of_Z 10))) = true.
Proof.
  intros Hx. unfold predicted_value. rewrite Hx.
  destruct (jitter_range (i - 1)) as (j & -> & Hlo & Hhi).
  unfold Num.sub, Num.add, Num.neg, Num.fin, Num.of_Z.
  split; apply clamp_mono; rewrite !Qred_correct; unfold inject_Z; lra.
Qed.

Lemma predicted_value_bounds_infinite (s : bool) (trend : num) (i : nat)
    (lastVal : num) :
  Num.add lastVal (Num.mul trend (Num.of_nat i)) = Inf s ->
  Num.leb (Num.max Num.zero (Num.sub (Inf s) (Num.of_Z 10)))
          (predicted_value h lastVal trend i) = true /\
  Num.leb (predicted_value h lastVal trend i)
          (Num.max Num.zero (Num.add (Inf s) (Num.of_Z 10))) = true.
Proof.
  intros Hx. unfold predicted_value. rewrite Hx.
  destruct (jitter_range (i - 1)) as (j & -> & _ & _).
  apply clamp_infinite.
Qed.

End Jitter.

(** When no date is a date the call throws. *)
Lemma forecast_undated (data : list SocialData) :
  (2 <= length data)%nat ->
  Forall (fun r => Date_of_string h (Date r) = None) data ->
  generateNeuralForecast h data = Throw RangeError.
Proof.
  intros Hn Hd. unfold generateNeuralForecast.
  destruct (Nat.ltb_spec (length data) 2); [lia|].
  pose proof (sort_length (by_date h) data) as Hlen.
  unfold forecast_of_sorted. rewrite last_map, head_map.
  destruct (last (Arr.sort (by_date h) data)) as [r|] eqn:Hl.
  2:{ apply last_None in Hl. rewrite Hl in Hlen. simpl in Hlen. lia. }
  destruct (head (Arr.sort (by_date h) data)) as [f|] eqn:Hf.
  2:{ apply head_None in Hf. rewrite Hf in Hlen. simpl in Hlen. lia. }
  assert (Hr : r ∈ data).
  { rewrite <- (sort_perm (by_date h) data).
    apply last_Some in Hl as [l' ->]. apply elem_of_app. right. left. }
  rewrite Forall_forall in Hd. rewrite (Hd r Hr). reflexivity.
Qed.

(** Claim C2, amended.  For two records or more all of whose dates are
    dates with ten days left after them in the range of dates, the ten
    predicted values are those of the line through the last value with
    slope [(lastVal - firstVal) / recordCount], where [lastVal] is the
    engagement of the last sorted record, or 100 when that engagement is
    zero or [NaN], and [firstVal] the engagement of the first sorted
    record, or 0 when that engagement is zero or [NaN]. *)
Theorem forecast_trend_formula (data : list SocialData) :
  (2 <= length data)%nat -> dates_in_range h data ->
  exists first lastRecord future,
    head (Arr.sort (by_date h) data) = Some first /\
    last (Arr.sort (by_date h) data) = Some lastRecord /\
    generateNeuralForecast h data
      = Ok (map history_point (Arr.sort (by_date h) data) ++ future) /\
    let lastVal := if Num.truthy (Engagement lastRecord)
                   then Engagement lastRecord else Num.of_Z 100 in
    let firstVal := if Num.truthy (Engagement first)
                    then Engagement first else Num.zero in
    let trend := Num.div (Num.sub lastVal firstVal)
                         (Num.of_nat (length data)) in
    Forall2 (fun i p =>
               predicted p = Some
                 (Num.max Num.zero
                    (Num.add (Num.add lastVal (Num.mul trend (Num.of_nat i)))
                             (jitter h (i - 1)))))
            (seq 1 10) future.
Proof.
  intros Hn Hd.
  destruct (forecast_run data Hn Hd)
    as (first & r & ps & Hf & Hl & Hg & HF).
  exists first, r, ps. repeat split; try assumption.
  cbv zeta. eapply Forall2_impl; [exact HF|].
  intros i p [_ Hp]. exact Hp.
Qed.

(** Claim C4, amended.  With fewer than two records the forecast is empty.
    With two or more, all of whose dates are dates with ten days left
    after them in the range of dates, it has ten entries more than the
    input: the first entries carry an actual value and no predicted one,
    the last ten a predicted value and no actual one.  With two or more
    none of whose dates is a date, the call throws a [RangeError]. *)
Theorem forecast_shape (data : list SocialData) :
  ((length data < 2)%nat -> generateNeuralForecast h data = Ok []) /\
  ((2 <= length data)%nat -> dates_in_range h data ->
   exists pts,
     generateNeuralForecast h data = Ok pts /\
     length pts = (length data + 10)%nat /\
     (forall i p, (i < length data)%nat -> pts !! i = Some p ->
        (exists a, actual p = Some a) /\ predicted p = None) /\
     (forall i p, (length data <= i)%nat -> pts !! i = Some p ->
        actual p = None /\ exists v, predicted p = Some v)) /\
  ((2 <= length data)%nat ->
   Forall (fun r => Date_of_string h (Date r) = None) data ->
   generateNeuralForecast h data = Throw RangeError).
Proof.
  split; [|split].
  - intros Hn. unfold generateNeuralForecast.
    destruct (Nat.ltb_spec (length data) 2); [reflexivity | lia].
  - intros Hn Hd.
    destruct (forecast_run data Hn Hd)
      as (first & r & ps & _ & _ & Hg & HF).
    pose proof (sort_length (by_date h) data) as Hlen.
    pose proof (Forall2_length _ _ _ HF) as Hps. rewrite length_seq in Hps.
    eexists. split; [exact Hg|]. split; [|split].
    + rewrite length_app, length_map, Hlen. lia.
    + intros i p Hi Hp.
      rewrite lookup_app_l in Hp by (rewrite length_map; lia).
      change (map history_point) with (fmap (M:=list) history_point) in Hp.
      apply list_lookup_fmap_Some in Hp as (d & -> & _). simpl. eauto.
    + intros i p Hi Hp.
      rewrite lookup_app_r in Hp by (rewrite length_map; lia).
      destruct (Forall2_lookup_r _ _ _ _ _ HF Hp) as (j & _ & Ha & Hv). eauto.
  - apply forecast_undated.
Qed.

(** Claim C5, amended.  For two records or more all of whose dates are
    dates with ten days left after them in the range of dates, and
    whatever [Math.random] draws in [[0, 1)], the [i]-th predicted value
    lies between [max(0, lastVal + trend*i - 10)] and
    [max(0, lastVal + trend*i + 10)], where [lastVal] is the engagement of
    the last sorted record, or 100 when that engagement is zero or [NaN],
    and [trend] is [(lastVal - firstVal) / recordCount] with [firstVal] the
    engagement of the first sorted record, or 0 when that engagement is
    zero or [NaN]; unless those two engagements are the same infinity, for
    then the trend and every predicted value are [NaN]. *)
Theorem forecast_bounds (data : list SocialData) :
  random_ok h -> (2 <= length data)%nat -> dates_in_range h data ->
  exists first lastRecord future,
    head (Arr.sort (by_date h) data) = Some first /\
    last (Arr.sort (by_date h) data) = Some lastRecord /\
    generateNeuralForecast h data
      = Ok (map history_point (Arr.sort (by_date h) data) ++ future) /\
    ((forall s, ~ (Engagement first = Inf s /\ Engagement lastRecord = Inf s)) ->
     let lastVal := if Num.truthy (Engagement lastRecord)
                    then Engagement lastRecord else Num.of_Z 100 in
     let firstVal := if Num.truthy (Engagement first)
                     then Engagement first else Num.zero in
     let trend := Num.div (Num.sub lastVal firstVal)
                          (Num.of_nat (length data)) in
     Forall2 (fun i p =>
                let line := Num.add lastVal (Num.mul trend (Num.of_nat i)) in
                exists v, predicted p = Some v /\
                  Num.leb (Num.max Num.zero (Num.sub line (Num.of_Z 10))) v
                    = true /\
                  Num.leb v (Num.max Num.zero (Num.add line (Num.of_Z 10)))
                    = true)
             (seq 1 10) future) /\
    (forall s, Engagement first = Inf s -> Engagement lastRecord = Inf s ->
       Forall (fun p => predicted p = Some NaN) future).
Proof.
  intros Hr Hn Hd.
  destruct (forecast_run data Hn Hd)
    as (first & r & ps & Hf & Hl & Hg & HF).
  exists first, r, ps. split; [exact Hf|]. split; [exact Hl|].
  split; [exact Hg|]. split.
  2:{ intros s H1 H2. apply Forall_forall. intros p Hp.
      apply list_elem_of_lookup in Hp as [j Hp].
      destruct (Forall2_lookup_r _ _ _ _ _ HF Hp) as (i & _ & _ & Hv).
      rewrite Hv. f_equal.
      unfold predicted_value, forecast_lastVal, forecast_trend, history_point,
        or_num.
      simpl. rewrite H1, H2. destruct s; reflexivity. }
  intros Hsame. cbv zeta.
  set (lastVal := if Num.truthy (Engagement r) then Engagement r
                  else Num.of_Z 100).
  set (firstVal := if Num.truthy (Engagement first) then Engagement first
                   else Num.zero).
  assert (Hl0 : lastVal <> NaN) by (apply or_num_not_NaN; discriminate).
  assert (Hf0 : firstVal <> NaN) by (apply or_num_not_NaN; discriminate).
  assert (Hsame' : forall s, ~ (firstVal = Inf s /\ lastVal = Inf s)).
  { intros s [H1 H2]. apply (Hsame s). subst lastVal firstVal. split.
    - destruct (Engagement first) as [| t |q]; simpl in H1;
        [discriminate | exact H1 | destruct (negb _); discriminate].
    - destruct (Engagement r) as [| t |q]; simpl in H2;
        [discriminate | exact H2 | destruct (negb _); discriminate]. }
  eapply Forall2_impl; [exact (Forall2_elem_l _ _ _ HF)|].
  intros i p [Hi%elem_of_seq [_ Hp]].
  exists (predicted_value h lastVal
            (Num.div (Num.sub lastVal firstVal) (Num.of_nat (length data))) i).
  split; [exact Hp|].
  destruct (Num.is_finite lastVal && Num.is_finite firstVal) eqn:Hfin.
  - apply andb_prop in Hfin as [[l El]%finite_inv [f Ef]%finite_inv].
    rewrite El, Ef.
    destruct (line_finite l f (length data) i ltac:(lia)) as [x Hx].
    rewrite Hx. apply (predicted_value_bounds Hr x). exact Hx.
  - destruct (line_infinite lastVal firstVal (length data) i
                ltac:(lia) ltac:(lia) Hl0 Hf0 Hsame' Hfin) as [s Hs].
    rewrite Hs. apply (predicted_value_bounds_infinite Hr s). exact Hs.
Qed.

End ForecasterFacts.

Lemma forecast_trend_formula_witness :
  (2 <= length Example.steady)%nat /\
  dates_in_range Example.host Example.steady /\
  exists first lastRecord future,
    head (Arr.sort (by_date Example.host) Example.steady) = Some first /\
    last (Arr.sort (by_date Example.host) Example.steady) = Some lastRecord /\
    generateNeuralForecast Example.host Example.steady
      = Ok (map history_point (Arr.sort (by_date Example.host) Example.steady)
            ++ future) /\
    Forall2 (fun i p =>
               predicted p = Some
                 (Num.max Num.zero
                    (Num.add
                       (Num.add
                          (if Num.truthy (Engagement lastRecord)
                           then Engagement lastRecord else Num.of_Z 100)
                          (Num.mul
                             (Num.div
                                (Num.sub
                                   (if Num.truthy (Engagement lastRecord)
                                    then Engagement lastRecord
                                    else Num.of_Z 100)
                                   (if Num.truthy (Engagement first)
                                    then Engagement first else Num.zero))
                                (Num.of_nat (length Example.steady)))
                             (Num.of_nat i)))
                       (jitter Example.host (i - 1)))))
            (seq 1 10) future.
Proof.
  split; [apply le_n|]. split; [exact steady_in_range|].
  exact (forecast_trend_formula Example.host Example.steady (le_n 2)
           steady_in_range).
Defined.

(** Claim C2 as stated fails when the last sorted record has engagement
    zero: with first engagement 50 and last engagement 0 the stated trend
    is (0 - 50) / 2 = -25, the code's is (100 - 50) / 2 = 25, and with a
    jitter of zero the first predicted value is 100 + 25 = 125. *)
Lemma forecast_trend_counterexample :
  Arr.sort (by_date Example.host) Example.dip = Example.dip /\
  map Engagement Example.dip = [Num.of_Z 50; Num.of_Z 0] /\
  spec_trend (map history_point Example.dip) = Some (Num.of_Z (-25)) /\
  forecast_trend (Num.of_Z 100) (history_point (Example.record "2024-01-01" 50 9))
                 (length Example.dip) = Num.of_Z 25 /\
  jitter Example.host 0 = Num.zero /\
  (pts ← generateNeuralForecast Example.host Example.dip;
   Ok (pts !! 2%nat ≫= predicted)) = Ok (Some (Num.of_Z 125)).
Proof. vm_compute. auto 10. Qed.

Lemma unparsed_undated :
  Forall (fun r => Date_of_string Example.host (Date r) = None)
         Example.unparsed.
Proof. repeat constructor. Qed.

Lemma forecast_shape_witness :
  ((2 <= length Example.steady)%nat /\
   dates_in_range Example.host Example.steady /\
   exists pts,
     generateNeuralForecast Example.host Example.steady = Ok pts /\
     length pts = (length Example.steady + 10)%nat /\
     (forall i p, (i < length Example.steady)%nat -> pts !! i = Some p ->
        (exists a, actual p = Some a) /\ predicted p = None) /\
     (forall i p, (length Example.steady <= i)%nat -> pts !! i = Some p ->
        actual p = None /\ exists v, predicted p = Some v)) /\
  ((2 <= length Example.unparsed)%nat /\
   Forall (fun r => Date_of_string Example.host (Date r) = None)
          Example.unparsed /\
   generateNeuralForecast Example.host Example.unparsed = Throw RangeError).
Proof.
  split.
  - split; [apply le_n|]. split; [exact steady_in_range|].
    exact (proj1 (proj2 (forecast_shape Example.host Example.steady))
             (le_n 2) steady_in_range).
  - split; [apply le_n|]. split; [exact unparsed_undated|].
    exact (proj2 (proj2 (forecast_shape Example.host Example.unparsed))
             (le_n 2) unparsed_undated).
Defined.

(** Claim C4 as stated fails on two records the later of which has a text
    that is no date: [toISOString] throws a [RangeError].  (The one
    comparison the sort makes is [NaN], and the order is kept.) *)
Lemma forecast_shape_counterexample :
  length Example.undated = 2%nat /\
  Date_of_string Example.host "soon" = None /\
  generateNeuralForecast Example.host Example.undated = Throw RangeError.
Proof. vm_compute. auto. Qed.

Lemma unmeasured_in_range : dates_in_range Example.host Example.unmeasured.
Proof.
  repeat constructor; eexists; (split; [vm_compute; reflexivity|]);
    vm_compute; discriminate.
Qed.

Lemma unbounded_in_range : dates_in_range Example.host Example.unbounded.
Proof.
  repeat constructor; eexists; (split; [vm_compute; reflexivity|]);
    vm_compute; discriminate.
Qed.

Lemma forecast_bounds_witness :
  (random_ok Example.host /\
   (2 <= length Example.unmeasured)%nat /\
   dates_in_range Example.host Example.unmeasured /\
   exists first lastRecord future,
     head (Arr.sort (by_date Example.host) Example.unmeasured) = Some first /\
     last (Arr.sort (by_date Example.host) Example.unmeasured)
       = Some lastRecord /\
     generateNeuralForecast Example.host Example.unmeasured
       = Ok (map history_point
               (Arr.sort (by_date Example.host) Example.unmeasured)
             ++ future) /\
     (forall s, ~ (Engagement first = Inf s /\ Engagement lastRecord = Inf s)) /\
     let lastVal := if Num.truthy (Engagement lastRecord)
                    then Engagement lastRecord else Num.of_Z 100 in
     let firstVal := if Num.truthy (Engagement first)
                     then Engagement first else Num.zero in
     let trend := Num.div (Num.sub lastVal firstVal)
                          (Num.of_nat (length Example.unmeasured)) in
     Forall2 (fun i p =>
                let line := Num.add lastVal (Num.mul trend (Num.of_nat i)) in
                exists v, predicted p = Some v /\
                  Num.leb (Num.max Num.zero (Num.sub line (Num.of_Z 10))) v
                    = true /\
                  Num.leb v (Num.max Num.zero (Num.add line (Num.of_Z 10)))
                    = true)
             (seq 1 10) future) /\
  ((2 <= length Example.unbounded)%nat /\
   dates_in_range Example.host Example.unbounded /\
   exists future,
     generateNeuralForecast Example.host Example.unbounded
       = Ok (map history_point Example.unbounded ++ future) /\
     length future = 10%nat /\
     Forall (fun p => predicted p = Some NaN) future).
Proof.
  split.
  - assert (Hn : (2 <= length Example.unmeasured)%nat)
      by (apply le_S, le_n).
    split; [exact host_random_ok|]. split; [exact Hn|].
    split; [exact unmeasured_in_range|].
    destruct (forecast_bounds Example.host Example.unmeasured host_random_ok
                Hn unmeasured_in_range)
      as (first & lastRecord & future & Hf & Hl & Hg & Hb).
    assert (Hsame : forall s, ~ (Engagement first = Inf s /\
                                 Engagement lastRecord = Inf s)).
    { intros s [H1 _]. vm_compute in Hf. injection Hf as <-. discriminate H1. }
    exists first, lastRecord, future.
    split; [exact Hf|]. split; [exact Hl|]. split; [exact Hg|].
    split; [exact Hsame|]. exact (proj1 Hb Hsame).
  - split; [apply le_n|]. split; [exact unbounded_in_range|].
    destruct (forecast_bounds Example.host Example.unbounded host_random_ok
                (le_n 2) unbounded_in_range)
      as (first & lastRecord & future & Hf & Hl & Hg & _ & Hnan).
    exists future. split; [exact Hg|].
    assert (Hfirst : Engagement first = Inf false)
      by (vm_compute in Hf; injection Hf as <-; reflexivity).
    assert (Hlast : Engagement lastRecord = Inf false)
      by (vm_compute in Hl; injection Hl as <-; reflexivity).
    split; [|exact (Hnan false Hfirst Hlast)].
    vm_compute in Hg. injection Hg as <-. reflexivity.
Defined.

(** Claim C5 as stated fails twice.  When the last sorted record has
    engagement zero the line starts from 100, not from that engagement:
    the first predicted value, 125, is above the stated upper bound,
    whether the trend is the stated one or the code's.  And when the line
    falls below -10 the predicted value is clamped to zero, above the
    stated upper bound, which is not clamped. *)
Lemma forecast_bounds_counterexample :
  ((pts ← generateNeuralForecast Example.host Example.dip;
    Ok (pts !! 2%nat ≫= predicted)) = Ok (Some (Num.of_Z 125)) /\
   spec_interval (Num.of_Z 0) (Num.of_Z (-25)) 1
     = (Num.of_Z 0, Num.of_Z (-15)) /\
   spec_interval (Num.of_Z 0) (Num.of_Z 25) 1 = (Num.of_Z 15, Num.of_Z 35) /\
   Num.leb (Num.of_Z 125) (Num.of_Z 35) = false) /\
  ((pts ← generateNeuralForecast Example.host Example.slump;
    Ok (pts !! 2%nat ≫= predicted)) = Ok (Some (Num.of_Z 0)) /\
   map Engagement (Arr.sort (by_date Example.host) Example.slump)
     = [Num.of_Z 1000; Num.of_Z 10] /\
   spec_trend (map history_point Example.slump) = Some (Num.of_Z (-495)) /\
   spec_interval (Num.of_Z 10) (Num.of_Z (-495)) 1
     = (Num.of_Z 0, Num.of_Z (-475)) /\
   Num.leb (Num.of_Z 0) (Num.of_Z (-475)) = false).
Proof. vm_compute. auto 10. Qed.

(** ** generateRichSummary *)

(** Claim C8.  On the empty input [generateRichSummary] returns the text
    [Fleet data unavailable.], whatever its second argument. *)
Theorem summary_empty (h : Host) (nts nts' : NTSResults) :
  generateRichSummary h [] nts = "Fleet data unavailable." /\
  generateRichSummary h [] nts = generateRichSummary h [] nts'.
Proof. split; reflexivity. Qed.

(** ** The section splitting *)

Lemma span_title_spec (l t r : list ascii) :
  Briefing.span_title l = (t, r) ->
  l = t ++ r /\ forallb Briefing.is_title_char t = true.
Proof.
  revert t r; induction l as [|c l IH]; intros t r; simpl.
  - intros [= <- <-]. split; reflexivity.
  - destruct (Briefing.is_title_char c) eqn:Hc.
    + destruct (Briefing.span_title l) as [t' r'].
      intros [= <- <-]. destruct (IH t' r' eq_refl) as [-> Ht].
      split; [reflexivity|]. simpl. rewrite Hc. exact Ht.
    + intros [= <- <-]. split; reflexivity.
Qed.

Lemma marker_at_spec (l t r : list ascii) :
  Briefing.marker_at l = Some (t, r) ->
  l = "["%char :: t ++ "]"%char :: r /\ t <> [] /\
  forallb Briefing.is_title_char t = true.
Proof.
  unfold Briefing.marker_at.
  destruct l as [|c l]; [discriminate|].
  destruct c as [[] [] [] [] [] [] [] []]; try discriminate.
  destruct (Briefing.span_title l) as [t' r'] eqn:Hs.
  destruct t' as [|c t']; [discriminate|].
  destruct r' as [|d r']; [discriminate|].
  destruct d as [[] [] [] [] [] [] [] []]; try discriminate.
  intros [= <- <-]. destruct (span_title_spec _ _ _ Hs) as [-> Ht].
  repeat split; [discriminate | exact Ht].
Qed.

Lemma first_marker_cons (c : ascii) (l : list ascii) :
  Briefing.first_marker (c :: l)
  = match Briefing.marker_at (c :: l) with
    | Some (t, r) => Some ([], t, r)
    | None => '(b, t, r) ← Briefing.first_marker l; Some (c :: b, t, r)
    end.
Proof. reflexivity. Qed.

Lemma first_marker_spec (l b t r : list ascii) :
  Briefing.first_marker l = Some (b, t, r) ->
  l = b ++ "["%char :: t ++ "]"%char :: r /\ t <> [] /\
  forallb Briefing.is_title_char t = true.
Proof.
  revert b t r; induction l as [|c l IH]; intros b t r.
  - discriminate.
  - rewrite first_marker_cons.
    destruct (Briefing.marker_at (c :: l)) as [[t' r']|] eqn:Hm.
    + intros [= <- <- <-]. exact (marker_at_spec _ _ _ Hm).
    + destruct (Briefing.first_marker l) as [[[b' t'] r']|]; [|discriminate].
      simpl. intros [= <- <- <-].
      destruct (IH b' t' r' eq_refl) as (-> & Ht & Hf). auto.
Qed.

Lemma first_marker_none (l : list ascii) :
  ~ Briefing.has_marker l -> Briefing.first_marker l = None.
Proof.
  intros Hn. destruct (Briefing.first_marker l) as [[[b t] r]|] eqn:Hf;
    [|reflexivity].
  destruct (first_marker_spec _ _ _ _ Hf) as (-> & Ht & Hc).
  exfalso. apply Hn. exists b, t, r. auto.
Qed.

Lemma no_marker_in_plain_text : ~ Briefing.has_marker (Str.chars "All quiet.").
Proof.
  intros (pre & t & post & Ht & _ & He).
  assert (Hin : "["%char ∈ Str.chars "All quiet.").
  { rewrite He. apply elem_of_app. right. left. }
  vm_compute in Hin.
  repeat (apply elem_of_cons in Hin as [Hin|Hin]; [discriminate|]).
  inversion Hin.
Qed.

(** Claim C9, amended.  The text [[EXECUTIVE_SUMMARY]Foo[KEY_INSIGHTS]Bar]
    is split into the sections [EXECUTIVE_SUMMARY], holding [Foo], and
    [KEY_INSIGHTS], holding [Bar]; a text that holds no marker becomes,
    whole and untrimmed, the one section [EXECUTIVE_SUMMARY]. *)
Theorem briefing_sections :
  Briefing.startBriefing "[EXECUTIVE_SUMMARY]Foo[KEY_INSIGHTS]Bar"
    = [("EXECUTIVE_SUMMARY", "Foo"); ("KEY_INSIGHTS", "Bar")] /\
  forall reportRawText,
    ~ Briefing.has_marker (Str.chars reportRawText) ->
    Briefing.startBriefing reportRawText
      = [("EXECUTIVE_SUMMARY", reportRawText)].
Proof.
  split; [vm_compute; reflexivity|].
  intros s Hn. unfold Briefing.startBriefing. simpl.
  rewrite (first_marker_none _ Hn). reflexivity.
Qed.

Lemma briefing_sections_witness :
  ~ Briefing.has_marker (Str.chars "All quiet.") /\
  Briefing.startBriefing "All quiet." = [("EXECUTIVE_SUMMARY", "All quiet.")].
Proof.
  split; [exact no_marker_in_plain_text|].
  exact (proj2 briefing_sections "All quiet." no_marker_in_plain_text).
Defined.

(** Claim C9 as stated fails on any text without a marker: it is stored
    under [EXECUTIVE_SUMMARY], and nothing is stored under [general]. *)
Lemma briefing_sections_counterexample :
  Briefing.first_marker (Str.chars "No markers here.") = None /\
  Briefing.startBriefing "No markers here."
    = [("EXECUTIVE_SUMMARY", "No markers here.")] /\
  Obj.get (Briefing.startBriefing "No markers here.") "general" = None /\
  Obj.get (Briefing.startBriefing "No markers here.") "GENERAL" = None.
Proof. vm_compute. auto. Qed.

(** ** Arrays passed by reference *)

Lemma fresh_loc_ne (σ : Heap.heap) (l : Heap.loc) (a : list SocialData) :
  σ !! l = Some a -> l <> fresh (dom σ).
Proof.
  intros Hl ->. apply (is_fresh (dom σ)). apply elem_of_dom. eauto.
Qed.

(** Claim C10.  After [calculateNTS], [generateNeuralForecast] or
    [generateRichSummary] is called on an array, the array holds the
    elements it held before, in the same order: the forecaster sorts the
    copy it has made. *)
Theorem inputs_unchanged (h : Host) (σ : Heap.heap) (data : Heap.loc)
    (nts : NTSResults) (a : list SocialData) :
  σ !! data = Some a ->
  (calculateNTS_at h data σ).2 !! data = Some a /\
  (generateNeuralForecast_at h data σ).2 !! data = Some a /\
  (generateRichSummary_at h data nts σ).2 !! data = Some a.
Proof.
  intros Hd. repeat split.
  - unfold calculateNTS_at, Heap.bind, Heap.read, Heap.lift. rewrite Hd.
    destruct (calculateNTS h a); exact Hd.
  - unfold generateNeuralForecast_at, Heap.bind, Heap.read. rewrite Hd.
    destruct (length a <? 2)%nat; [exact Hd|].
    rewrite Hd. unfold Heap.alloc, Heap.sort, Heap.lift.
    pose proof (fresh_loc_ne σ data a Hd) as Hne.
    rewrite lookup_alter_eq, lookup_insert_eq. simpl.
    rewrite lookup_alter_ne, lookup_insert_ne by congruence. exact Hd.
  - unfold generateRichSummary_at, Heap.bind, Heap.read, Heap.ret.
    rewrite Hd. exact Hd.
Qed.

Lemma inputs_unchanged_witness :
  ({[ 7%nat := Example.slump ]} : Heap.heap) !! 7%nat = Some Example.slump /\
  (generateNeuralForecast_at Example.host 7%nat {[ 7%nat := Example.slump ]}).2
    !! 7%nat = Some Example.slump.
Proof.
  split; [reflexivity|].
  exact (proj1 (proj2 (inputs_unchanged Example.host {[ 7%nat := Example.slump ]}
                         7%nat (mkNTS "" "" NaN NaN "") Example.slump
                         eq_refl))).
Defined.


(** * Further properties *)

(** ** Objects *)

Lemma insert_index_perm {V} (i : Z) (e : string * V)
    (l : list (Z * (string * V))) :
  map snd (Obj.insert_index i e l) ≡ₚ e :: map snd l.
Proof.
  induction l as [|[j e'] l IH]; simpl; [reflexivity|].
  destruct (i <? j); simpl; [reflexivity|].
  rewrite IH. apply Permutation_swap.
Qed.

Lemma indexed_from_perm {V} (o : list (string * V))
    (acc : list (Z * (string * V))) :
  map snd
    (fold_left (fun acc e => match Obj.array_index (fst e) with
                             | Some i => Obj.insert_index i e acc
                             | None => acc
                             end) o acc)
  ≡ₚ filter (fun e => is_Some (Obj.array_index (fst e))) o ++ map snd acc.
Proof.
  revert acc; induction o as [|e o IH]; intros acc; [reflexivity|].
  cbn [fold_left]. rewrite IH. rewrite filter_cons.
  destruct (Obj.array_index (fst e)) as [i|] eqn:He.
  - rewrite decide_True by eauto. rewrite insert_index_perm.
    simpl. symmetry. apply Permutation_middle.
  - rewrite decide_False by (intros [? ?]; discriminate). reflexivity.
Qed.

(** [Object.entries] lists every own property once. *)
Lemma entries_perm {V} (o : Obj.obj V) : Obj.entries o ≡ₚ o.
Proof.
  unfold Obj.entries, Obj.indexed, Obj.obj in *. rewrite indexed_from_perm.
  cbn [map]. rewrite app_nil_r.
  induction o as [|e o IH]; [reflexivity|].
  rewrite !filter_cons.
  destruct (Obj.array_index (fst e)) as [i|] eqn:He.
  - rewrite decide_True by eauto. rewrite decide_False by discriminate.
    simpl. rewrite IH. reflexivity.
  - rewrite decide_False by (intros [? ?]; discriminate).
    rewrite decide_True by reflexivity.
    rewrite <- Permutation_middle. rewrite IH. reflexivity.
Qed.

Lemma set_keys {V} (P : string -> Prop) (o : Obj.obj V) (k : string) (v : V) :
  Forall (fun e => P (fst e)) o -> P k ->
  Forall (fun e => P (fst e)) (Obj.set o k v).
Proof.
  intros Ho Hk. induction Ho as [|[k' v'] o Hk' Ho IH]; simpl.
  - repeat constructor. exact Hk.
  - destruct (String.eqb k' k); constructor; auto.
Qed.

Lemma set_values {V} (P : V -> Prop) (o : Obj.obj V) (k : string) (v : V) :
  Forall (fun e => P (snd e)) o -> P v ->
  Forall (fun e => P (snd e)) (Obj.set o k v).
Proof.
  intros Ho Hv. induction Ho as [|[k' v'] o Hk' Ho IH]; simpl.
  - repeat constructor. exact Hv.
  - destruct (String.eqb k' k); constructor; auto.
Qed.

Lemma set_nonempty {V} (o : Obj.obj V) (k : string) (v : V) :
  Obj.set o k v <> [].
Proof. destruct o as [|[k' v'] o]; simpl; [|destruct (String.eqb k' k)]; discriminate. Qed.

Lemma get_set_eq {V} (o : Obj.obj V) (k : string) (v : V) :
  Obj.get (Obj.set o k v) k = Some v.
Proof.
  induction o as [|[k' v'] o IH]; simpl.
  - rewrite String.eqb_refl. reflexivity.
  - destruct (String.eqb k' k) eqn:He; simpl.
    + rewrite String.eqb_refl. reflexivity.
    + rewrite He. exact IH.
Qed.

Lemma get_set_ne {V} (o : Obj.obj V) (k k' : string) (v : V) :
  k <> k' -> Obj.get (Obj.set o k v) k' = Obj.get o k'.
Proof.
  intros Hne. induction o as [|[k1 v1] o IH]; simpl.
  - destruct (String.eqb_spec k k'); [contradiction | reflexivity].
  - destruct (String.eqb_spec k1 k) as [->|Hk]; simpl.
    + destruct (String.eqb_spec k k'); [contradiction | reflexivity].
    + destruct (String.eqb_spec k1 k'); [reflexivity | exact IH].
Qed.

Lemma get_Some_in {V} (o : Obj.obj V) (k : string) (v : V) :
  Obj.get o k = Some v -> (k, v) ∈ o.
Proof.
  induction o as [|[k' v'] o IH]; simpl; [discriminate|].
  destruct (String.eqb_spec k' k) as [->|Hk].
  - intros [= ->]. left.
  - intros H. right. exact (IH H).
Qed.

(** ** Strings *)

Lemma chars_append (s t : string) :
  Str.chars (s +:+ t) = Str.chars s ++ Str.chars t.
Proof. induction s as [|c s IH]; simpl; [reflexivity|]. f_equal. exact IH. Qed.

Lemma chars_str (l : list ascii) : Str.chars (Str.str l) = l.
Proof. apply list_ascii_of_string_of_list_ascii. Qed.

Lemma str_chars (s : string) : Str.str (Str.chars s) = s.
Proof. apply string_of_list_ascii_of_string. Qed.

Lemma split_chars_nonempty (sep : ascii) (l : list ascii) :
  Str.split_chars sep l <> [].
Proof.
  destruct l as [|c l]; simpl; [discriminate|].
  destruct (Ascii.eqb c sep); [discriminate|].
  destruct (Str.split_chars sep l); discriminate.
Qed.

(** The text before the first separator is the first part. *)
Lemma split_chars_app (sep : ascii) (a b : list ascii) :
  sep ∉ a ->
  Str.split_chars sep (a ++ sep :: b) = a :: Str.split_chars sep b.
Proof.
  induction a as [|c a IH]; intros Ha; simpl.
  - rewrite Ascii.eqb_refl. reflexivity.
  - destruct (Ascii.eqb_spec c sep) as [->|Hc].
    + exfalso. apply Ha. left.
    + rewrite IH by (intros Hin; apply Ha; right; exact Hin).
      reflexivity.
Qed.

(** With a separator in the text there are two parts at least. *)
Lemma split_chars_two (sep : ascii) (a b : list ascii) :
  exists x y rest, Str.split_chars sep (a ++ sep :: b) = x :: y :: rest.
Proof.
  induction a as [|c a IH]; simpl.
  - rewrite Ascii.eqb_refl.
    destruct (Str.split_chars sep b) as [|y rest] eqn:Hb;
      [destruct (split_chars_nonempty _ _ Hb)|]. eauto.
  - destruct IH as (x & y & rest & ->).
    destruct (Ascii.eqb c sep); eauto.
Qed.


(** ** calculateNTS: the grouping *)

Lemma set_set {V} (o : Obj.obj V) (k : string) (v w : V) :
  Obj.set (Obj.set o k v) k w = Obj.set o k w.
Proof.
  induction o as [|[k' v'] o IH]; simpl.
  - rewrite String.eqb_refl. reflexivity.
  - destruct (String.eqb k' k) eqn:He; simpl.
    + rewrite String.eqb_refl. reflexivity.
    + rewrite He, IH. reflexivity.
Qed.

Lemma get_None_set {V} (o : Obj.obj V) (k : string) (v : V) :
  Obj.get o k = None -> Obj.set o k v = o ++ [(k, v)].
Proof.
  induction o as [|[k' v'] o IH]; simpl; [reflexivity|].
  destruct (String.eqb k' k); [discriminate|].
  intros H. rewrite (IH H). reflexivity.
Qed.

Lemma get_None_keys {V} (o : Obj.obj V) (k : string) :
  Obj.get o k = None -> k ∉ map fst o.
Proof.
  induction o as [|[k' v'] o IH]; simpl; [intros _ H; inversion H|].
  destruct (String.eqb_spec k' k) as [->|Hk]; [discriminate|].
  intros H Hin. apply elem_of_cons in Hin as [->|Hin]; [congruence|].
  exact (IH H Hin).
Qed.

Lemma set_keys_Some {V} (o : Obj.obj V) (k : string) (v w : V) :
  Obj.get o k = Some v -> map fst (Obj.set o k w) = map fst o.
Proof.
  induction o as [|[k' v'] o IH]; simpl; [discriminate|].
  destruct (String.eqb_spec k' k) as [->|Hk]; [reflexivity|].
  intros H. simpl. rewrite (IH H). reflexivity.
Qed.

Lemma set_NoDup {V} (o : Obj.obj V) (k : string) (v : V) :
  NoDup (map fst o) -> NoDup (map fst (Obj.set o k v)).
Proof.
  intros Hnd. destruct (Obj.get o k) as [w|] eqn:Hg.
  - rewrite (set_keys_Some _ _ _ _ Hg). exact Hnd.
  - rewrite (get_None_set _ _ _ Hg), map_app. simpl.
    apply NoDup_app. split; [exact Hnd|]. split.
    + intros x Hx Hin. apply list_elem_of_singleton in Hin as ->.
      exact (get_None_keys _ _ Hg Hx).
    + apply NoDup_singleton.
Qed.

Lemma in_get {V} (o : Obj.obj V) (k : string) (v : V) :
  NoDup (map fst o) -> (k, v) ∈ o -> Obj.get o k = Some v.
Proof.
  induction o as [|[k' v'] o IH]; simpl; intros Hnd Hin; [inversion Hin|].
  apply NoDup_cons in Hnd as [Hk' Hnd].
  apply elem_of_cons in Hin as [[= <- <-]|Hin].
  - rewrite String.eqb_refl. reflexivity.
  - destruct (String.eqb_spec k' k) as [->|Hk]; [|exact (IH Hnd Hin)].
    exfalso. apply Hk'.
    change k with (fst (k, v)). apply list_elem_of_In, in_map, list_elem_of_In.
    exact Hin.
Qed.

Section Grouping.
Variable h : Host.

Lemma nts_step_eq (im : Obj.obj (list num)) (ge : list num)
    (item : SocialData) :
  nts_step h (im, ge) item
  = (Obj.set im (window_key h item)
       (default [] (Obj.get im (window_key h item)) ++ [Engagement item]),
     ge ++ [Engagement item]).
Proof.
  unfold nts_step.
  destruct (Obj.get im (window_key h item)) as [vals|] eqn:Hg.
  - rewrite Hg. reflexivity.
  - rewrite get_set_eq, set_set. reflexivity.
Qed.

Lemma window_group_snoc (data : list SocialData) (item : SocialData)
    (k : string) :
  window_group h (data ++ [item]) k
  = window_group h data k
    ++ (if decide (window_key h item = k) then [Engagement item] else []).
Proof.
  unfold window_group. rewrite filter_app, map_app. f_equal.
  rewrite filter_cons, filter_nil. destruct (decide _); reflexivity.
Qed.

Lemma grouped_step (data : list SocialData) (item : SocialData)
    (st : Obj.obj (list num) * list num) :
  grouped h data st -> grouped h (data ++ [item]) (nts_step h st item).
Proof.
  destruct st as [im ge]. intros (Hnd & Hget & Hge).
  rewrite nts_step_eq. simpl in *. split; [|split]; simpl.
  - apply set_NoDup, Hnd.
  - intros k. rewrite window_group_snoc.
    destruct (decide (window_key h item = k)) as [<-|Hk].
    + rewrite get_set_eq, Hget.
      destruct (window_group h data (window_key h item)); reflexivity.
    + rewrite get_set_ne by exact Hk. rewrite app_nil_r. apply Hget.
  - rewrite Hge, map_app. reflexivity.
Qed.

Lemma grouped_fold (done data : list SocialData)
    (st : Obj.obj (list num) * list num) :
  grouped h done st ->
  grouped h (done ++ data) (fold_left (nts_step h) data st).
Proof.
  revert done st; induction data as [|item data IH]; intros done st Hst;
    simpl.
  - rewrite app_nil_r. exact Hst.
  - rewrite (cons_middle item), app_assoc.
    apply IH, grouped_step, Hst.
Qed.

Lemma grouped_all (data : list SocialData) :
  grouped h data (fold_left (nts_step h) data ([], [])).
Proof.
  apply (grouped_fold [] data). split; [constructor|].
  split; [intros k; reflexivity | reflexivity].
Qed.

Lemma window_group_of (data : list SocialData) (item : SocialData) :
  item ∈ data -> Engagement item ∈ window_group h data (window_key h item).
Proof.
  intros Hin. unfold window_group.
  apply list_elem_of_In, in_map, list_elem_of_In.
  apply list_elem_of_filter. split; [reflexivity | exact Hin].
Qed.

Lemma window_group_inhabited (data : list SocialData) (k : string) :
  window_group h data k <> [] ->
  exists item, item ∈ data /\ window_key h item = k.
Proof.
  unfold window_group. intros Hne.
  destruct (filter (fun item => window_key h item = k) data) as [|item l]
    eqn:Hf; [contradiction|].
  exists item.
  assert (Hin : item ∈ filter (fun item => window_key h item = k) data)
    by (rewrite Hf; left).
  apply list_elem_of_filter in Hin as [Hk Hin]. auto.
Qed.

(** The ranking lists one entry for each window that holds a record, with
    the window's average. *)
Lemma rankings_spec (data : list SocialData) (im : Obj.obj (list num))
    (ge : list num) :
  fold_left (nts_step h) data ([], []) = (im, ge) ->
  ge = map Engagement data /\
  (forall e, e ∈ rankings_of im ->
     exists item, item ∈ data /\ fst e = window_key h item /\
                  snd e = window_average h data (window_key h item)) /\
  (forall item, item ∈ data ->
     (window_key h item, window_average h data (window_key h item))
     ∈ rankings_of im).
Proof.
  intros Hst. pose proof (grouped_all data) as (Hnd & Hget & Hge).
  rewrite Hst in *. simpl in *. split; [exact Hge|]. split.
  - intros e He. unfold rankings_of in He. rewrite sort_perm in He.
    apply list_elem_of_In, in_map_iff in He as ([k vals] & <- & Hin).
    apply list_elem_of_In in Hin. rewrite entries_perm in Hin.
    pose proof (in_get _ _ _ Hnd Hin) as Hg. rewrite Hget in Hg.
    destruct (window_group h data k) as [|v g] eqn:Hgrp; [discriminate|].
    injection Hg as <-.
    destruct (window_group_inhabited data k) as (item & Hitem & <-);
      [rewrite Hgrp; discriminate|].
    exists item. simpl. unfold window_average. rewrite Hgrp. auto.
  - intros item Hitem. unfold rankings_of. rewrite sort_perm.
    pose proof (window_group_of data item Hitem) as Hin.
    specialize (Hget (window_key h item)).
    destruct (window_group h data (window_key h item)) as [|v g] eqn:Hgrp;
      [inversion Hin|].
    apply get_Some_in in Hget.
    apply list_elem_of_In, in_map_iff.
    exists (window_key h item, v :: g). split.
    + simpl. unfold window_average. rewrite Hgrp. reflexivity.
    + apply list_elem_of_In. rewrite entries_perm. exact Hget.
Qed.

End Grouping.


(** ** calculateNTS: the result *)

Lemma weekday_text_cases (n : num) :
  weekday_text n ∈ "undefined" :: weekDays.
Proof.
  unfold weekday_text. destruct n as [| |q]; try left.
  destruct ((Qden q =? 1)%positive && (0 <=? Qnum q)); [|left].
  destruct (weekDays !! Z.to_nat (Qnum q)) as [d|] eqn:Hd; simpl; [|left].
  right. apply list_elem_of_lookup. eauto.
Qed.

Lemma weekday_text_no_bar (n : num) :
  "|"%char ∉ Str.chars (weekday_text n).
Proof.
  pose proof (weekday_text_cases n) as Hc.
  repeat (apply elem_of_cons in Hc as [->|Hc];
          [intros Hin; vm_compute in Hin;
           repeat (apply elem_of_cons in Hin as [Hin|Hin]; [discriminate|]);
           inversion Hin|]).
  inversion Hc.
Qed.

Section AnalyzerResult.
Variable h : Host.

Lemma split_key_window (item : SocialData) :
  exists hr,
    split_key (window_key h item)
    = Ok (weekday_text (getDay h (Date_of_string h (Date item))), hr).
Proof.
  unfold split_key, Str.split, window_key.
  rewrite !chars_append. change (Str.chars "|") with ["|"%char].
  simpl app at 2.
  rewrite split_chars_app by apply weekday_text_no_bar.
  destruct (Str.split_chars "|" (Str.chars (Conv.to_string (Hour item))))
    as [|x rest] eqn:Hs; [destruct (split_chars_nonempty _ _ Hs)|].
  simpl. rewrite str_chars. eauto.
Qed.

(** On a non-empty input the function returns a result read off the head
    of the ranking. *)
Lemma calculateNTS_nonempty (data : list SocialData) :
  data <> [] ->
  exists best rest item hr secondary,
    rankings_of (fst (fold_left (nts_step h) data ([], []))) = best :: rest /\
    item ∈ data /\ fst best = window_key h item /\
    snd best = window_average h data (window_key h item) /\
    calculateNTS h data
    = Ok {| bestDay := weekday_text (getDay h (Date_of_string h (Date item)));
            bestHour := hr +:+ ":00";
            engagementScore := Num.round (snd best);
            liftPercentage :=
              Num.round
                (Num.mul
                   (Num.div (Num.sub (snd best) (average (map Engagement data)))
                            (average (map Engagement data)))
                   (Num.of_Z 100));
            secondaryWindow := secondary |}.
Proof.
  intros Hne.
  destruct (fold_left (nts_step h) data ([], [])) as [im ge] eqn:Hst.
  destruct (rankings_spec h data im ge Hst) as (-> & Hin & Hall).
  simpl fst.
  destruct (rankings_of im) as [|best rest] eqn:Hr.
  { destruct data as [|item data]; [contradiction|].
    specialize (Hall item ltac:(left)). inversion Hall. }
  destruct (Hin best ltac:(left)) as (item & Hitem & Hk & Havg).
  destruct (split_key_window item) as [hr Hsplit].
  assert (Hsec : exists sitem, sitem ∈ data /\
            fst (match rest with s :: _ => s | [] => best end)
            = window_key h sitem).
  { destruct rest as [|s rest'].
    - eauto.
    - destruct (Hin s ltac:(right; left)) as (sitem & ? & ? & _). eauto. }
  destruct Hsec as (sitem & _ & Hsk).
  destruct (split_key_window sitem) as [shr Hssplit].
  exists best, rest, item, hr. eexists.
  split; [reflexivity|]. split; [exact Hitem|]. split; [exact Hk|].
  split; [exact Havg|].
  unfold calculateNTS.
  destruct data as [|d0 data']; [contradiction|].
  cbn [length Nat.eqb]. rewrite Hst, Hr.
  rewrite Hk, Hsplit. simpl. rewrite Hsk, Hssplit. simpl. reflexivity.
Qed.

(** Property X1.
    [calculateNTS] never throws. *)
Theorem calculateNTS_total (data : list SocialData) :
  exists r, calculateNTS h data = Ok r.
Proof.
  destruct data as [|item data].
  - eexists. reflexivity.
  - destruct (calculateNTS_nonempty (item :: data) ltac:(discriminate))
      as (best & rest & it & hr & sec & _ & _ & _ & _ & ->). eauto.
Qed.

End AnalyzerResult.


(** ** Sums, averages and the head of a descending sort *)

Lemma sum_from_finite {A} (f : A -> num) (l : list A) (q : Q) :
  Forall (fun x => Num.is_finite (f x) = true) l ->
  exists s, fold_left (fun a b => Num.add a (f b)) l (Fin q) = Fin s.
Proof.
  intros Hl. revert q. induction Hl as [|x l Hx _ IH]; intros q; simpl.
  - eauto.
  - apply finite_inv in Hx as [y ->]. apply IH.
Qed.

Lemma sum_finite {A} (f : A -> num) (l : list A) :
  Forall (fun x => Num.is_finite (f x) = true) l ->
  exists s, Arr.sum f l = Fin s.
Proof. apply sum_from_finite. Qed.



Lemma sum_from_zero {A} (f : A -> num) (l : list A) :
  Forall (fun x => f x = Num.zero) l ->
  fold_left (fun a b => Num.add a (f b)) l Num.zero = Num.zero.
Proof.
  induction 1 as [|x l Hx _ IH]; simpl; [reflexivity|].
  rewrite Hx. exact IH.
Qed.

Lemma div_zero_nat (n : nat) :
  (0 < n)%nat -> Num.div Num.zero (Num.of_nat n) = Num.zero.
Proof.
  intros Hn. unfold Num.div, Num.zero, Num.of_nat, Num.of_Z, Num.qzero.
  simpl Qnum. destruct (Z.eqb_spec (Z.of_nat n) 0); [lia|].
  destruct n as [|n]; [lia|]. reflexivity.
Qed.

Lemma average_zeros (vals : list num) :
  vals <> [] -> Forall (fun v => v = Num.zero) vals ->
  average vals = Num.zero.
Proof.
  intros Hne Hz. unfold average, Arr.sum.
  rewrite (sum_from_zero id vals Hz).
  apply div_zero_nat. destruct vals; [contradiction | simpl; lia].
Qed.

Section Descending.
Context {A : Type} (val : A -> num).






End Descending.


Section AnalyzerExtras.
Variable h : Host.



(** Property X3.
    When every engagement is zero the baseline is zero, and the lift,
    a quotient of zeros, is [NaN]. *)
Theorem nts_zero_engagement (data : list SocialData) :
  data <> [] ->
  Forall (fun r => Engagement r = Num.zero) data ->
  exists r, calculateNTS h data = Ok r /\
            engagementScore r = Num.zero /\ liftPercentage r = NaN.
Proof.
  intros Hne Hz.
  destruct (calculateNTS_nonempty h data Hne)
    as (best & rest & item & hr & sec & _ & Hitem & _ & Havg & ->).
  eexists. split; [reflexivity|]. simpl.
  assert (Hb : snd best = Num.zero).
  { rewrite Havg. unfold window_average. apply average_zeros.
    - intros He. pose proof (window_group_of h data item Hitem) as Hin.
      rewrite He in Hin. inversion Hin.
    - unfold window_group. apply Forall_forall. intros v Hv.
      apply list_elem_of_In, in_map_iff in Hv as (r & <- & Hr).
      apply list_elem_of_In, list_elem_of_filter in Hr as [_ Hr].
      rewrite Forall_forall in Hz. exact (Hz r Hr). }
  assert (Ha : average (map Engagement data) = Num.zero).
  { apply average_zeros.
    - destruct data; [contradiction | discriminate].
    - apply Forall_forall. intros v Hv.
      apply list_elem_of_In, in_map_iff in Hv as (r & <- & Hr).
      apply list_elem_of_In in Hr.
      rewrite Forall_forall in Hz. exact (Hz r Hr). }
  rewrite Hb, Ha. split; reflexivity.
Qed.

End AnalyzerExtras.


Lemma nts_zero_engagement_witness :
  [Example.record "2024-01-01" 0 9] <> [] /\
  Forall (fun r : SocialData => Engagement r = Num.zero)
         [Example.record "2024-01-01" 0 9] /\
  exists r,
    calculateNTS Example.host [Example.record "2024-01-01" 0 9] = Ok r /\
    engagementScore r = Num.zero /\ liftPercentage r = NaN.
Proof.
  assert (H1 : [Example.record "2024-01-01" 0 9] <> []) by discriminate.
  assert (H2 : Forall (fun r : SocialData => Engagement r = Num.zero)
                 [Example.record "2024-01-01" 0 9])
    by (repeat constructor).
  split; [exact H1|]. split; [exact H2|].
  exact (nts_zero_engagement Example.host _ H1 H2).
Defined.


(** ** generateNeuralForecast: order and sign *)

Section AscendingSort.
Context {A : Type} (cmp : A -> A -> num) (key : A -> Z).

Lemma insert_sorted (x : A) (l : list A) :
  (forall y, y ∈ l -> Num.ltb (cmp x y) Num.zero = (key x <? key y)) ->
  StronglySorted (fun a b => key a <= key b) l ->
  StronglySorted (fun a b => key a <= key b) (Arr.insert cmp x l).
Proof.
  intros Hcmp Hs. induction Hs as [|y l Hs IH Hy]; simpl.
  - repeat constructor.
  - rewrite (Hcmp y) by left.
    destruct (Z.ltb_spec (key x) (key y)) as [Hlt|Hge].
    + constructor; [constructor; assumption|].
      constructor; [lia|].
      eapply List.Forall_impl; [|exact Hy]. simpl. intros; lia.
    + constructor.
      * apply IH. intros z Hz. apply Hcmp. right. exact Hz.
      * apply List.Forall_forall. intros z Hz.
        apply list_elem_of_In in Hz. rewrite insert_perm in Hz.
        apply elem_of_cons in Hz as [->|Hz]; [lia|].
        rewrite List.Forall_forall in Hy. apply Hy, list_elem_of_In, Hz.
Qed.

Lemma sort_from_sorted (l acc : list A) :
  (forall x y, x ∈ l ++ acc -> y ∈ l ++ acc ->
     Num.ltb (cmp x y) Num.zero = (key x <? key y)) ->
  StronglySorted (fun a b => key a <= key b) acc ->
  StronglySorted (fun a b => key a <= key b)
    (fold_left (fun acc x => Arr.insert cmp x acc) l acc).
Proof.
  revert acc; induction l as [|x l IH]; intros acc Hcmp Hs; simpl;
    [exact Hs|].
  apply IH.
  - intros a b Ha Hb. apply Hcmp.
    + rewrite insert_perm in Ha. rewrite <- Permutation_middle in Ha.
      exact Ha.
    + rewrite insert_perm in Hb. rewrite <- Permutation_middle in Hb.
      exact Hb.
  - apply insert_sorted; [|exact Hs].
    intros y Hy. apply Hcmp; [left|]. right. apply elem_of_app. right.
    exact Hy.
Qed.

(** A comparator that is negative exactly below gives a list in order. *)
Lemma sort_sorted (l : list A) :
  (forall x y, x ∈ l -> y ∈ l ->
     Num.ltb (cmp x y) Num.zero = (key x <? key y)) ->
  StronglySorted (fun a b => key a <= key b) (Arr.sort cmp l).
Proof.
  intros Hcmp. apply sort_from_sorted; [|constructor].
  intros x y. rewrite app_nil_r. apply Hcmp.
Qed.

End AscendingSort.

Lemma sub_of_Z_neg (a b : Z) :
  Num.ltb (Num.sub (Num.of_Z a) (Num.of_Z b)) Num.zero = (a <? b).
Proof.
  unfold Num.sub, Num.add, Num.neg, Num.fin, Num.ltb, Num.zero, Num.of_Z.
  assert (Heq : (Qred (inject_Z a + Qred (- inject_Z b)) == inject_Z (a - b))%Q).
  { rewrite !Qred_correct. unfold Z.sub.
    rewrite inject_Z_plus, inject_Z_opp. reflexivity. }
  destruct (Z.ltb_spec a b) as [Hlt|Hge].
  - destruct (Qle_bool (inject_Z 0) _) eqn:Hq; [|reflexivity].
    apply Qle_bool_iff in Hq. rewrite Heq in Hq.
    rewrite <- Zle_Qle in Hq. lia.
  - assert (Hq : Qle_bool (inject_Z 0)
                   (Qred (inject_Z a + Qred (- inject_Z b))) = true).
    { apply Qle_bool_iff. rewrite Heq. rewrite <- Zle_Qle. lia. }
    rewrite Hq. reflexivity.
Qed.

Section ForecasterExtras.
Variable h : Host.

Lemma by_date_dated (a b : SocialData) :
  dated h a -> dated h b ->
  Num.ltb (by_date h a b) Num.zero = (time_of h a <? time_of h b).
Proof.
  intros [ta Ha] [tb Hb]. unfold by_date, time_of. rewrite Ha, Hb.
  simpl. apply sub_of_Z_neg.
Qed.

Lemma future_points_inv (d : JsDate.time) (lastVal trend : num)
    (steps : list nat) (ps : list ForecastPoint) :
  future_points h d lastVal trend steps = Ok ps ->
  Forall2 (fun i p => actual p = None /\
                      predicted p = Some (predicted_value h lastVal trend i))
          steps ps.
Proof.
  revert ps; induction steps as [|i steps IH]; intros ps; simpl.
  - intros [= <-]. constructor.
  - intros H. apply result_bind_ok in H as (p & Hp & H).
    apply result_bind_ok in H as (ps' & Hps & H). injection H as <-.
    constructor; [|exact (IH _ Hps)].
    unfold future_point in Hp.
    apply result_bind_ok in Hp as (iso & _ & Hp). injection Hp as <-.
    split; reflexivity.
Qed.

(** A forecast that is returned for two records or more is the sorted
    history followed by ten points. *)
Lemma forecast_inv (data : list SocialData) (pts : list ForecastPoint) :
  generateNeuralForecast h data = Ok pts -> (2 <= length data)%nat ->
  exists lastVal trend future,
    pts = map history_point (Arr.sort (by_date h) data) ++ future /\
    Forall2 (fun i p => actual p = None /\
                        predicted p = Some (predicted_value h lastVal trend i))
            (seq 1 10) future.
Proof.
  unfold generateNeuralForecast. intros H Hn.
  destruct (Nat.ltb_spec (length data) 2); [lia|].
  unfold forecast_of_sorted in H.
  destruct (last (Arr.sort (by_date h) data)) as [r|]; [|discriminate].
  destruct (last (map history_point _)) as [lp|]; [|discriminate].
  destruct (head (map history_point _)) as [fp|]; [|discriminate].
  apply result_bind_ok in H as (future & Hf & H). injection H as <-.
  eexists _, _, future. split; [reflexivity|].
  exact (future_points_inv _ _ _ _ _ Hf).
Qed.

Lemma max_zero_not_negative (x : num) :
  Num.ltb (Num.max Num.zero x) Num.zero = false.
Proof.
  destruct x as [|[]|q]; try reflexivity.
  rewrite max_zero_fin. unfold Num.ltb, Num.zero, Num.of_Z.
  change (inject_Z 0) with 0%Q.
  destruct (Qle_bool q 0) eqn:Hq.
  - reflexivity.
  - apply Qle_bool_false in Hq.
    assert (Hle : Qle_bool 0 q = true) by (apply Qle_bool_iff; lra).
    rewrite Hle. reflexivity.
Qed.

(** Property X4.
    The history of a forecast holds the records of the input, each
    once, reduced to their day and engagement. *)
Theorem forecast_history_perm (data : list SocialData)
    (pts : list ForecastPoint) :
  generateNeuralForecast h data = Ok pts -> (2 <= length data)%nat ->
  take (length data) pts ≡ₚ map history_point data.
Proof.
  intros H Hn.
  destruct (forecast_inv data pts H Hn) as (lv & tr & future & -> & _).
  rewrite take_app_length' by (rewrite length_map; symmetry; apply sort_length).
  change (map history_point) with (fmap (M:=list) history_point).
  apply fmap_Permutation, sort_perm.
Qed.

(** Property X5.
    When every date is a date, the history of a forecast is in
    chronological order. *)
Theorem forecast_history_sorted (data : list SocialData)
    (pts : list ForecastPoint) :
  generateNeuralForecast h data = Ok pts -> (2 <= length data)%nat ->
  Forall (dated h) data ->
  exists sorted,
    sorted ≡ₚ data /\
    StronglySorted (fun a b => time_of h a <= time_of h b) sorted /\
    take (length data) pts = map history_point sorted.
Proof.
  intros H Hn Hd.
  destruct (forecast_inv data pts H Hn) as (lv & tr & future & -> & _).
  exists (Arr.sort (by_date h) data). split; [apply sort_perm|]. split.
  - apply sort_sorted. intros x y Hx Hy.
    rewrite Forall_forall in Hd. apply by_date_dated; auto.
  - apply take_app_length'. rewrite length_map. symmetry. apply sort_length.
Qed.

(** Property X6.
    No predicted value is negative, whatever the engagements and
    whatever [Math.random] draws. *)
Theorem forecast_not_negative (data : list SocialData)
    (pts : list ForecastPoint) (i : nat) (p : ForecastPoint) (v : num) :
  generateNeuralForecast h data = Ok pts ->
  pts !! i = Some p -> predicted p = Some v ->
  Num.ltb v Num.zero = false.
Proof.
  intros H Hp Hv.
  destruct (Nat.lt_ge_cases (length data) 2) as [Hlt|Hn].
  - unfold generateNeuralForecast in H.
    destruct (Nat.ltb_spec (length data) 2); [|lia].
    injection H as <-. discriminate.
  - destruct (forecast_inv data pts H Hn) as (lv & tr & future & -> & HF).
    apply lookup_app_Some in Hp as [Hp|[_ Hp]].
    + change (map history_point) with (fmap (M:=list) history_point) in Hp.
      apply list_lookup_fmap_Some in Hp as (d & -> & _). discriminate.
    + destruct (Forall2_lookup_r _ _ _ _ _ HF Hp) as (j & _ & _ & Hpv).
      rewrite Hpv in Hv. injection Hv as <-.
      apply max_zero_not_negative.
Qed.

End ForecasterExtras.

Lemma forecast_history_perm_witness :
  generateNeuralForecast Example.host Example.slump
  = Ok (map history_point Example.slump
        ++ map (fun d => mkPoint d None (Some Num.zero))
             ["2024-01-03"; "2024-01-04"; "2024-01-05"; "2024-01-06";
              "2024-01-07"; "2024-01-08"; "2024-01-09"; "2024-01-10";
              "2024-01-11"; "2024-01-12"]) /\
  take (length Example.slump)
    (map history_point Example.slump
     ++ map (fun d => mkPoint d None (Some Num.zero))
          ["2024-01-03"; "2024-01-04"; "2024-01-05"; "2024-01-06";
           "2024-01-07"; "2024-01-08"; "2024-01-09"; "2024-01-10";
           "2024-01-11"; "2024-01-12"])
  ≡ₚ map history_point Example.slump.
Proof.
  split; [vm_compute; reflexivity|].
  exact (forecast_history_perm Example.host Example.slump _
           ltac:(vm_compute; reflexivity) (le_n 2)).
Defined.

Lemma steady_dated : Forall (dated Example.host) Example.steady.
Proof. repeat constructor; eexists; vm_compute; reflexivity. Qed.

Lemma forecast_history_sorted_witness :
  (2 <= length Example.steady)%nat /\
  Forall (dated Example.host) Example.steady /\
  exists pts sorted,
    generateNeuralForecast Example.host Example.steady = Ok pts /\
    sorted ≡ₚ Example.steady /\
    StronglySorted (fun a b => time_of Example.host a <= time_of Example.host b)
      sorted /\
    take (length Example.steady) pts = map history_point sorted.
Proof.
  split; [apply le_n|]. split; [exact steady_dated|].
  destruct (generateNeuralForecast Example.host Example.steady)
    as [pts|e] eqn:Hg; [|vm_compute in Hg; discriminate].
  destruct (forecast_history_sorted Example.host Example.steady pts Hg
              (le_n 2) steady_dated) as (sorted & Hp & Hs & Ht).
  exists pts, sorted. auto.
Defined.

Lemma forecast_not_negative_witness :
  generateNeuralForecast Example.host Example.slump
  = Ok (map history_point Example.slump
        ++ map (fun d => mkPoint d None (Some Num.zero))
             ["2024-01-03"; "2024-01-04"; "2024-01-05"; "2024-01-06";
              "2024-01-07"; "2024-01-08"; "2024-01-09"; "2024-01-10";
              "2024-01-11"; "2024-01-12"]) /\
  Num.ltb Num.zero Num.zero = false.
Proof.
  split; [vm_compute; reflexivity|].
  exact (forecast_not_negative Example.host Example.slump _ 2
           (mkPoint "2024-01-03" None (Some Num.zero)) Num.zero
           ltac:(vm_compute; reflexivity) eq_refl eq_refl).
Defined.


(** ** generateRichSummary: the statistics *)

Lemma sum_snoc {A} (f : A -> num) (l : list A) (x : A) :
  Arr.sum f (l ++ [x]) = Num.add (Arr.sum f l) (f x).
Proof. unfold Arr.sum. rewrite fold_left_app. reflexivity. Qed.

Lemma add_falsy (s e : num) :
  Num.is_finite s = true -> Num.is_finite e = true ->
  Num.add (or_num (Some s) Num.zero) e = Num.add s e.
Proof.
  intros [q ->]%finite_inv [y ->]%finite_inv. unfold or_num, Num.truthy.
  destruct (Num.qzero q) eqn:Hq; [|reflexivity]. simpl.
  unfold Num.fin. f_equal. apply Qred_complete.
  unfold Num.qzero in Hq. apply Z.eqb_eq in Hq.
  destruct q as [n d]. simpl in Hq. subst n.
  unfold Qeq, Qplus. simpl. lia.
Qed.

Section Statistics.
Variable key : SocialData -> string.

Lemma group_total_finite (data : list SocialData) (k : string) :
  Forall (fun r => Num.is_finite (Engagement r) = true) data ->
  Num.is_finite (group_total key data k) = true.
Proof.
  intros Hfin. unfold group_total.
  destruct (sum_finite Engagement (filter (fun item => key item = k) data))
    as [s ->]; [|reflexivity].
  apply Forall_forall. intros r Hr.
  apply list_elem_of_filter in Hr as [_ Hr].
  rewrite Forall_forall in Hfin. exact (Hfin r Hr).
Qed.

Lemma totalled_step (data : list SocialData) (item : SocialData)
    (stats : Obj.obj num) :
  Forall (fun r => Num.is_finite (Engagement r) = true) (data ++ [item]) ->
  totalled key data stats ->
  totalled key (data ++ [item])
    (Obj.set stats (key item)
       (Num.add (or_num (Obj.get stats (key item)) Num.zero)
                (Engagement item))).
Proof.
  intros Hfin [Hnd Hget]. apply Forall_app in Hfin as [Hdata Hitem].
  rewrite Forall_singleton in Hitem.
  split; [apply set_NoDup, Hnd|].
  intros k. rewrite filter_app, filter_cons, filter_nil.
  destruct (decide (key item = k)) as [<-|Hk].
  - rewrite get_set_eq, Hget. unfold group_total at 2.
    rewrite filter_app, filter_cons, filter_nil.
    rewrite decide_True by reflexivity. rewrite sum_snoc.
    destruct (filter (fun it => key it = key item) data) as [|x l] eqn:Hf.
    + reflexivity.
    + simpl app. f_equal. rewrite <- Hf. fold (group_total key data (key item)).
      apply add_falsy; [apply group_total_finite, Hdata | exact Hitem].
  - rewrite get_set_ne by exact Hk. rewrite app_nil_r, Hget.
    unfold group_total. rewrite filter_app, filter_cons, filter_nil.
    rewrite decide_False by exact Hk. rewrite app_nil_r. reflexivity.
Qed.

Lemma totalled_fold (done data : list SocialData) (stats : Obj.obj num) :
  Forall (fun r => Num.is_finite (Engagement r) = true) (done ++ data) ->
  totalled key done stats ->
  totalled key (done ++ data)
    (fold_left (fun acc curr =>
                  Obj.set acc (key curr)
                    (Num.add (or_num (Obj.get acc (key curr)) Num.zero)
                             (Engagement curr)))
               data stats).
Proof.
  revert done stats; induction data as [|item data IH]; intros done stats
    Hfin Hst; simpl.
  - rewrite app_nil_r. exact Hst.
  - rewrite (cons_middle item), app_assoc in *.
    apply IH; [exact Hfin|]. apply totalled_step; [|exact Hst].
    apply Forall_app in Hfin as [Hfin _]. exact Hfin.
Qed.

Lemma stats_by_totalled (data : list SocialData) :
  Forall (fun r => Num.is_finite (Engagement r) = true) data ->
  totalled key data (stats_by key data).
Proof.
  intros Hfin. apply (totalled_fold [] data); [exact Hfin|].
  split; [constructor | reflexivity].
Qed.


End Statistics.

Lemma week_plain_keys (key : SocialData -> string) :
  (key = Platform \/ key = Sector) -> plain_keys key Example.week.
Proof.
  intros [-> | ->]; unfold plain_keys, Example.week;
    repeat (apply Forall_cons; split; [|try apply Forall_nil_2]);
    simpl; intros H;
    repeat (apply elem_of_cons in H as [H|H]; [discriminate H|]);
    inversion H.
Qed.



(** ** Trimming *)

Lemma drop_spaces_head (l : list ascii) (c : ascii) (l' : list ascii) :
  Str.drop_spaces l = c :: l' -> Str.is_space c = false.
Proof.
  induction l as [|d l IH]; simpl; [discriminate|].
  destruct (Str.is_space d) eqn:Hd; [exact IH|].
  intros [= <- _]. exact Hd.
Qed.

Lemma drop_spaces_suffix (l : list ascii) :
  exists pre, l = pre ++ Str.drop_spaces l.
Proof.
  induction l as [|d l [pre IH]]; simpl; [exists []; reflexivity|].
  destruct (Str.is_space d).
  - exists (d :: pre). simpl. f_equal. exact IH.
  - exists []. reflexivity.
Qed.

Lemma drop_spaces_fixed (c : ascii) (l : list ascii) :
  Str.is_space c = false -> Str.drop_spaces (c :: l) = c :: l.
Proof. intros Hc. simpl. rewrite Hc. reflexivity. Qed.

(** A trimmed text that is not empty begins and ends with a character
    that is no white space. *)
Lemma trim_chars_shape (l : list ascii) :
  match Str.trim_chars l, rev (Str.trim_chars l) with
  | a :: _, b :: _ => Str.is_space a = false /\ Str.is_space b = false
  | _, _ => True
  end.
Proof.
  unfold Str.trim_chars. rewrite rev_involutive.
  destruct (Str.drop_spaces (rev (Str.drop_spaces l))) as [|b t] eqn:Hb;
    [exact I|].
  pose proof (drop_spaces_head _ _ _ Hb) as Hbs.
  destruct (rev (b :: t)) as [|a m] eqn:Ha; [exact I|].
  split; [|exact Hbs].
  destruct (drop_spaces_suffix (rev (Str.drop_spaces l))) as [pre Hpre].
  rewrite Hb in Hpre.
  apply (f_equal (@rev ascii)) in Hpre.
  rewrite rev_involutive, rev_app_distr, Ha in Hpre. simpl in Hpre.
  exact (drop_spaces_head _ _ _ Hpre).
Qed.

(** Trimming twice is trimming once. *)
Lemma trim_chars_idempotent (l : list ascii) :
  Str.trim_chars (Str.trim_chars l) = Str.trim_chars l.
Proof.
  pose proof (trim_chars_shape l) as Hs.
  destruct (Str.trim_chars l) as [|a m] eqn:Ht; [reflexivity|].
  destruct (rev (a :: m)) as [|b t] eqn:Hr.
  { apply (f_equal (@length ascii)) in Hr. rewrite length_rev in Hr.
    discriminate. }
  destruct Hs as [Ha Hb].
  unfold Str.trim_chars at 1. rewrite (drop_spaces_fixed a m Ha).
  rewrite Hr, (drop_spaces_fixed b t Hb), <- Hr. apply rev_involutive.
Qed.

Lemma trim_idempotent (s : string) : Str.trim (Str.trim s) = Str.trim s.
Proof.
  unfold Str.trim. rewrite chars_str, trim_chars_idempotent. reflexivity.
Qed.

(** Property X8.
    The summary has no white space at either end. *)
Theorem summary_trimmed (h : Host) (data : list SocialData)
    (nts : NTSResults) :
  Str.trim (generateRichSummary h data nts) = generateRichSummary h data nts.
Proof.
  unfold generateRichSummary. destruct (length data =? 0)%nat.
  - vm_compute. reflexivity.
  - apply trim_idempotent.
Qed.


Lemma drop_spaces_all (ws l : list ascii) :
  forallb Str.is_space ws = true ->
  Str.drop_spaces (ws ++ l) = Str.drop_spaces l.
Proof.
  induction ws as [|w ws IH]; simpl; [reflexivity|].
  intros [Hw Hws]%andb_prop. rewrite Hw. exact (IH Hws).
Qed.

Lemma drop_spaces_keep (a b : list ascii) (c : ascii) :
  Str.is_space c = false ->
  exists a', Str.drop_spaces (a ++ c :: b) = a' ++ c :: b.
Proof.
  intros Hc. induction a as [|d a [a' IH]]; simpl.
  - rewrite Hc. exists []. reflexivity.
  - destruct (Str.is_space d); [eauto|]. exists (d :: a). reflexivity.
Qed.

(** Trimming keeps what lies between the first and the last character
    that is no white space. *)
Lemma trim_chars_prefix (ws p t : list ascii) (c0 c : ascii) :
  forallb Str.is_space ws = true ->
  Str.is_space c0 = false -> Str.is_space c = false ->
  exists r, Str.trim_chars (ws ++ (c0 :: p) ++ c :: t) = (c0 :: p) ++ c :: r.
Proof.
  intros Hws Hc0 Hc. unfold Str.trim_chars.
  rewrite (drop_spaces_all ws _ Hws).
  change ((c0 :: p) ++ c :: t) with (c0 :: (p ++ c :: t)).
  rewrite (drop_spaces_fixed c0 _ Hc0).
  change (c0 :: (p ++ c :: t)) with ((c0 :: p) ++ c :: t).
  rewrite rev_app_distr. simpl rev at 1. rewrite <- app_assoc. simpl app at 2.
  destruct (drop_spaces_keep (rev t) (rev p ++ [c0]) c Hc) as [a' ->].
  exists (rev a'). rewrite rev_app_distr. simpl rev at 1.
  rewrite rev_app_distr, rev_involutive, <- app_assoc. reflexivity.
Qed.

(** Property X9.
    For an input that is not empty the summary opens with the status
    line; it is never the text returned for the empty input. *)
Theorem summary_header (h : Host) (data : list SocialData) (nts : NTSResults) :
  data <> [] ->
  exists rest,
    generateRichSummary h data nts = "Mission Status: Active" +:+ rest /\
    generateRichSummary h data nts <> "Fleet data unavailable.".
Proof.
  intros Hne. unfold generateRichSummary.
  destruct data as [|d0 data']; [contradiction|]. cbn [length Nat.eqb].
  cbv zeta.
  match goal with
  | |- context [Str.trim (nl +:+ "    Mission Status: Active" +:+ ?T)] =>
      set (tail := T)
  end.
  unfold Str.trim. rewrite !chars_append.
  destruct (trim_chars_prefix (Str.chars nl ++ Str.chars "    ")
              (Str.chars "ission Status: Activ") (Str.chars tail)
              "M"%char "e"%char eq_refl eq_refl eq_refl) as [r Hr].
  change (Str.chars nl ++ Str.chars "    Mission Status: Active"
          ++ Str.chars tail)
    with ((Str.chars nl ++ Str.chars "    ")
          ++ ("M"%char :: Str.chars "ission Status: Activ")
          ++ "e"%char :: Str.chars tail).
  rewrite Hr. exists (Str.str r). split.
  - change (("M"%char :: Str.chars "ission Status: Activ") ++ "e"%char :: r)
      with (Str.chars "Mission Status: Active" ++ r).
    rewrite <- (chars_str r) at 1. rewrite <- chars_append.
    apply str_chars.
  - intros Heq. apply (f_equal Str.chars) in Heq.
    rewrite chars_str in Heq. vm_compute in Heq. discriminate.
Qed.

Lemma summary_header_witness :
  Example.week <> [] /\
  exists rest,
    generateRichSummary Example.host Example.week
      (mkNTS "Monday" "09:00" (Num.of_Z 150) (Num.of_Z 29) "Tuesday @ 10:00")
    = "Mission Status: Active" +:+ rest.
Proof.
  assert (H1 : Example.week <> []) by discriminate.
  split; [exact H1|].
  destruct (summary_header Example.host Example.week
              (mkNTS "Monday" "09:00" (Num.of_Z 150) (Num.of_Z 29)
                 "Tuesday @ 10:00") H1) as (rest & Hr & _).
  exists rest. exact Hr.
Defined.


(** ** The section splitting: titles and contents *)

Lemma set_entries {V} (Q : string * V -> Prop) (o : Obj.obj V) (k : string)
    (v : V) :
  Forall Q o -> Q (k, v) -> Forall Q (Obj.set o k v).
Proof.
  intros Ho Hk. induction Ho as [|[k' v'] o Hk' Ho IH]; simpl.
  - repeat constructor. exact Hk.
  - destruct (String.eqb k' k); constructor; auto.
Qed.

Lemma close_bracket_no_title : Briefing.is_title_char "]" = false.
Proof. reflexivity. Qed.

Lemma span_title_app (t x : list ascii) :
  forallb Briefing.is_title_char t = true ->
  Briefing.span_title (t ++ "]"%char :: x) = (t, "]"%char :: x).
Proof.
  induction t as [|c t IH]; simpl.
  - intros _. reflexivity.
  - intros [Hc Ht]%andb_prop. rewrite Hc, (IH Ht). reflexivity.
Qed.

Lemma marker_at_intro (t x : list ascii) :
  t <> [] -> forallb Briefing.is_title_char t = true ->
  Briefing.marker_at ("["%char :: t ++ "]"%char :: x) = Some (t, x).
Proof.
  intros Hne Ht. unfold Briefing.marker_at.
  rewrite (span_title_app t x Ht).
  destruct t; [contradiction | reflexivity].
Qed.

(** A text that holds a marker has a first one. *)
Lemma first_marker_complete (l : list ascii) :
  Briefing.has_marker l ->
  exists b t r, Briefing.first_marker l = Some (b, t, r).
Proof.
  intros (pre & t & post & Hne & Ht & ->).
  induction pre as [|c pre IH].
  - simpl app. rewrite first_marker_cons, (marker_at_intro t post Hne Ht).
    eauto.
  - simpl app. rewrite first_marker_cons.
    destruct (Briefing.marker_at _) as [[t' r']|]; [eauto|].
    destruct IH as (b & t' & r' & ->). simpl. eauto.
Qed.

Lemma lazy_content_spec (l x rest : list ascii) :
  Briefing.lazy_content l = (x, rest) -> l = x ++ rest.
Proof.
  revert x rest; induction l as [|c l IH]; intros x rest.
  - intros [= <- <-]. reflexivity.
  - change (Briefing.lazy_content (c :: l))
      with (match Briefing.marker_at (c :: l) with
            | Some _ => ([], c :: l)
            | None => let '(x, r) := Briefing.lazy_content l in (c :: x, r)
            end).
    destruct (Briefing.marker_at (c :: l)).
    + intros [= <- <-]. reflexivity.
    + destruct (Briefing.lazy_content l) as [x' r'].
      intros [= <- <-]. simpl. f_equal. exact (IH _ _ eq_refl).
Qed.

(** Every match is a marker of the text followed by content. *)
Lemma match_all_spec (fuel : nat) (l m : list ascii) :
  m ∈ Briefing.match_all fuel l ->
  exists t x pre post,
    t <> [] /\ forallb Briefing.is_title_char t = true /\
    m = "["%char :: t ++ "]"%char :: x /\
    l = pre ++ "["%char :: t ++ "]"%char :: post.
Proof.
  revert l; induction fuel as [|fuel IH]; intros l; simpl.
  - intros H. inversion H.
  - destruct (Briefing.first_marker l) as [[[b t] r]|] eqn:Hf;
      [|intros H; inversion H].
    destruct (first_marker_spec _ _ _ _ Hf) as (-> & Hne & Ht).
    destruct (Briefing.lazy_content r) as [x rest] eqn:Hl.
    pose proof (lazy_content_spec _ _ _ Hl) as ->.
    intros [->|Hin]%elem_of_cons.
    + exists t, x, b, (x ++ rest). auto.
    + destruct (IH rest Hin) as (t' & x' & pre & post & ? & ? & -> & ->).
      exists t', x', (b ++ "["%char :: t ++ "]"%char :: x ++ pre), post.
      repeat split; try assumption.
      repeat first [rewrite <- app_assoc | rewrite <- app_comm_cons].
      reflexivity.
Qed.

Lemma add_section_marker (sections : Obj.obj string) (t x : list ascii) :
  t <> [] -> forallb Briefing.is_title_char t = true ->
  Briefing.add_section sections ("["%char :: t ++ "]"%char :: x)
  = Obj.set sections (Str.str t) (Str.str (Str.trim_chars x)).
Proof.
  intros Hne Ht. unfold Briefing.add_section.
  rewrite first_marker_cons, (marker_at_intro t x Hne Ht). reflexivity.
Qed.

(** Property X10.
    When the report holds a marker, every section is named by the
    title of a marker of the report, and its content is trimmed. *)
Theorem briefing_titles (reportRawText k v : string) :
  Briefing.has_marker (Str.chars reportRawText) ->
  (k, v) ∈ Briefing.startBriefing reportRawText ->
  (exists pre post,
     Str.chars reportRawText
     = pre ++ "["%char :: Str.chars k ++ "]"%char :: post) /\
  k <> "" /\ forallb Briefing.is_title_char (Str.chars k) = true /\
  Str.trim v = v.
Proof.
  intros Hm. unfold Briefing.startBriefing.
  set (l := Str.chars reportRawText).
  set (ms := Briefing.match_all (S (length l)) l).
  assert (Hms : forall m, m ∈ ms -> exists t x pre post,
            t <> [] /\ forallb Briefing.is_title_char t = true /\
            m = "["%char :: t ++ "]"%char :: x /\
            l = pre ++ "["%char :: t ++ "]"%char :: post)
    by (intros m; apply match_all_spec).
  assert (Hne : ms <> []).
  { subst ms. simpl.
    destruct (first_marker_complete l Hm) as (b & t & r & ->).
    destruct (Briefing.lazy_content r). discriminate. }
  destruct ms as [|m0 ms'] eqn:Hmatches; [contradiction|].
  set (Q := fun e : string * string =>
              (exists pre post,
                 l = pre ++ "["%char :: Str.chars (fst e) ++ "]"%char :: post) /\
              fst e <> "" /\
              forallb Briefing.is_title_char (Str.chars (fst e)) = true /\
              Str.trim (snd e) = snd e).
  assert (Hall : forall (done : list (list ascii)) (sections : Obj.obj string),
            (forall m, m ∈ done -> m ∈ m0 :: ms') ->
            Forall Q sections ->
            Forall Q (fold_left Briefing.add_section done sections)).
  { induction done as [|m done IH]; intros sections Hsub Hs; simpl;
      [exact Hs|].
    apply IH; [intros m' Hm'; apply Hsub; right; exact Hm'|].
    destruct (Hms m (Hsub m ltac:(left)))
      as (t & x & pre & post & Htne & Ht & -> & Hl).
    rewrite (add_section_marker sections t x Htne Ht).
    apply set_entries; [exact Hs|].
    unfold Q. simpl. rewrite chars_str. repeat split.
    - eauto.
    - intros He. apply (f_equal Str.chars) in He. rewrite chars_str in He.
      contradiction.
    - exact Ht.
    - unfold Str.trim. rewrite chars_str, trim_chars_idempotent.
      reflexivity. }
  intros Hin.
  specialize (Hall (m0 :: ms') [] ltac:(auto) ltac:(constructor)).
  rewrite Forall_forall in Hall. exact (Hall (k, v) Hin).
Qed.

Lemma sample_has_marker :
  Briefing.has_marker (Str.chars "intro [KEY_INSIGHTS] Views up ").
Proof.
  exists (Str.chars "intro "), (Str.chars "KEY_INSIGHTS"),
    (Str.chars " Views up ").
  repeat split. discriminate.
Qed.

Lemma briefing_titles_witness :
  Briefing.has_marker (Str.chars "intro [KEY_INSIGHTS] Views up ") /\
  ("KEY_INSIGHTS", "Views up")
  ∈ Briefing.startBriefing "intro [KEY_INSIGHTS] Views up " /\
  Str.trim "Views up" = "Views up".
Proof.
  assert (Hin : ("KEY_INSIGHTS", "Views up")
                ∈ Briefing.startBriefing "intro [KEY_INSIGHTS] Views up ")
    by (vm_compute; left).
  split; [exact sample_has_marker|]. split; [exact Hin|].
  exact (proj2 (proj2 (proj2
           (briefing_titles "intro [KEY_INSIGHTS] Views up " "KEY_INSIGHTS"
              "Views up" sample_has_marker Hin)))).
Defined.

(** ** Arrays passed by reference: results and frame *)

(** Property X11.
    Called on an array, each of the three functions returns what it
    returns on the array's elements, and leaves every array of the heap as
    it was. *)
Theorem by_reference_refines (h : Host) (σ : Heap.heap) (data : Heap.loc)
    (nts : NTSResults) (a : list SocialData) :
  σ !! data = Some a ->
  ((calculateNTS_at h data σ).1 = calculateNTS h a /\
   σ ⊆ (calculateNTS_at h data σ).2) /\
  ((generateNeuralForecast_at h data σ).1 = generateNeuralForecast h a /\
   σ ⊆ (generateNeuralForecast_at h data σ).2) /\
  ((generateRichSummary_at h data nts σ).1
   = Ok (generateRichSummary h a nts) /\
   σ ⊆ (generateRichSummary_at h data nts σ).2).
Proof.
  intros Hd. repeat split.
  - unfold calculateNTS_at, Heap.bind, Heap.read, Heap.lift. rewrite Hd.
    destruct (calculateNTS h a); reflexivity.
  - unfold calculateNTS_at, Heap.bind, Heap.read, Heap.lift. rewrite Hd.
    destruct (calculateNTS h a); reflexivity.
  - unfold generateNeuralForecast_at, generateNeuralForecast, Heap.bind,
      Heap.read. rewrite Hd.
    destruct (length a <? 2)%nat; [reflexivity|].
    rewrite Hd. unfold Heap.alloc, Heap.sort, Heap.lift.
    rewrite lookup_alter_eq, lookup_insert_eq. simpl. reflexivity.
  - unfold generateNeuralForecast_at, Heap.bind, Heap.read. rewrite Hd.
    destruct (length a <? 2)%nat; [reflexivity|].
    rewrite Hd. unfold Heap.alloc, Heap.sort, Heap.lift.
    rewrite lookup_alter_eq, lookup_insert_eq. simpl.
    apply map_subseteq_spec. intros l b Hl.
    pose proof (fresh_loc_ne σ l b Hl) as Hne.
    rewrite lookup_alter_ne, lookup_insert_ne by congruence. exact Hl.
  - unfold generateRichSummary_at, Heap.bind, Heap.read, Heap.ret.
    rewrite Hd. reflexivity.
  - unfold generateRichSummary_at, Heap.bind, Heap.read, Heap.ret.
    rewrite Hd. reflexivity.
Qed.

Lemma by_reference_refines_witness :
  ({[ 3%nat := Example.dip ]} : Heap.heap) !! 3%nat = Some Example.dip /\
  (generateNeuralForecast_at Example.host 3%nat {[ 3%nat := Example.dip ]}).1
  = generateNeuralForecast Example.host Example.dip.
Proof.
  split; [reflexivity|].
  exact (proj1 (proj1 (proj2
           (by_reference_refines Example.host {[ 3%nat := Example.dip ]}
              3%nat (mkNTS "" "" NaN NaN "") Example.dip eq_refl)))).
Defined.

(** ** processCSVData: the date *)





(** ** The hourly chart *)

Lemma on_the_clock_index (d : SocialData) :
  on_the_clock d = true ->
  exists i, Math.index (Hour d) = Some i /\ (i < 24)%nat.
Proof.
  unfold on_the_clock. destruct (Math.index (Hour d)) as [i|]; [|discriminate].
  intros Hi%Nat.ltb_lt. eauto.
Qed.

Lemma at_hour_snoc (i : nat) (data : list SocialData) (d : SocialData) :
  at_hour i (data ++ [d])
  = at_hour i data
    ++ (if decide (Math.index (Hour d) = Some i) then [d] else []).
Proof.
  unfold at_hour. rewrite filter_app, filter_cons, filter_nil. reflexivity.
Qed.

Lemma tallied_step (data : list SocialData) (d : SocialData)
    (hours : list Visuals.HourSlot) :
  on_the_clock d = true -> tallied data hours ->
  exists hours', Visuals.hourly_step hours d = Ok hours' /\
                 tallied (data ++ [d]) hours'.
Proof.
  intros (i & Hi & Hlt)%on_the_clock_index [Hlen Hslots].
  unfold Visuals.hourly_step. rewrite Hi. simpl.
  rewrite (Hslots i Hlt). simpl. eexists. split; [reflexivity|].
  split; [rewrite length_insert; exact Hlen|].
  intros j Hj. rewrite at_hour_snoc, Hi.
  destruct (decide (i = j)) as [->|Hne].
  - rewrite list_lookup_insert_eq by lia.
    rewrite decide_True by reflexivity.
    rewrite sum_snoc, length_app. simpl. f_equal. f_equal. lia.
  - rewrite list_lookup_insert_ne by exact Hne.
    rewrite decide_False by congruence. rewrite app_nil_r.
    exact (Hslots j Hj).
Qed.

Lemma tallied_fold (done data : list SocialData)
    (hours : list Visuals.HourSlot) :
  Forall (fun d => on_the_clock d = true) data -> tallied done hours ->
  exists hours', Visuals.hourly_fold hours data = Ok hours' /\
                 tallied (done ++ data) hours'.
Proof.
  intros Hall. revert done hours.
  induction Hall as [|d data Hd _ IH]; intros done hours Hst; simpl.
  - exists hours. rewrite app_nil_r. auto.
  - destruct (tallied_step done d hours Hd Hst) as (hours1 & -> & Hst1).
    simpl. destruct (IH _ _ Hst1) as (hours' & Hf & Hst').
    exists hours'. rewrite (cons_middle d), app_assoc. auto.
Qed.

Lemma tallied_init :
  tallied [] (replicate 24 {| Visuals.engagement := Num.zero;
                              Visuals.count := 0 |}).
Proof.
  split; [reflexivity|]. intros i Hi.
  rewrite lookup_replicate_2 by exact Hi. reflexivity.
Qed.

Lemma hourly_fold_throw (hours : list Visuals.HourSlot)
    (data : list SocialData) :
  length hours = 24%nat ->
  Exists (fun d => on_the_clock d = false) data ->
  Visuals.hourly_fold hours data = Throw TypeError.
Proof.
  intros Hlen Hex. revert hours Hlen.
  induction data as [|d data IH]; intros hours Hlen; [inversion Hex|].
  simpl. unfold Visuals.hourly_step.
  destruct (Math.index (Hour d)) as [i|] eqn:Hi; simpl; [|reflexivity].
  destruct (hours !! i) as [s|] eqn:Hs; simpl; [|reflexivity].
  apply Exists_cons in Hex as [Hd|Hex].
  - unfold on_the_clock in Hd. rewrite Hi in Hd.
    apply Nat.ltb_ge in Hd. apply lookup_lt_Some in Hs. lia.
  - apply IH; [exact Hex|]. rewrite length_insert. exact Hlen.
Qed.

(** Property X13.
    The hourly chart has twenty-four rows when the hour of every record
    is an integer from 0 to 23, and the call throws a [TypeError] when the
    hour of some record is not. *)
Theorem hourlyData_total (data : list SocialData) :
  (Forall (fun d => on_the_clock d = true) data ->
   exists rows, Visuals.hourlyData data = Ok rows /\ length rows = 24%nat) /\
  (Exists (fun d => on_the_clock d = false) data ->
   Visuals.hourlyData data = Throw TypeError).
Proof.
  split.
  - intros Hall. unfold Visuals.hourlyData.
    destruct (tallied_fold [] data _ Hall tallied_init)
      as (hours & -> & [Hlen _]).
    simpl. eexists. split; [reflexivity|]. rewrite length_imap. exact Hlen.
  - intros Hex. unfold Visuals.hourlyData.
    rewrite hourly_fold_throw; [reflexivity | reflexivity | exact Hex].
Qed.


Lemma week_on_the_clock :
  Forall (fun d => on_the_clock d = true) Example.week.
Proof. repeat constructor. Qed.

Lemma hourlyData_total_witness :
  Forall (fun d => on_the_clock d = true) Example.week /\
  exists rows,
    Visuals.hourlyData Example.week = Ok rows /\ length rows = 24%nat.
Proof.
  split; [exact week_on_the_clock|].
  exact (proj1 (hourlyData_total Example.week) week_on_the_clock).
Defined.



(** ** The sector chart *)

(** Property X15.
    The sector chart has one slice for each sector of the data, valued
    with the total engagement of the sector; for finite engagements, and
    sectors none of which is a name that objects inherit. *)
Theorem sectorData_slices (data : list SocialData) :
  plain_keys Sector data ->
  Forall (fun r => Num.is_finite (Engagement r) = true) data ->
  NoDup (map fst (Visuals.sectorData data)) /\
  (forall item, item ∈ data ->
     (Sector item, group_total Sector data (Sector item))
     ∈ Visuals.sectorData data) /\
  (forall k v, (k, v) ∈ Visuals.sectorData data ->
     exists item, item ∈ data /\ Sector item = k /\
                  v = group_total Sector data k).
Proof.
  intros _ Hfin. destruct (stats_by_totalled Sector data Hfin) as [Hnd Hget].
  unfold Visuals.sectorData. repeat split.
  - assert (Hp : map fst (Obj.entries (stats_by Sector data))
                 ≡ₚ map fst (stats_by Sector data)).
    { change (@map (string * num) string fst)
        with (@fmap list _ (string * num) string fst).
      apply fmap_Permutation, entries_perm. }
    rewrite Hp. exact Hnd.
  - intros item Hitem. rewrite entries_perm. apply get_Some_in.
    rewrite Hget.
    destruct (filter (fun it => Sector it = Sector item) data) as [|x l]
      eqn:Hf; [|reflexivity].
    assert (Hin : item ∈ filter (fun it => Sector it = Sector item) data)
      by (apply list_elem_of_filter; auto).
    rewrite Hf in Hin. inversion Hin.
  - intros k v He. rewrite entries_perm in He.
    pose proof (in_get _ _ _ Hnd He) as Hg. rewrite Hget in Hg.
    destruct (filter (fun it => Sector it = k) data) as [|x l] eqn:Hf;
      [discriminate|].
    injection Hg as <-.
    assert (Hin : x ∈ filter (fun it => Sector it = k) data)
      by (rewrite Hf; left).
    apply list_elem_of_filter in Hin as [<- Hin]. eauto.
Qed.

Lemma sectorData_slices_witness :
  plain_keys Sector Example.week /\
  Forall (fun r : SocialData => Num.is_finite (Engagement r) = true)
         Example.week /\
  NoDup (map fst (Visuals.sectorData Example.week)).
Proof.
  assert (H : Forall (fun r : SocialData =>
                        Num.is_finite (Engagement r) = true) Example.week)
    by (repeat constructor).
  pose proof (week_plain_keys Sector (or_intror eq_refl)) as Hk.
  split; [exact Hk|]. split; [exact H|].
  exact (proj1 (sectorData_slices Example.week Hk H)).
Defined.

(** ** The radar chart *)

Lemma max_zero_r_not_negative (x : num) :
  Num.ltb (Num.max x Num.zero) Num.zero = false.
Proof.
  destruct x as [|[]|q]; try reflexivity.
  unfold Num.max, Num.ltb, Num.zero, Num.of_Z.
  change (inject_Z 0) with 0%Q.
  destruct (Qle_bool 0 q) eqn:Hq; simpl; [rewrite Hq|]; reflexivity.
Qed.

Lemma peak_not_negative (f : SocialData -> num) (data : list SocialData) :
  Num.ltb (Visuals.peak f data) Num.zero = false.
Proof.
  unfold Visuals.peak, Math.max_of. rewrite fold_left_app. simpl.
  apply max_zero_r_not_negative.
Qed.

Lemma scale_not_negative (x : num) (k : Z) :
  0 < k -> Num.ltb x Num.zero = false ->
  Num.ltb (Num.mul x (Num.of_Z k)) Num.zero = false /\
  Num.ltb (Num.div x (Num.of_Z k)) Num.zero = false.
Proof.
  intros Hk Hx. destruct x as [| [] |q]; try discriminate.
  - split; reflexivity.
  - unfold Num.mul, Num.div, Num.of_Z, Num.qzero, Num.qneg. simpl Qnum.
    destruct (Z.eqb_spec k 0); [lia|].
    destruct (Z.ltb_spec k 0); [lia|]. split; reflexivity.
  - unfold Num.ltb, Num.zero, Num.of_Z in Hx.
    change (inject_Z 0) with 0%Q in Hx.
    apply negb_false_iff, Qle_bool_iff in Hx.
    assert (Hkq : (0 < inject_Z k)%Q).
    { change 0%Q with (inject_Z 0). rewrite <- Zlt_Qlt. exact Hk. }
    unfold Num.mul, Num.div, Num.of_Z, Num.qzero. simpl Qnum.
    destruct (Z.eqb_spec k 0); [lia|].
    unfold Num.fin, Num.ltb, Num.zero, Num.of_Z.
    change (inject_Z 0) with 0%Q.
    split; apply negb_false_iff, Qle_bool_iff; rewrite Qred_correct.
    + apply Qmult_le_0_compat; [exact Hx | apply Qlt_le_weak, Hkq].
    + apply Qle_shift_div_l; [exact Hkq|]. rewrite Qmult_0_l. exact Hx.
Qed.

(** Property X16.
    No axis of the radar chart is negative, whatever the data. *)
Theorem radarData_not_negative (data : list SocialData) :
  Forall (fun a => Num.ltb (snd a) Num.zero = false)
         (Visuals.radarData data).
Proof.
  unfold Visuals.radarData.
  repeat constructor; simpl;
    first [ apply peak_not_negative
          | apply scale_not_negative; [lia | apply peak_not_negative] ].
Qed.

(** ** The trajectory chart *)

Section Trajectory.
Variable h : Host.

Lemma pad_fold_spec (historicalDates dates : list string)
    (padded : list Visuals.TrajectoryPoint) (p : Visuals.TrajectoryPoint) :
  p ∈ fold_left (Visuals.pad_step historicalDates) dates padded <->
  (p ∈ padded \/
   exists d, d ∈ dates /\ (d ∉ historicalDates) /\
             p = {| Visuals.spread := Visuals.blank; Visuals.tdate := d;
                    Visuals.shown := None |}).
Proof.
  revert padded; induction dates as [|d dates IH]; intros padded; simpl.
  - split; [auto|]. intros [H|(d & Hd & _)]; [exact H | inversion Hd].
  - rewrite IH. unfold Visuals.pad_step.
    destruct (decide (d ∈ historicalDates)) as [Hin|Hout].
    + split.
      * intros [H|(d' & Hd' & Hn & ->)]; [auto|].
        right. exists d'. split; [right; exact Hd' | auto].
      * intros [H|(d' & Hd' & Hn & ->)]; [auto|].
        apply elem_of_cons in Hd' as [->|Hd']; [contradiction|].
        right. eauto.
    + rewrite elem_of_app, list_elem_of_singleton. split.
      * intros [[H| ->]|(d' & Hd' & Hn & ->)]; [auto| |].
        -- right. exists d. split; [left | auto].
        -- right. exists d'. split; [right; exact Hd' | auto].
      * intros [H|(d' & Hd' & Hn & ->)]; [auto|].
        apply elem_of_cons in Hd' as [->|Hd']; [auto|].
        right. eauto.
Qed.

(** Property X17.
    The trajectory chart holds a point for every record of the data and
    a point for every date of the forecast; a point that stands for no
    record shows no engagement. *)
Theorem syncedTrajectoryData_covers (data : list SocialData)
    (forecast : list ForecastPoint) :
  (forall d, d ∈ data ->
     Visuals.historical_point d
     ∈ Visuals.syncedTrajectoryData h data forecast) /\
  (forall f, f ∈ forecast ->
     date f ∈ map Visuals.tdate
                (Visuals.syncedTrajectoryData h data forecast)) /\
  (forall p, p ∈ Visuals.syncedTrajectoryData h data forecast ->
     (exists d, d ∈ data /\ p = Visuals.historical_point d) \/
     (exists f, f ∈ forecast /\ Visuals.tdate p = date f /\
                Visuals.shown p = None)).
Proof.
  unfold Visuals.syncedTrajectoryData. cbv zeta.
  set (historical := map Visuals.historical_point data).
  set (dates := map Visuals.tdate historical).
  assert (Hhist : forall p, p ∈ historical <->
            exists d, d ∈ data /\ p = Visuals.historical_point d).
  { intros p. unfold historical. split.
    - intros Hp. apply list_elem_of_In, in_map_iff in Hp as (d & <- & Hd).
      exists d. split; [apply list_elem_of_In; exact Hd | reflexivity].
    - intros (d & Hd & ->). apply list_elem_of_In, in_map, list_elem_of_In.
      exact Hd. }
  split; [|split].
  - intros d Hd. rewrite sort_perm. apply pad_fold_spec. left.
    apply Hhist. eauto.
  - intros f Hf. apply list_elem_of_In, in_map_iff.
    destruct (decide (date f ∈ dates)) as [Hin|Hout].
    + apply list_elem_of_In, in_map_iff in Hin as (p & Hp & Hin).
      exists p. split; [exact Hp|].
      apply list_elem_of_In. rewrite sort_perm. apply pad_fold_spec. left.
      apply list_elem_of_In. exact Hin.
    + eexists. split; [|apply list_elem_of_In; rewrite sort_perm;
                        apply pad_fold_spec; right; exists (date f);
                        split; [|split; [exact Hout | reflexivity]]].
      * reflexivity.
      * apply list_elem_of_In, in_map, list_elem_of_In. exact Hf.
  - intros p Hp. rewrite sort_perm in Hp.
    apply pad_fold_spec in Hp as [Hp|(d & Hd & _ & ->)].
    + left. apply Hhist. exact Hp.
    + right. apply list_elem_of_In, in_map_iff in Hd as (f & <- & Hf).
      exists f. rewrite list_elem_of_In. auto.
Qed.

End Trajectory.


(** ** Integers as numbers *)

Lemma add_of_Z (a b : Z) : Num.add (Num.of_Z a) (Num.of_Z b) = Num.of_Z (a + b).
Proof.
  unfold Num.add, Num.of_Z, Num.fin. f_equal.
  rewrite <- (inject_Z_Qred (a + b)). apply Qred_complete.
  rewrite inject_Z_plus. reflexivity.
Qed.

Lemma sub_of_Z (a b : Z) : Num.sub (Num.of_Z a) (Num.of_Z b) = Num.of_Z (a - b).
Proof.
  unfold Num.sub, Num.neg, Num.add, Num.of_Z, Num.fin. f_equal.
  rewrite <- (inject_Z_Qred (a - b)). apply Qred_complete.
  rewrite Qred_correct. unfold Z.sub.
  rewrite inject_Z_plus, inject_Z_opp. reflexivity.
Qed.

Lemma ltb_of_Z (a b : Z) : Num.ltb (Num.of_Z a) (Num.of_Z b) = (a <? b).
Proof.
  unfold Num.ltb, Num.of_Z.
  destruct (Z.ltb_spec a b) as [Hlt|Hge].
  - destruct (Qle_bool (inject_Z b) (inject_Z a)) eqn:Hq; [|reflexivity].
    apply Qle_bool_iff in Hq. rewrite <- Zle_Qle in Hq. lia.
  - assert (Hq : Qle_bool (inject_Z b) (inject_Z a) = true)
      by (apply Qle_bool_iff; rewrite <- Zle_Qle; lia).
    rewrite Hq. reflexivity.
Qed.

Lemma max_of_Z (a b : Z) :
  Num.max (Num.of_Z a) (Num.of_Z b) = Num.of_Z (Z.max a b).
Proof.
  change (Num.max (Num.of_Z a) (Num.of_Z b))
    with (if Num.ltb (Num.of_Z a) (Num.of_Z b) then Num.of_Z b
          else Num.of_Z a).
  rewrite ltb_of_Z. destruct (Z.ltb_spec a b); f_equal; lia.
Qed.

Lemma min_of_Z (a b : Z) :
  Math.min (Num.of_Z a) (Num.of_Z b) = Num.of_Z (Z.min a b).
Proof.
  change (Math.min (Num.of_Z a) (Num.of_Z b))
    with (if Num.ltb (Num.of_Z b) (Num.of_Z a) then Num.of_Z b
          else Num.of_Z a).
  rewrite ltb_of_Z. destruct (Z.ltb_spec b a); f_equal; lia.
Qed.

Lemma index_of_Z (z : Z) :
  0 <= z -> Math.index (Num.of_Z z) = Some (Z.to_nat z).
Proof.
  intros Hz. unfold Math.index, Num.of_Z. rewrite inject_Z_Qred. simpl.
  destruct (Z.leb_spec 0 z); [reflexivity | lia].
Qed.

(** ** The integrity of the link *)

(** Property X18.
    Whatever the pulses, the integrity of the link is an integer from 0
    to 100. *)
Theorem linkIntegrity_bounds (pulses : list App.Pulse) :
  exists z, App.linkIntegrity_after pulses = Num.of_Z z /\ 0 <= z <= 100.
Proof.
  unfold App.linkIntegrity_after.
  assert (H : forall start, 0 <= start <= 100 ->
            exists z, fold_left App.linkIntegrity_next pulses (Num.of_Z start)
                      = Num.of_Z z /\ 0 <= z <= 100).
  { induction pulses as [|p pulses IH]; intros start Hs; [simpl; eauto|].
    cbn [fold_left]. destruct p; unfold App.linkIntegrity_next.
    - rewrite add_of_Z, min_of_Z. apply IH. lia.
    - rewrite sub_of_Z. change Num.zero with (Num.of_Z 0).
      rewrite max_of_Z. apply IH. lia.
    - rewrite sub_of_Z. change Num.zero with (Num.of_Z 0).
      rewrite max_of_Z. apply IH. lia. }
  apply H. lia.
Qed.

(** ** The log of packets *)

Lemma take_app_take {A} (n : nat) (a b : list A) :
  take n (a ++ take n b) = take n (a ++ b).
Proof.
  rewrite !take_app, take_take. f_equal. f_equal. lia.
Qed.

(** Property X19.
    The log holds the last ten packets, the newest first. *)
Theorem streamLog_last_ten {P} (packets : list P) :
  fold_left (fun log p => App.push_packet p log) packets []
  = take 10 (rev packets) /\
  (length (fold_left (fun log p => App.push_packet p log) packets [])
   <= 10)%nat.
Proof.
  assert (H : forall acc,
            fold_left (fun log p => App.push_packet p log) packets
                      (take 10 acc)
            = take 10 (rev packets ++ acc)).
  { induction packets as [|p packets IH]; intros acc; simpl; [reflexivity|].
    unfold App.push_packet at 2.
    change (p :: take 10 acc) with ([p] ++ take 10 acc).
    rewrite take_app_take, IH, <- app_assoc. reflexivity. }
  specialize (H []). rewrite app_nil_r in H. simpl in H.
  rewrite H. split; [reflexivity|]. rewrite length_take. lia.
Qed.

(** ** filteredData *)


Lemma filter_all {A} (P : A -> Prop) `{!forall x, Decision (P x)}
    (l : list A) :
  (forall x, P x) -> filter P l = l.
Proof.
  intros HP. induction l as [|x l IH]; [reflexivity|].
  rewrite filter_cons, decide_True by apply HP. f_equal. exact IH.
Qed.

(** One filter of the view. *)
Lemma filter_or_all (column : SocialData -> string) (chosen : string)
    (l : list SocialData) :
  (if String.eqb chosen "All" then l
   else filter (fun d => column d = chosen) l)
  = filter (fun d => chosen = "All" \/ column d = chosen) l.
Proof.
  destruct (String.eqb_spec chosen "All") as [Hc|Hc].
  - symmetry. apply filter_all. auto.
  - apply list_filter_iff. intros d. tauto.
Qed.

Section FilteredData.
Variable h : Host.

(** Property X20.
    The view holds the records that pass the two filters, each once; a
    filter set to [All] lets every record pass. *)
Theorem filteredData_filters (data : list SocialData)
    (platformFilter sectorFilter : string) (sortBy : App.SortBy)
    (sortOrder : App.SortOrder) :
  App.filteredData h data platformFilter sectorFilter sortBy sortOrder
  ≡ₚ filter (fun d => (sectorFilter = "All" \/ Sector d = sectorFilter) /\
                      (platformFilter = "All" \/ Platform d = platformFilter))
            data.
Proof.
  unfold App.filteredData. cbv zeta. rewrite sort_perm.
  rewrite (filter_or_all Platform), (filter_or_all Sector).
  rewrite list_filter_filter. reflexivity.
Qed.



End FilteredData.


(** ** The quoted advice *)



(** ** The advice quoted in the report request *)

(** Property X23.
    With no message of the assistant the request quotes the standing
    text; with one, whose content is not empty, it quotes that content. *)
Theorem latestAdvice_cases (chatHistory : list Service.ChatMessage) :
  (List.filter Service.is_assistant chatHistory = [] ->
   Service.latestAdvice chatHistory
   = "Awaiting manual strategic overrides.") /\
  (forall m, List.filter Service.is_assistant chatHistory = [m] ->
             Service.content m <> "" ->
             Service.latestAdvice chatHistory = Service.content m).
Proof.
  unfold Service.latestAdvice, Service.advisers, slice_last. split.
  - intros ->. reflexivity.
  - intros m -> Hm. simpl.
    destruct (String.eqb_spec (Service.content m) "");
      [contradiction | reflexivity].
Qed.

Lemma latestAdvice_cases_witness :
  Service.latestAdvice [Service.mkMessage Service.user "status?"]
  = "Awaiting manual strategic overrides." /\
  Service.latestAdvice [Service.mkMessage Service.user "status?";
                        Service.mkMessage Service.assistant "Hold."]
  = "Hold.".
Proof.
  split.
  - exact (proj1 (latestAdvice_cases
                    [Service.mkMessage Service.user "status?"]) eq_refl).
  - refine (proj2 (latestAdvice_cases
                     [Service.mkMessage Service.user "status?";
                      Service.mkMessage Service.assistant "Hold."])
              (Service.mkMessage Service.assistant "Hold.") eq_refl _).
    discriminate.
Defined.

(** ** Mock points *)

Lemma floor_of_draw (r : Q) :
  (0 <= r)%Q -> (r < 1)%Q ->
  exists i, (i < 4)%nat /\
    Math.index (Math.floor (Num.mul (Fin r) (Num.of_Z 4))) = Some i.
Proof.
  intros H0 H1. unfold Num.mul, Num.of_Z, Num.fin, Math.floor.
  set (z := Qfloor (Qred (r * inject_Z 4))).
  assert (Hz : 0 <= z < 4).
  { subst z. rewrite (Qfloor_comp _ _ (Qred_correct _)). split.
    - pose proof (Qfloor_resp_le (inject_Z 0) (r * inject_Z 4)) as Hle.
      rewrite Qfloor_Z in Hle. apply Hle. unfold inject_Z. lra.
    - apply Z.lt_le_pred. simpl Z.pred.
      assert (Hlt : (inject_Z (Qfloor (r * inject_Z 4)) < inject_Z 4)%Q).
      { eapply Qle_lt_trans; [apply Qfloor_le|]. unfold inject_Z. lra. }
      rewrite <- Zlt_Qlt in Hlt. lia. }
  exists (Z.to_nat z). split; [lia|].
  fold (Num.of_Z z). apply index_of_Z. lia.
Qed.

Lemma pick_defined (options : list string) (r : Q) :
  length options = 4%nat -> (0 <= r)%Q -> (r < 1)%Q ->
  exists s, App.pick options r = VStr s /\ s ∈ options.
Proof.
  intros Hlen H0 H1. unfold App.pick.
  destruct (floor_of_draw r H0 H1) as (i & Hi & ->). simpl.
  destruct (lookup_lt_is_Some_2 options i ltac:(lia)) as [s Hs].
  rewrite Hs. exists s. split; [reflexivity|].
  eapply list_elem_of_lookup_2. exact Hs.
Qed.

Section MockPoint.
Variable h : Host.

(** Property X24.
    A mock point of a valid date has a sector and a platform among
    the four listed, the hour of its date, and has drawn four random
    numbers; on an invalid date the call throws a [RangeError]. *)
Theorem generateMockPoint_labels (k : nat) (d : JsDate.time)
    (baseEng multiplier : num) :
  random_ok h ->
  match d with
  | Some t =>
      exists p iso,
        App.generateMockPoint h k d baseEng multiplier = Ok (p, (k + 4)%nat) /\
        JsDate.toISOString d = Ok iso /\ Date p = VStr iso /\
        (exists s, Sector p = VStr s /\
                   s ∈ ["Tech"; "Gaming"; "Finance"; "Lifestyle"]) /\
        (exists s, Platform p = VStr s /\
                   s ∈ ["X"; "Instagram"; "LinkedIn"; "Facebook"]) /\
        Hour p = getHours h d
  | None => App.generateMockPoint h k d baseEng multiplier = Throw RangeError
  end.
Proof.
  intros Hr. destruct d as [t|]; [|reflexivity].
  unfold App.generateMockPoint. cbv zeta.
  destruct (toISOString_valid t) as [iso ->]. simpl.
  eexists _, iso. split; [reflexivity|]. simpl. split; [reflexivity|].
  split; [reflexivity|].
  destruct (Hr (k + 2)%nat) as [Ha Hb]. destruct (Hr (k + 3)%nat) as [Hc Hd].
  split; [apply pick_defined | split; [apply pick_defined | reflexivity]];
    auto.
Qed.

(** Property X25.
    A pulse keeps the number of records: the oldest leaves and a mock
    point dated one hour after the last record enters, provided the date
    of the last record is a date with an hour left after it in the range
    of dates; on no record the update throws a [TypeError]. *)
Theorem roll_data_window (k : nat) (score multiplier : num) :
  App.roll_data h k [] score multiplier = Throw TypeError /\
  forall (prevData : list (SocialDataOf jsval))
         (lastRecord : SocialDataOf jsval) (s : string) (t : Z),
    last prevData = Some lastRecord -> Date lastRecord = VStr s ->
    Date_of_string h s = Some t ->
    t + JsDate.msPerHour <= JsDate.maxTime ->
    exists newPoint iso,
      App.roll_data h k prevData score multiplier
      = Ok (drop 1 prevData ++ [newPoint], (k + 4)%nat) /\
      JsDate.toISOString (Some (t + JsDate.msPerHour)) = Ok iso /\
      Date newPoint = VStr iso /\
      length (drop 1 prevData ++ [newPoint]) = length prevData.
Proof.
  split; [reflexivity|].
  intros prevData lastRecord s t Hl Hs Ht Hmax.
  unfold App.roll_data. rewrite Hl, Hs.
  cbn [Date_of_value]. rewrite Ht. cbn [getTime]. rewrite add_of_Z.
  unfold Num.of_Z at 1. cbn [inject_Z Qnum Qden]. rewrite Z.quot_1_r.
  pose proof (Date_of_string_range h s t Ht) as Hrange.
  assert (Hclip : JsDate.TimeClip (t + 1000 * 60 * 60)
                  = Some (t + JsDate.msPerHour)).
  { unfold JsDate.TimeClip.
    change (1000 * 60 * 60) with JsDate.msPerHour.
    destruct (Z.leb_spec (Z.abs (t + JsDate.msPerHour)) JsDate.maxTime) as [|Hgt];
      [reflexivity|].
    exfalso. unfold JsDate.msPerHour, JsDate.maxTime in *. lia. }
  rewrite Hclip. unfold App.generateMockPoint. cbv zeta.
  destruct (toISOString_valid (t + JsDate.msPerHour)) as [iso Hiso].
  rewrite Hiso. simpl. eexists _, iso. split; [reflexivity|].
  split; [reflexivity|]. split; [reflexivity|].
  rewrite length_app, length_drop. simpl.
  destruct prevData; [discriminate Hl | simpl; lia].
Qed.

End MockPoint.

Lemma generateMockPoint_labels_witness :
  random_ok Example.host /\
  exists p,
    App.generateMockPoint Example.host 0 (Some 0) (Num.of_Z 100) (Num.of_Z 1)
    = Ok (p, 4%nat) /\
    Sector p = VStr "Finance" /\ Engagement p = Num.of_Z 150.
Proof.
  split; [exact host_random_ok|].
  destruct (generateMockPoint_labels Example.host 0 (Some 0) (Num.of_Z 100)
              (Num.of_Z 1) host_random_ok) as (p & iso & Hp & _).
  exists p. split; [exact Hp|].
  vm_compute in Hp. injection Hp as <-. split; reflexivity.
Defined.

Lemma roll_data_window_witness :
  exists newPoint,
    App.roll_data Example.host 0
      [Example.normalised "2024-01-01T09:00:00" Num.zero Num.zero
         (Num.of_Z 9);
       Example.normalised "2024-01-01T10:00:00" Num.zero Num.zero
         (Num.of_Z 10)]
      (Num.of_Z 250) (Num.of_Z 1)
    = Ok ([Example.normalised "2024-01-01T10:00:00" Num.zero Num.zero
             (Num.of_Z 10); newPoint], 4%nat) /\
    Date newPoint = VStr "2024-01-01T11:00:00.000Z".
Proof.
  destruct (proj2 (roll_data_window Example.host 0 (Num.of_Z 250)
                     (Num.of_Z 1))
              [Example.normalised "2024-01-01T09:00:00" Num.zero Num.zero
                 (Num.of_Z 9);
               Example.normalised "2024-01-01T10:00:00" Num.zero Num.zero
                 (Num.of_Z 10)]
              (Example.normalised "2024-01-01T10:00:00" Num.zero Num.zero
                 (Num.of_Z 10))
              "2024-01-01T10:00:00" 1704103200000
              eq_refl eq_refl
              ltac:(vm_compute; reflexivity) ltac:(vm_compute; discriminate))
    as (newPoint & iso & Hr & Hiso & Hd & _).
  exists newPoint. split; [exact Hr|].
  rewrite Hd. vm_compute in Hiso. injection Hiso as <-. reflexivity.
Defined.
